(** * ensue-cli: a shallow embedding of [scripts/ensue-cli.py]

    The script forwards one JSON-encoded tool invocation to a remote MCP
    service.  This development embeds the part of the script that runs
    under pipx: [create_session], [call_tool], [get_config],
    [format_result], [main_async] and [main]; then [list_tools], which
    the command line never calls, and the bootstrap wrapper
    ([ensure_pipx], [main_wrapper]) with the script as a whole.

    Modelling conventions.
    - A Python [str] is a [string] whose characters are read as code
      points below 256.
    - A value returned by the remote call is a finite tree; the keys of a
      dictionary are strings; an object of a class [json.dumps] does not
      know carries what [str()] gives for it and, when its class is
      iterable, the items an iteration yields.
    - The command line, the process environment, the file system and the
      behaviour of the remote service are the fields of a [World]; a run
      is a function of the world.
    - Effects are a trace of observable [event]s together with an outcome:
      a returned value, or a raised [SystemExit] or [Exception].
    - [json.loads] belongs to the Python runtime and is a parameter of
      [main_async]: on a string it returns a value, raises
      [JSONDecodeError], or raises another exception.  [json.dumps] is
      embedded for the values modelled here within the limits of the
      encoder, and checked against the grammar of RFC 8259, which is
      written out as a decoder.
    - [print] returns: the standard streams accept what is written to
      them, and the value printed has a text.
    - The context managers of the mcp library may raise on entry and on
      exit; they do not suppress an exception raised in their body.
    - [Path.resolve] and the imports that precede [main] belong to the
      host: what a path resolves to and whether the imports succeed are
      fields of an [Installer]. *)

From Stdlib Require Import Ascii.
From stdpp Require Import base option list strings pretty gmap.

Set Warnings "-register-all".
Open Scope string_scope.
Open Scope list_scope.
Open Scope nat_scope.

(** ** Python strings *)

Module PyStr.

(** The double quote character, code point 34. *)
Definition dquote : ascii := "034"%char.
Definition q : string := String dquote "".

Definition code (a : ascii) : N := N_of_ascii a.

(** [str.isspace] on one character, for code points below 256:
    U+0009..U+000D, U+001C..U+0020, U+0085 and U+00A0. *)
Definition isspace (a : ascii) : bool :=
  let c := code a in
  ((9 <=? c) && (c <=? 13) || (28 <=? c) && (c <=? 32)
   || (c =? 133) || (c =? 160))%N.

Fixpoint lstrip (s : string) : string :=
  match s with
  | String a s' => if isspace a then lstrip s' else s
  | EmptyString => EmptyString
  end.

Definition rstrip (s : string) : string :=
  String.rev (lstrip (String.rev s)).

(** [s.strip()] *)
Definition strip (s : string) : string := rstrip (lstrip s).

(** Truthiness of an [Optional[str]]: [None] and the empty string are
    falsy. *)
Definition truthy (o : option string) : bool :=
  match o with
  | Some (String _ _) => true
  | _ => false
  end.

(** [s.startswith(prefix)] *)
Fixpoint startswith (s prefix : string) : bool :=
  match prefix, s with
  | EmptyString, _ => true
  | String a prefix', String b s' => Ascii.eqb a b && startswith s' prefix'
  | String _ _, EmptyString => false
  end.

(** [needle in hay] *)
Fixpoint contains (needle hay : string) : bool :=
  startswith hay needle
  || match hay with
     | EmptyString => false
     | String _ hay' => contains needle hay'
     end.

Fixpoint join (sep : string) (l : list string) : string :=
  match l with
  | [] => ""
  | [x] => x
  | x :: rest => x +:+ sep +:+ join sep rest
  end.

(** [s * n] *)
Fixpoint times (s : string) (n : nat) : string :=
  match n with
  | 0 => ""
  | S n => s +:+ times s n
  end.

End PyStr.

(** ** Python values *)

(** Values produced by [json.loads]. *)
Inductive json : Type :=
| JNull
| JBool (b : bool)
| JInt (z : Z)
| JFloat (lit : string)   (* a float, carried as the literal [json.dumps] writes for it *)
| JStr (s : string)
| JList (l : list json)
| JDict (kvs : list (string * json)).

(** Values a remote call may return: the built-in types [json.dumps]
    knows, and objects of other classes, which carry a class name, the
    result of [str()] on them, their attributes and, when the class is
    iterable (a set, a generator, a class with [__iter__]), the items an
    iteration over them yields.  Values are finite trees and the keys of
    a dictionary are strings. *)
Inductive pyobj : Type :=
| PNone
| PBool (b : bool)
| PInt (z : Z)
| PFloat (lit : string)
| PStr (s : string)
| PList (l : list pyobj)
| PTuple (l : list pyobj)
| PDict (kvs : list (string * pyobj))
| PObject (cls : string) (str_ : string) (attrs : list (string * pyobj))
    (items : option (list pyobj)).

Fixpoint to_py (j : json) : pyobj :=
  match j with
  | JNull => PNone
  | JBool b => PBool b
  | JInt z => PInt z
  | JFloat lit => PFloat lit
  | JStr s => PStr s
  | JList l => PList (map to_py l)
  | JDict kvs => PDict (map (λ kv, match kv with (k, v) => (k, to_py v) end) kvs)
  end.

(** Exceptions derived from [Exception]: the class name and [str(e)]. *)
Record exn : Type := Exn { exn_class : string; exn_str : string }.

Module Py.

Fixpoint assoc {A} (name : string) (l : list (string * A)) : option A :=
  match l with
  | [] => None
  | (k, v) :: rest => if String.eqb k name then Some v else assoc name rest
  end.

(** [getattr(o, name)] when [hasattr(o, name)].  Only the attributes of
    objects are modelled; the built-in types have no attribute named
    [content] or [text], the two names the script asks for. *)
Definition getattr (o : pyobj) (name : string) : option pyobj :=
  match o with
  | PObject _ _ attrs _ => assoc name attrs
  | _ => None
  end.

Definition hasattr (o : pyobj) (name : string) : bool :=
  bool_decide (is_Some (getattr o name)).

Definition type_name (o : pyobj) : string :=
  match o with
  | PNone => "NoneType"
  | PBool _ => "bool"
  | PInt _ => "int"
  | PFloat _ => "float"
  | PStr _ => "str"
  | PList _ => "list"
  | PTuple _ => "tuple"
  | PDict _ => "dict"
  | PObject cls _ _ _ => cls
  end.

Fixpoint chars (s : string) : list pyobj :=
  match s with
  | EmptyString => []
  | String a s' => PStr (String a "") :: chars s'
  end.

(** The [TypeError] of a [for] loop over a value that is not iterable. *)
Definition not_iterable (o : pyobj) : exn :=
  Exn "TypeError" ("'" +:+ type_name o +:+ "' object is not iterable").

(** A [for] loop can run over [o]. *)
Definition iterable (o : pyobj) : bool :=
  match o with
  | PList _ | PTuple _ | PStr _ | PDict _ | PObject _ _ _ (Some _) => true
  | _ => false
  end.

(** The items a [for] loop over [o] visits, or the [TypeError] it
    raises.  Lists and tuples yield their elements, strings their
    characters, dicts their keys, objects of an iterable class their
    items; [None], numbers, booleans and objects of other classes are not
    iterable. *)
Definition iter (o : pyobj) : exn + list pyobj :=
  match o with
  | PList l | PTuple l => inr l
  | PStr s => inr (chars s)
  | PDict kvs => inr (map (λ kv, PStr (fst kv)) kvs)
  | PObject _ _ _ (Some items) => inr items
  | _ => inl (not_iterable o)
  end.

End Py.

(** ** [json.dumps] *)

Module Json.
Import PyStr.

Definition hex_digit (n : N) : ascii :=
  ascii_of_N (if (n <? 10)%N then 48 + n else 87 + n)%N.

(** ['\\u{0:04x}'.format(n)] *)
Definition u_escape (n : N) : string :=
  "\u" +:+ String (hex_digit ((n / 4096) `mod` 16)%N)
          (String (hex_digit ((n / 256) `mod` 16)%N)
          (String (hex_digit ((n / 16) `mod` 16)%N)
          (String (hex_digit (n `mod` 16)%N) ""))).

(** The replacement of one character under [ensure_ascii=True]. *)
Definition escape_char (a : ascii) : string :=
  let c := code a in
  if (c =? 34)%N then "\" +:+ q
  else if (c =? 92)%N then "\\"
  else if (c =? 10)%N then "\n"
  else if (c =? 13)%N then "\r"
  else if (c =? 9)%N then "\t"
  else if (c =? 8)%N then "\b"
  else if (c =? 12)%N then "\f"
  else if ((32 <=? c) && (c <=? 126))%N then String a ""
  else u_escape c.

Fixpoint escape (s : string) : string :=
  match s with
  | EmptyString => ""
  | String a s' => escape_char a +:+ escape s'
  end.

(** A string as a JSON string literal. *)
Definition quote (s : string) : string := q +:+ escape s +:+ q.

(** [json.dumps(o, default=str)] with the default separators.  A tuple
    is encoded as a list is.  The [default] hook is called on the values
    the encoder does not know, here the objects, and its result, a
    string, is encoded in place. *)
Fixpoint dumps_default_str (o : pyobj) : string :=
  match o with
  | PNone => "null"
  | PBool b => if b then "true" else "false"
  | PInt z => pretty z
  | PFloat lit => lit
  | PStr s => quote s
  | PList l | PTuple l => "[" +:+ join ", " (map dumps_default_str l) +:+ "]"
  | PDict kvs =>
      "{" +:+ join ", " (map (λ kv, match kv with
                                   | (k, v) => quote k +:+ ": " +:+ dumps_default_str v
                                   end) kvs) +:+ "}"
  | PObject _ str_ _ _ => quote str_
  end.

(** [json.dumps(j)]: on values that came out of [json.loads] the
    [default] hook is never called. *)
Definition dumps (j : json) : string := dumps_default_str (to_py j).

(** The encoder has limits that depend on the interpreter: since
    CPython 3.11 an integer of more than 4300 digits is not converted to
    text ([ValueError]), and containers nested deeper than the recursion
    limit allows are not encoded ([RecursionError]).  What [json.dumps]
    does beyond them is not modelled; statements about its result are
    about values within them. *)

(** [sys.int_info.default_max_str_digits] *)
Definition max_str_digits : nat := 4300.

(** A depth of nesting every interpreter encodes, at a tenth of the
    default recursion limit. *)
Definition max_nesting : nat := 100.

(** How deep the lists, tuples and dictionaries of [o] are nested. *)
Fixpoint nesting (o : pyobj) : nat :=
  match o with
  | PList l | PTuple l => S (foldr (λ x n, Nat.max (nesting x) n) 0 l)
  | PDict kvs => S (foldr (λ kv n, Nat.max (nesting (snd kv)) n) 0 kvs)
  | _ => 0
  end.

(** No integer the encoder meets in [o] has more than [max_str_digits]
    digits. *)
Fixpoint short_integers (o : pyobj) : bool :=
  match o with
  | PInt z => bool_decide (String.length (pretty (Z.abs z)) ≤ max_str_digits)
  | PList l | PTuple l => forallb short_integers l
  | PDict kvs => forallb (λ kv, short_integers (snd kv)) kvs
  | _ => true
  end.

(** [o] is within the limits of the encoder.  An object of a class the
    encoder does not know always is: it is encoded as one string, whatever
    it holds. *)
Definition within_limits (o : pyobj) : bool :=
  short_integers o && bool_decide (nesting o ≤ max_nesting).

End Json.

(** ** JSON texts *)

(** The grammar of RFC 8259 as a decoder: the reference for what a JSON
    text is and for the value it stands for.  A number with a fraction or
    an exponent is kept as its literal; the members of an object are kept
    in order; an escape above code point 255 is outside the strings
    modelled here and is refused. *)
Module Rfc8259.

Definition is_ws (a : ascii) : bool :=
  let c := N_of_ascii a in
  ((c =? 32) || (c =? 9) || (c =? 10) || (c =? 13))%N.

Fixpoint skip_ws (s : string) : string :=
  match s with
  | String a s' => if is_ws a then skip_ws s' else s
  | EmptyString => EmptyString
  end.

Definition is_digit (a : ascii) : bool :=
  let c := N_of_ascii a in ((48 <=? c) && (c <=? 57))%N.

(** The characters a number is written with. *)
Definition is_number_char (a : ascii) : bool :=
  let c := N_of_ascii a in
  (is_digit a || (c =? 45) || (c =? 43) || (c =? 46) || (c =? 101) || (c =? 69))%N.

Definition hex_value (a : ascii) : option N :=
  let c := N_of_ascii a in
  if ((48 <=? c) && (c <=? 57))%N then Some (c - 48)%N
  else if ((97 <=? c) && (c <=? 102))%N then Some (c - 87)%N
  else if ((65 <=? c) && (c <=? 70))%N then Some (c - 55)%N
  else None.

(** The character a four-digit escape stands for. *)
Definition unicode (h1 h2 h3 h4 : ascii) : option ascii :=
  match hex_value h1, hex_value h2, hex_value h3, hex_value h4 with
  | Some a, Some b, Some c, Some d =>
      let n := (((a * 16 + b) * 16 + c) * 16 + d)%N in
      if (n <? 256)%N then Some (ascii_of_N n) else None
  | _, _, _, _ => None
  end.

(** The character a two-character escape stands for. *)
Definition simple_escape (e : ascii) : option ascii :=
  let c := N_of_ascii e in
  if (c =? 34)%N then Some e
  else if (c =? 92)%N then Some e
  else if (c =? 47)%N then Some e
  else if (c =? 98)%N then Some (ascii_of_N 8)
  else if (c =? 102)%N then Some (ascii_of_N 12)
  else if (c =? 110)%N then Some (ascii_of_N 10)
  else if (c =? 114)%N then Some (ascii_of_N 13)
  else if (c =? 116)%N then Some (ascii_of_N 9)
  else None.

(** The characters of a string after its opening quote: the text they
    stand for and what follows the closing quote. *)
Fixpoint chars (s : string) : option (string * string) :=
  match s with
  | EmptyString => None
  | String a s1 =>
      let c := N_of_ascii a in
      if (c =? 34)%N then Some ("", s1)
      else if (c =? 92)%N then
        match s1 with
        | String e s2 =>
            if (N_of_ascii e =? 117)%N then
              match s2 with
              | String h1 (String h2 (String h3 (String h4 s3))) =>
                  match unicode h1 h2 h3 h4, chars s3 with
                  | Some b, Some (t, r) => Some (String b t, r)
                  | _, _ => None
                  end
              | _ => None
              end
            else
              match simple_escape e, chars s2 with
              | Some b, Some (t, r) => Some (String b t, r)
              | _, _ => None
              end
        | EmptyString => None
        end
      else if (c <? 32)%N then None
      else
        match chars s1 with
        | Some (t, r) => Some (String a t, r)
        | None => None
        end
  end.

(** Every character of [s] satisfies [P]. *)
Fixpoint every (P : ascii → bool) (s : string) : bool :=
  match s with
  | String a s' => P a && every P s'
  | EmptyString => true
  end.

(** The longest prefix of [s] made of characters that satisfy [P], and
    the rest. *)
Fixpoint span (P : ascii → bool) (s : string) : string * string :=
  match s with
  | String a s' =>
      if P a then let '(tok, rest) := span P s' in (String a tok, rest)
      else ("", s)
  | EmptyString => ("", "")
  end.

(** The number a string of decimal digits stands for. *)
Fixpoint decimal (acc : N) (ds : string) : N :=
  match ds with
  | String a ds' => decimal (acc * 10 + (N_of_ascii a - 48))%N ds'
  | EmptyString => acc
  end.

(** [int]: a zero, or digits that do not start with a zero. *)
Definition is_int (ds : string) : bool :=
  match ds with
  | EmptyString => false
  | String a EmptyString => true
  | String a _ => negb (N_of_ascii a =? 48)%N
  end.

(** [exp]: [e] or [E], an optional sign, digits. *)
Definition is_exp (s : string) : bool :=
  match s with
  | String e s1 =>
      ((N_of_ascii e =? 101) || (N_of_ascii e =? 69))%N
      && let s2 := match s1 with
                   | String sign s2 =>
                       if ((N_of_ascii sign =? 43) || (N_of_ascii sign =? 45))%N
                       then s2 else s1
                   | EmptyString => s1
                   end in
         match span is_digit s2 with
         | (String _ _, EmptyString) => true
         | _ => false
         end
  | EmptyString => false
  end.

(** [frac] [exp], one of them at least. *)
Definition is_frac_exp (s : string) : bool :=
  match s with
  | String dot s1 =>
      if (N_of_ascii dot =? 46)%N then
        match span is_digit s1 with
        | (String _ _, EmptyString) => true
        | (String _ _, rest) => is_exp rest
        | _ => false
        end
      else is_exp s
  | EmptyString => false
  end.

(** The value of a number token: an integer, or the literal of a number
    with a fraction or an exponent. *)
Definition number (tok : string) : option json :=
  let '(negative, body) :=
    match tok with
    | String a body => if (N_of_ascii a =? 45)%N then (true, body) else (false, tok)
    | EmptyString => (false, tok)
    end in
  let '(int, rest) := span is_digit body in
  if is_int int then
    match rest with
    | EmptyString =>
        let n := Z.of_N (decimal 0 int) in
        Some (JInt (if negative then - n else n)%Z)
    | _ => if is_frac_exp rest then Some (JFloat tok) else None
    end
  else None.

(** What follows a given prefix, when [s] starts with it. *)
Fixpoint after (prefix s : string) : option string :=
  match prefix, s with
  | EmptyString, _ => Some s
  | String a prefix', String b s' => if Ascii.eqb a b then after prefix' s' else None
  | String _ _, EmptyString => None
  end.

(** [value (ws , value)* ws ]]: the elements of an array that is not
    empty, after its opening bracket. *)
Fixpoint elements (value : string → option (json * string)) (n : nat) (s : string)
    : option (list json * string) :=
  match n with
  | 0 => None
  | S n =>
      match value s with
      | Some (v, s1) =>
          match skip_ws s1 with
          | String a s2 =>
              if (N_of_ascii a =? 44)%N then
                match elements value n s2 with
                | Some (vs, r) => Some (v :: vs, r)
                | None => None
                end
              else if (N_of_ascii a =? 93)%N then Some ([v], s2)
              else None
          | EmptyString => None
          end
      | None => None
      end
  end.

(** The members of an object that is not empty, after its opening
    brace. *)
Fixpoint members (value : string → option (json * string)) (n : nat) (s : string)
    : option (list (string * json) * string) :=
  match n with
  | 0 => None
  | S n =>
      match skip_ws s with
      | String a s1 =>
          if (N_of_ascii a =? 34)%N then
            match chars s1 with
            | Some (k, s2) =>
                match skip_ws s2 with
                | String colon s3 =>
                    if (N_of_ascii colon =? 58)%N then
                      match value s3 with
                      | Some (v, s4) =>
                          match skip_ws s4 with
                          | String b s5 =>
                              if (N_of_ascii b =? 44)%N then
                                match members value n s5 with
                                | Some (kvs, r) => Some ((k, v) :: kvs, r)
                                | None => None
                                end
                              else if (N_of_ascii b =? 125)%N then Some ([(k, v)], s5)
                              else None
                          | EmptyString => None
                          end
                      | None => None
                      end
                    else None
                | EmptyString => None
                end
            | None => None
            end
          else None
      | EmptyString => None
      end
  end.

(** One value, with the whitespace before it, and what follows it. *)
Fixpoint value (fuel : nat) (s : string) : option (json * string) :=
  match fuel with
  | 0 => None
  | S fuel =>
      match skip_ws s with
      | String a s1 =>
          let c := N_of_ascii a in
          if (c =? 91)%N then
            match skip_ws s1 with
            | String b s2 =>
                if (N_of_ascii b =? 93)%N then Some (JList [], s2)
                else match elements (value fuel) fuel s1 with
                     | Some (l, r) => Some (JList l, r)
                     | None => None
                     end
            | EmptyString => None
            end
          else if (c =? 123)%N then
            match skip_ws s1 with
            | String b s2 =>
                if (N_of_ascii b =? 125)%N then Some (JDict [], s2)
                else match members (value fuel) fuel s1 with
                     | Some (kvs, r) => Some (JDict kvs, r)
                     | None => None
                     end
            | EmptyString => None
            end
          else if (c =? 34)%N then
            match chars s1 with
            | Some (t, r) => Some (JStr t, r)
            | None => None
            end
          else if is_number_char a then
            let '(tok, rest) := span is_number_char (String a s1) in
            match number tok with
            | Some v => Some (v, rest)
            | None => None
            end
          else
            match after "null" (String a s1), after "true" (String a s1),
                  after "false" (String a s1) with
            | Some r, _, _ => Some (JNull, r)
            | _, Some r, _ => Some (JBool true, r)
            | _, _, Some r => Some (JBool false, r)
            | _, _, _ => None
            end
      | EmptyString => None
      end
  end.

(** The value of a JSON text: one value, whitespace around it, nothing
    else. *)
Definition parse (s : string) : option json :=
  match value (String.length s) s with
  | Some (v, rest) =>
      match skip_ws rest with
      | EmptyString => Some v
      | _ => None
      end
  | None => None
  end.

(** A JSON text. *)
Definition valid (s : string) : bool := bool_decide (is_Some (parse s)).

(** What may follow a number: the end of the text or a character no
    number is written with. *)
Definition delimited (rest : string) : Prop :=
  match rest with
  | String a _ => is_number_char a = false
  | EmptyString => True
  end.

(** The literal of a number with a fraction or an exponent. *)
Definition float_literal (lit : string) : bool :=
  every is_number_char lit
  && match number lit with
     | Some (JFloat _) => true
     | _ => false
     end.

End Rfc8259.

(** Following the specification, "coercing non-serializable values to
    their string form": the JSON value a result is serialized as.  A tuple
    is an array, an object of a class the encoder does not know is the
    string [str()] gives for it. *)
Fixpoint coerced (o : pyobj) : json :=
  match o with
  | PNone => JNull
  | PBool b => JBool b
  | PInt z => JInt z
  | PFloat lit => JFloat lit
  | PStr s => JStr s
  | PList l | PTuple l => JList (map coerced l)
  | PDict kvs => JDict (map (λ kv, match kv with (k, v) => (k, coerced v) end) kvs)
  | PObject _ str_ _ _ => JStr str_
  end.

(** Every float in [o] is finite: [json.dumps] writes it as a number with
    a fraction or an exponent, not as [NaN] or [Infinity]. *)
Fixpoint finite_floats (o : pyobj) : bool :=
  match o with
  | PFloat lit => Rfc8259.float_literal lit
  | PList l | PTuple l => forallb finite_floats l
  | PDict kvs => forallb (λ kv, finite_floats (snd kv)) kvs
  | _ => true
  end.

(** The text of one entry of a dictionary, as [json.dumps] writes it. *)
Definition entry (kv : string * pyobj) : string :=
  match kv with (k, v) => Json.quote k +:+ ": " +:+ Json.dumps_default_str v end.

(** ** Paths *)

(** [pathlib.Path]: an absolute path is the list of its components. *)
Abbreviation path := (list string).

Module Path.

(** [p.parent] *)
Definition parent (p : path) : path := removelast p.

(** [p / name] *)
Definition div (p : path) (name : string) : path := p ++ [name].

(** [str(p)] *)
Definition to_str (p : path) : string :=
  match p with
  | [] => "/"
  | _ => foldr (λ c acc, "/" +:+ c +:+ acc) "" p
  end.

End Path.

Infix "//" := Path.div (at level 40, left associativity).

(** ** The world a run executes in *)

(** What a path names: a readable text file, or something that exists and
    on which [read_text] raises (a directory, an unreadable file). *)
Inductive node : Type :=
| RegularFile (text : string)
| Unreadable (e : exn).

(** The remote service as the mcp client library presents it: for each
    operation the script performs, whether it raises.  The library's
    context managers do not suppress an exception of their body. *)
Record Remote : Type := {
  transport_aenter : string → list (string * string) → option exn;
  transport_aexit : option exn;
  session_aenter : option exn;
  session_aexit : option exn;
  session_initialize : option exn;
  session_call_tool : string → json → exn + pyobj;
}.

Record World : Type := {
  argv : list string;               (* sys.argv *)
  environ : gmap string string;     (* os.environ *)
  script_file : path;               (* __file__ *)
  fs : gmap path node;
  remote : Remote;
}.

Definition with_environ (env : gmap string string) (w : World) : World :=
  {| argv := argv w; environ := env; script_file := script_file w;
     fs := fs w; remote := remote w |}.

Definition with_argv (args : list string) (w : World) : World :=
  {| argv := args; environ := environ w; script_file := script_file w;
     fs := fs w; remote := remote w |}.

(** ** Effects *)

Inductive event : Type :=
| GetEnv (name : string)                (* os.environ.get(name, ...) *)
| PathExists (p : path)                 (* p.exists() *)
| ReadText (p : path)                   (* p.read_text() *)
| PrintOut (v : pyobj)                  (* print(v) *)
| PrintErr (j : json)                   (* print(json.dumps(j), file=sys.stderr) *)
| Connect (url : string) (headers : list (string * string))
                                        (* streamablehttp_client(url, headers=headers) is entered *)
| TransportOpen                         (* ... and has yielded its streams *)
| TransportClose                        (* its __aexit__ runs *)
| SessionOpen                           (* ClientSession.__aenter__ has returned *)
| SessionClose                          (* its __aexit__ runs *)
| Initialize                            (* session.initialize() *)
| CallTool (name : string) (arguments : json).   (* session.call_tool(name, arguments) *)

Inductive raised : Type :=
| SystemExit (code : Z)
| Exception (e : exn).

Inductive outcome (A : Type) : Type :=
| Return (a : A)
| Raise (r : raised).
Arguments Return {A} a.
Arguments Raise {A} r.

(** A computation: the events it performs, oldest first, and how it ends. *)
Definition M (A : Type) : Type := list event * outcome A.

Definition trace {A} (m : M A) : list event := fst m.
Definition result {A} (m : M A) : outcome A := snd m.

#[export] Instance M_ret : MRet M := λ A a, ([], Return a).

#[export] Instance M_bind : MBind M := λ A B f m,
  match m with
  | (t, Return a) => let '(t', o) := f a in (t ++ t', o)
  | (t, Raise r) => (t, Raise r)
  end.

Definition emit (e : event) : M unit := ([e], Return tt).

Definition raise {A} (r : raised) : M A := ([], Raise r).

Definition raise_exn {A} (cls msg : string) : M A :=
  raise (Exception (Exn cls msg)).

(** [sys.exit(code)] *)
Definition sys_exit {A} (code : Z) : M A := raise (SystemExit code).

(** [try: m  except Exception as e: handler e].  [SystemExit] is not an
    [Exception] and passes through. *)
Definition try_except {A} (m : M A) (handler : exn → M A) : M A :=
  match m with
  | (t, Raise (Exception e)) => let '(t', o) := handler e in (t ++ t', o)
  | _ => m
  end.

(** Raise [e] when the library call fails, continue otherwise. *)
Definition check (failure : option exn) : M unit :=
  match failure with
  | Some e => raise (Exception e)
  | None => mret tt
  end.

(** An asynchronous context manager: [__aenter__] and [__aexit__]. *)
Record ContextManager (A : Type) : Type := {
  aenter : M A;
  aexit : M unit;
}.
Arguments aenter {A} c.
Arguments aexit {A} c.

(** [async with cm as x: body x].  When [__aenter__] raises, nothing else
    runs.  Otherwise [__aexit__] runs once, after the body, whether the
    body returned or raised; an exception of the body is re-raised after
    it, unless [__aexit__] itself raises. *)
Definition async_with {A B} (cm : ContextManager A) (body : A → M B) : M B :=
  x ← aenter cm;
  match body x with
  | (t, Return b) => (t, Return tt) ;; aexit cm ;; mret b
  | (t, Raise r) => (t, Return tt) ;; aexit cm ;; raise r
  end.

(** The status the interpreter exits with. *)
Definition exit_status {A} (m : M A) : Z :=
  match result m with
  | Return _ => 0
  | Raise (SystemExit code) => code
  | Raise (Exception _) => 1
  end.

(** ** System calls *)

(** [os.environ.get(name)] *)
Definition environ_get (w : World) (name : string) : M (option string) :=
  emit (GetEnv name) ;; mret (environ w !! name).

(** [p.exists()] *)
Definition exists_ (w : World) (p : path) : M bool :=
  emit (PathExists p) ;; mret (bool_decide (is_Some (fs w !! p))).

(** [p.read_text()] *)
Definition read_text (w : World) (p : path) : M string :=
  emit (ReadText p) ;;
  match fs w !! p with
  | Some (RegularFile text) => mret text
  | Some (Unreadable e) => raise (Exception e)
  | None => raise_exn "FileNotFoundError" ("[Errno 2] No such file or directory: '" +:+ Path.to_str p +:+ "'")
  end.

(** Evaluating the name [name] where [scope] holds the path variables
    bound so far; the module and the builtins bind no path. *)
Definition load_name (scope : gmap string path) (name : string) : M path :=
  match scope !! name with
  | Some p => mret p
  | None => raise_exn "NameError" ("name '" +:+ name +:+ "' is not defined")
  end.

Definition print_out (v : pyobj) : M unit := emit (PrintOut v).

(** [print(json.dumps(j), file=sys.stderr)] *)
Definition print_err (j : json) : M unit := emit (PrintErr j).

(** ** MCP client *)

(** [streamablehttp_client(url, headers=headers)] *)
Definition streamablehttp_client (r : Remote) (url : string)
    (headers : list (string * string)) : ContextManager unit :=
  {| aenter := emit (Connect url headers) ;;
               check (transport_aenter r url headers) ;;
               emit TransportOpen;
     aexit := emit TransportClose ;; check (transport_aexit r) |}.

(** [ClientSession(read_stream, write_stream)]; the session it yields is
    the handle on the remote service. *)
Definition ClientSession (r : Remote) : ContextManager Remote :=
  {| aenter := check (session_aenter r) ;; emit SessionOpen ;; mret r;
     aexit := emit SessionClose ;; check (session_aexit r) |}.

(** [await session.initialize()] *)
Definition initialize (session : Remote) : M unit :=
  emit Initialize ;; check (session_initialize session).

(** [await session.call_tool(name, arguments)] *)
Definition session_call (session : Remote) (name : string) (arguments : json) : M pyobj :=
  emit (CallTool name arguments) ;;
  match session_call_tool session name arguments with
  | inr v => mret v
  | inl e => raise (Exception e)
  end.

(** [create_session]: a generator-based context manager.  The body of the
    caller's [async with] runs where the generator yields. *)
Definition create_session {B} (r : Remote) (url token : string)
    (body : Remote → M B) : M B :=
  let headers := [("Authorization", "Bearer " +:+ token)] in
  async_with (streamablehttp_client r url headers) (λ _,
    async_with (ClientSession r) (λ session,
      initialize session ;;
      body session)).

Definition call_tool (r : Remote) (url token name : string) (arguments : json) : M pyobj :=
  create_session r url token (λ session,
    result ← session_call session name arguments;
    mret result).

(** ** CLI implementation *)

Definition DEFAULT_URL : string := "https://api.ensue-network.ai/".

Definition no_token_message (plugin_key_file skill_key_file : path) : string :=
  "ENSUE_API_KEY or ENSUE_TOKEN env var not set, and "
    +:+ Path.to_str plugin_key_file +:+ " and " +:+ Path.to_str skill_key_file.

Definition get_config (w : World) : M (string * string) :=
  url ← environ_get w "ENSUE_URL";
  let url := default DEFAULT_URL url in
  api_key ← environ_get w "ENSUE_API_KEY";
  token ← (if PyStr.truthy api_key then mret api_key
           else environ_get w "ENSUE_TOKEN");
  (* the four assignments that open the first [if not token:] block; they
     have no effect and are bound here for the error message below *)
  let script_dir := Path.parent (script_file w) in
  let repo_root := Path.parent script_dir in
  let plugin_key_file := repo_root // ".claude-plugin" // ".ensue-key" in
  let skill_key_file := repo_root // ".ensue-key" in
  let scope : gmap string path :=
    {[ "script_dir" := script_dir; "repo_root" := repo_root;
       "plugin_key_file" := plugin_key_file; "skill_key_file" := skill_key_file ]} in
  token ← (if negb (PyStr.truthy token) then
             token ← (f ← load_name scope "plugin_key_file";
                      b ← exists_ w f;
                      if (b : bool) then
                        f ← load_name scope "plugin_key_file";
                        text ← read_text w f;
                        mret (Some (PyStr.strip text))
                      else mret token);
             f ← load_name scope "skill_key_file";
             b ← exists_ w f;
             if (b : bool) then
               f ← load_name scope "skil_key_file";
               text ← read_text w f;
               mret (Some (PyStr.strip text))
             else mret token
           else mret token);
  match token with
  | Some (String _ _ as token) => mret (url, token)
  | _ =>
      (* [not token]: the first block has run *)
      print_err (JDict [("error", JStr (no_token_message plugin_key_file skill_key_file))]) ;;
      sys_exit 1
  end.

(** The loop of [format_result]: the [text] of the first item that has
    one. *)
Fixpoint first_text (items : list pyobj) : option pyobj :=
  match items with
  | [] => None
  | item :: rest =>
      if Py.hasattr item "text" then Py.getattr item "text"
      else first_text rest
  end.

Definition format_result (result : pyobj) : M pyobj :=
  let fallback := mret (PStr (Json.dumps_default_str result)) in
  if Py.hasattr result "content" then
    match Py.getattr result "content" with
    | Some content =>
        match Py.iter content with
        | inr items =>
            match first_text items with
            | Some text => mret text
            | None => fallback
            end
        | inl e => raise (Exception e)
        end
    | None => fallback
    end
  else fallback.

(** What [json.loads] does on a string: it returns the decoded value,
    raises [JSONDecodeError], or raises another exception, as CPython
    does on nesting deeper than its recursion limit ([RecursionError])
    and on an integer literal longer than its digit limit
    ([ValueError]). *)
Inductive loads_result : Type :=
| Decoded (v : json)
| JSONDecodeError (msg : string)
| OtherError (e : exn).

Definition usage_error : json :=
  JDict [("error", JStr "Usage: ensue-cli.py <command> [json_args]");
         ("example", JStr ("./ensue-cli.py list_keys '{" +:+ PyStr.q +:+ "limit"
                             +:+ PyStr.q +:+ ":5}'"))].

(** [sys.argv[1]]; only read when [len(sys.argv) >= 2]. *)
Definition command_of (w : World) : string := default "" (argv w !! 1).

(** [sys.argv[2] if len(sys.argv) > 2 else "{}"] *)
Definition args_str_of (w : World) : string :=
  if bool_decide (2 < length (argv w)) then default "" (argv w !! 2) else "{}".

(** The body of the last [try] statement of [main_async]. *)
Definition attempt (w : World) (url token command : string) (arguments : json) : M unit :=
  result ← call_tool (remote w) url token command arguments;
  output ← format_result result;
  print_out output.

(** The last [try] statement of [main_async]. *)
Definition invoke (w : World) (url token command : string) (arguments : json) : M unit :=
  try_except (attempt w url token command arguments)
    (λ e,
       print_err (JDict [("error", JStr (exn_str e));
                         ("command", JStr command);
                         ("arguments", arguments)]) ;;
       sys_exit 1).

(** The [try] statement around [get_config]. *)
Definition resolve (w : World) : M (string * string) :=
  try_except (get_config w)
    (λ e,
       print_err (JDict [("error", JStr ("Configuration error: " +:+ exn_str e))]) ;;
       sys_exit 1).

Section Driver.

(** [json.loads], restricted to strings. *)
Variable json_loads : string → loads_result.

Definition main_async (w : World) : M unit :=
  if bool_decide (length (argv w) < 2) then
    print_err usage_error ;;
    sys_exit 1
  else
    let command := command_of w in
    let args_str := args_str_of w in
    arguments ← match json_loads args_str with
                | Decoded v => mret v
                | JSONDecodeError msg =>
                    print_err (JDict [("error", JStr ("Invalid JSON arguments: " +:+ msg));
                                      ("received", JStr args_str)]) ;;
                    sys_exit 1
                | OtherError e =>
                    (* not a [json.JSONDecodeError]: no handler *)
                    raise (Exception e)
                end;
    '(url, token) ← resolve w;
    invoke w url token command arguments.

(** [main]: [asyncio.run(main_async())]. *)
Definition main (w : World) : M unit := main_async w.

End Driver.

(** ** Vocabulary of the statements *)

(** The two fallback key files, as [get_config] computes them. *)
Definition plugin_key_file (w : World) : path :=
  Path.parent (Path.parent (script_file w)) // ".claude-plugin" // ".ensue-key".

Definition skill_key_file (w : World) : path :=
  Path.parent (Path.parent (script_file w)) // ".ensue-key".

Definition service_url (w : World) : string :=
  default DEFAULT_URL (environ w !! "ENSUE_URL").

Definition bearer (token : string) : list (string * string) :=
  [("Authorization", "Bearer " +:+ token)].

(** The three reads of the environment when [ENSUE_API_KEY] is falsy. *)
Definition env_reads : list event :=
  [GetEnv "ENSUE_URL"; GetEnv "ENSUE_API_KEY"; GetEnv "ENSUE_TOKEN"].

Definition name_error : exn :=
  Exn "NameError" "name 'skil_key_file' is not defined".

Definition no_token_error (w : World) : json :=
  JDict [("error", JStr (no_token_message (plugin_key_file w) (skill_key_file w)))].

Definition configuration_error (e : exn) : json :=
  JDict [("error", JStr ("Configuration error: " +:+ exn_str e))].

Definition parse_error (msg received : string) : json :=
  JDict [("error", JStr ("Invalid JSON arguments: " +:+ msg));
         ("received", JStr received)].

Definition remote_error (e : exn) (command : string) (arguments : json) : json :=
  JDict [("error", JStr (exn_str e)); ("command", JStr command);
         ("arguments", arguments)].

(** The keys of a JSON object. *)
Definition keys (j : json) : list string :=
  match j with
  | JDict kvs => map fst kvs
  | _ => []
  end.

Definition is_connect (e : event) : bool :=
  match e with Connect _ _ => true | _ => false end.
Definition is_transport_open (e : event) : bool :=
  match e with TransportOpen => true | _ => false end.
Definition is_transport_close (e : event) : bool :=
  match e with TransportClose => true | _ => false end.
Definition is_session_open (e : event) : bool :=
  match e with SessionOpen => true | _ => false end.
Definition is_session_close (e : event) : bool :=
  match e with SessionClose => true | _ => false end.
Definition is_call_tool (e : event) : bool :=
  match e with CallTool _ _ => true | _ => false end.

(** Events of the conversation with the remote service. *)
Definition is_remote (e : event) : bool :=
  match e with
  | Connect _ _ | TransportOpen | TransportClose | SessionOpen | SessionClose
  | Initialize | CallTool _ _ => true
  | _ => false
  end.

(** Events of configuration resolution. *)
Definition is_config (e : event) : bool :=
  match e with
  | GetEnv _ | PathExists _ | ReadText _ => true
  | _ => false
  end.

Fixpoint count (P : event → bool) (tr : list event) : nat :=
  match tr with
  | [] => 0
  | e :: rest => (if P e then 1 else 0) + count P rest
  end.

(** No event of [tr] satisfies [P]. *)
Definition none_of (P : event → bool) (tr : list event) : Prop :=
  Forall (λ e, P e = false) tr.

(** The first failure among the four operations of the conversation:
    connecting, entering the session, the handshake, the tool call. *)
Definition first_failure (r : Remote) (url token name : string) (arguments : json) : option exn :=
  match transport_aenter r url (bearer token) with
  | Some e => Some e
  | None =>
      match session_aenter r with
      | Some e => Some e
      | None =>
          match session_initialize r with
          | Some e => Some e
          | None =>
              match session_call_tool r name arguments with
              | inl e => Some e
              | inr _ => None
              end
          end
      end
  end.

(** The events of a conversation in which nothing fails. *)
Definition conversation (url token name : string) (arguments : json) : list event :=
  [Connect url (bearer token); TransportOpen; SessionOpen; Initialize;
   CallTool name arguments; SessionClose; TransportClose].

(** The plugin key file is absent, or holds only whitespace. *)
Definition blank_or_absent (n : option node) : bool :=
  match n with
  | None => true
  | Some (RegularFile text) => bool_decide (PyStr.strip text = "")
  | Some (Unreadable _) => false
  end.

(** [os.environ] with [name] set to [value], or unset. *)
Definition setenv (name : string) (value : option string) (w : World) : World :=
  with_environ (partial_alter (λ _, value) name (environ w)) w.

(** ** Sample worlds *)

Module Sample.

(** [1100 * "["]: arrays nested deeper than the recursion limit of the
    interpreter, 1000. *)
Definition deep : string := PyStr.times "[" 1100.

Definition recursion_error : exn :=
  Exn "RecursionError"
    "maximum recursion depth exceeded while decoding a JSON array from a unicode string".

(** [4301 * "1"]: an integer literal longer than the digit limit of the
    interpreter, 4300. *)
Definition long_integer : string := PyStr.times "1" 4301.

Definition digits_error : exn :=
  Exn "ValueError"
    ("Exceeds the limit (4300 digits) for integer string conversion: "
       +:+ "value has 4301 digits; use sys.set_int_max_str_digits() to increase the limit").

(** A stand-in for [json.loads], to run the model on examples: it knows
    five argument texts, on which it answers as CPython 3.11 does, and
    takes every other text for one that starts with no value. *)
Definition json_loads (s : string) : loads_result :=
  if String.eqb s "{}" then Decoded (JDict [])
  else if String.eqb s ("{" +:+ PyStr.q +:+ "limit" +:+ PyStr.q +:+ ":5}")
  then Decoded (JDict [("limit", JInt 5)])
  else if String.eqb s "{limit"
  then JSONDecodeError
         "Expecting property name enclosed in double quotes: line 1 column 2 (char 1)"
  else if String.eqb s deep then OtherError recursion_error
  else if String.eqb s long_integer then OtherError digits_error
  else JSONDecodeError "Expecting value: line 1 column 1 (char 0)".

(** An object of the mcp library, a pydantic model: its attributes are
    its fields, and iterating over it yields them as pairs. *)
Definition model (cls str_ : string) (fields : list (string * pyobj)) : pyobj :=
  PObject cls str_ fields
    (Some (map (λ kv, match kv with (k, v) => PTuple [PStr k; v] end) fields)).

Definition text_content (text : string) : pyobj :=
  model "TextContent" ("type='text' text='" +:+ text +:+ "'")
    [("type", PStr "text"); ("text", PStr text)].

Definition image_content : pyobj :=
  model "ImageContent" "type='image' data='iVBORw0KGgo=' mimeType='image/png'"
    [("type", PStr "image"); ("data", PStr "iVBORw0KGgo="); ("mimeType", PStr "image/png")].

Definition tool_result (content : list pyobj) : pyobj :=
  model "CallToolResult" "meta=None isError=False"
    [("meta", PNone); ("content", PList content); ("isError", PBool false)].

(** A service on which every operation succeeds and every tool returns
    [reply]. *)
Definition service (reply : exn + pyobj) : Remote :=
  {| transport_aenter := λ _ _, None; transport_aexit := None;
     session_aenter := None; session_aexit := None;
     session_initialize := None;
     session_call_tool := λ _ _, reply |}.

Definition keys_reply : pyobj :=
  tool_result [image_content; text_content "{}"].

Definition script : path := ["opt"; "ensue-skill"; "scripts"; "ensue-cli.py"].
Definition plugin_key : path := ["opt"; "ensue-skill"; ".claude-plugin"; ".ensue-key"].
Definition skill_key : path := ["opt"; "ensue-skill"; ".ensue-key"].

Definition world (args : list string) (env : gmap string string)
    (files : gmap path node) (reply : exn + pyobj) : World :=
  {| argv := "ensue-cli.py" :: args; environ := env; script_file := script;
     fs := files; remote := service reply |}.

(** [ENSUE_API_KEY=abc ENSUE_TOKEN=other ./ensue-cli.py list_keys] *)
Definition with_api_key : World :=
  world ["list_keys"] {[ "ENSUE_API_KEY" := "abc"; "ENSUE_TOKEN" := "other" ]}
    ∅ (inr keys_reply).

(** [ENSUE_API_KEY= ENSUE_TOKEN=other ./ensue-cli.py list_keys] *)
Definition with_token : World :=
  world ["list_keys"] {[ "ENSUE_API_KEY" := ""; "ENSUE_TOKEN" := "other" ]}
    ∅ (inr keys_reply).

(** No token in the environment, a key file at the skill path only. *)
Definition skill_key_only : World :=
  world ["list_keys"] ∅ {[ skill_key := RegularFile "secret
" ]} (inr keys_reply).

(** No token in the environment, a key file at both paths. *)
Definition both_keys : World :=
  world ["list_keys"] ∅
    {[ plugin_key := RegularFile "first
"; skill_key := RegularFile "second
" ]} (inr keys_reply).

(** No token in the environment, a skill key file that holds a newline. *)
Definition blank_skill_key : World :=
  world ["list_keys"] ∅ {[ skill_key := RegularFile "
" ]} (inr keys_reply).

(** No token anywhere. *)
Definition no_token : World := world ["list_keys"] ∅ ∅ (inr keys_reply).

(** Malformed arguments. *)
Definition bad_arguments : World :=
  world ["list_keys"; "{limit"] {[ "ENSUE_TOKEN" := "other" ]} ∅ (inr keys_reply).

(** Malformed arguments the decoder gives up on. *)
Definition deep_arguments : World :=
  world ["list_keys"; deep] {[ "ENSUE_TOKEN" := "other" ]} ∅ (inr keys_reply).

(** Arguments that are a JSON text the decoder gives up on. *)
Definition long_arguments : World :=
  world ["list_keys"; long_integer] {[ "ENSUE_TOKEN" := "other" ]} ∅ (inr keys_reply).

(** No command. *)
Definition no_command : World :=
  world [] {[ "ENSUE_TOKEN" := "other" ]} ∅ (inr keys_reply).

(** The tool call raises. *)
Definition tool_fails : World :=
  world ["list_keys"] {[ "ENSUE_TOKEN" := "other" ]} ∅
    (inl (Exn "McpError" "Unknown tool: list_keys")).

End Sample.

(** ** Tool listing *)

(** [o.name]: the attribute, or the [AttributeError] of a missing one.
    The built-in types have none of the attributes [list_tools] asks for. *)
Definition attribute (o : pyobj) (name : string) : M pyobj :=
  match Py.getattr o name with
  | Some v => mret v
  | None =>
      raise_exn "AttributeError"
        ("'" +:+ Py.type_name o +:+ "' object has no attribute '" +:+ name +:+ "'")
  end.

(** [[f x for x in l]]: the elements are visited in order and the first
    exception ends the comprehension. *)
Fixpoint comprehension {A B} (f : A → M B) (l : list A) : M (list B) :=
  match l with
  | [] => mret []
  | x :: rest =>
      y ← f x;
      ys ← comprehension f rest;
      mret (y :: ys)
  end.

(** The dictionary [list_tools] builds for one tool. *)
Definition tool_entry (tool : pyobj) : M pyobj :=
  name ← attribute tool "name";
  description ← attribute tool "description";
  inputSchema ← attribute tool "inputSchema";
  mret (PDict [("name", name); ("description", description);
               ("inputSchema", inputSchema)]).

Section ListTools.

(** [await session.list_tools()]: what the library call returns or
    raises.  The trace has no event for it. *)
Variable session_list_tools : Remote → exn + pyobj.

(** The body of the [async with] statement of [list_tools]. *)
Definition tool_entries (session : Remote) : M pyobj :=
  result ← match session_list_tools session with
           | inr v => mret v
           | inl e => raise (Exception e)
           end;
  tools ← attribute result "tools";
  items ← match Py.iter tools with
          | inr items => mret items
          | inl e => raise (Exception e)
          end;
  entries ← comprehension tool_entry items;
  mret (PList entries).

Definition list_tools (r : Remote) (url token : string) : M pyobj :=
  create_session r url token tool_entries.

End ListTools.

(** The first attribute [list_tools] asks of a tool and does not find. *)
Definition first_missing (tool : pyobj) : option string :=
  if negb (Py.hasattr tool "name") then Some "name"
  else if negb (Py.hasattr tool "description") then Some "description"
  else if negb (Py.hasattr tool "inputSchema") then Some "inputSchema"
  else None.

(** [entry] is the dictionary of the three attributes of [tool]. *)
Definition describes (tool entry : pyobj) : Prop :=
  ∃ name description inputSchema,
    Py.getattr tool "name" = Some name
    ∧ Py.getattr tool "description" = Some description
    ∧ Py.getattr tool "inputSchema" = Some inputSchema
    ∧ entry = PDict [("name", name); ("description", description);
                     ("inputSchema", inputSchema)].

(** ** Dependency bootstrapper *)

(** What the bootstrapper does to its host, oldest first. *)
Inductive boot_event : Type :=
| BootGetEnv (name : string)                 (* os.environ.get(name) *)
| BootExists (p : path)                      (* p.exists() *)
| BootPrintErr (line : string)               (* print(line, file=sys.stderr) *)
| Urlretrieve (url : string) (dest : path)   (* urllib.request.urlretrieve(url, dest) *)
| Chmod (p : path) (mode : N)                (* p.chmod(mode) *)
| Curl (args : list string)                  (* subprocess.run(args, check=True, capture_output=True) *)
| RunChild (cmd : list string) (env : gmap string string).
                                             (* subprocess.run(cmd, env=env) *)

(** The host as the script meets it outside [main]: the interpreter,
    what a path resolves to once its symbolic links are followed, for
    each operation of the bootstrapper whether it raises, and whether the
    imports that precede [main] do.  The two [chmod] calls happen at
    different times and may fare differently. *)
Record Installer : Type := {
  executable : string;                       (* sys.executable *)
  resolve_path : path → path;                (* Path(p).resolve(); the path of the
                                                running script does resolve *)
  urlretrieve : string → path → option exn;
  chmod_downloaded : option exn;             (* chmod after urlretrieve *)
  curl : list string → option exn;
  chmod_curled : option exn;                 (* chmod after curl *)
  run_child : list string → gmap string string → exn + Z;
                                             (* the child's return code *)
  imports : option exn;                      (* the import statements before [main] *)
}.

Definition Boot (A : Type) : Type := list boot_event * outcome A.

#[export] Instance Boot_ret : MRet Boot := λ A a, ([], Return a).

#[export] Instance Boot_bind : MBind Boot := λ A B f m,
  match m with
  | (t, Return a) => let '(t', o) := f a in (t ++ t', o)
  | (t, Raise r) => (t, Raise r)
  end.

(** The events and the outcome of a computation over any kind of event. *)
Definition events {E A} (m : list E * outcome A) : list E := fst m.

Definition ended {E A} (m : list E * outcome A) : outcome A := snd m.

Definition boot_emit (e : boot_event) : Boot unit := ([e], Return tt).

Definition boot_raise {A} (r : raised) : Boot A := ([], Raise r).

Definition boot_check (failure : option exn) : Boot unit :=
  match failure with
  | Some e => boot_raise (Exception e)
  | None => mret tt
  end.

(** [try: m  except Exception as e: handler e] *)
Definition boot_try {A} (m : Boot A) (handler : exn → Boot A) : Boot A :=
  match m with
  | (t, Raise (Exception e)) => let '(t', o) := handler e in (t ++ t', o)
  | _ => m
  end.

Definition PIPX_URL : string :=
  "https://github.com/pypa/pipx/releases/latest/download/pipx.pyz".

(** [0o755] *)
Definition mode_755 : N := 493.

Section Bootstrap.

Variable inst : Installer.
Variable w : World.

Definition ensure_pipx : Boot string :=
  let script_dir := Path.parent (script_file w) in
  let pipx_pyz := script_dir // "pipx.pyz" in
  boot_emit (BootExists pipx_pyz) ;;
  if bool_decide (is_Some (fs w !! pipx_pyz)) then
    mret (Path.to_str pipx_pyz)
  else
    boot_emit (BootPrintErr "Downloading pipx standalone zipapp...") ;;
    boot_try
      ((* [import urllib.request] succeeds: it is the standard library *)
       let url := PIPX_URL in
       boot_emit (Urlretrieve url pipx_pyz) ;;
       boot_check (urlretrieve inst url pipx_pyz) ;;
       boot_emit (Chmod pipx_pyz mode_755) ;;
       boot_check (chmod_downloaded inst) ;;
       mret (Path.to_str pipx_pyz))
      (λ e,
         boot_emit (BootPrintErr ("Failed to download pipx: " +:+ exn_str e)) ;;
         boot_emit (BootPrintErr "Trying with curl...") ;;
         boot_try
           (let args := ["curl"; "-LsSf"; PIPX_URL; "-o"; Path.to_str pipx_pyz] in
            boot_emit (Curl args) ;;
            boot_check (curl inst args) ;;
            boot_emit (Chmod pipx_pyz mode_755) ;;
            boot_check (chmod_curled inst) ;;
            mret (Path.to_str pipx_pyz))
           (λ e2,
              boot_emit (BootPrintErr ("Failed to download pipx with curl: " +:+ exn_str e2)) ;;
              boot_raise (SystemExit 1))).

(** The environment of the child: [os.environ.copy()] with the two
    assignments. *)
Definition child_env : gmap string string :=
  let script_path := resolve_path inst (script_file w) in
  let script_dir := Path.parent script_path in
  <["PIPX_HOME" := Path.to_str (script_dir // ".pipx")]>
    (<["PIPX_RUNNING" := "1"]> (environ w)).

Definition main_wrapper : Boot bool :=
  running ← (boot_emit (BootGetEnv "PIPX_RUNNING") ;; mret (environ w !! "PIPX_RUNNING"));
  if PyStr.truthy running then mret false
  else
    pipx_pyz ← ensure_pipx;
    let script_path := resolve_path inst (script_file w) in
    let env := child_env in
    let cmd := [executable inst; pipx_pyz; "run"; Path.to_str script_path]
                 ++ drop 1 (argv w) in
    boot_emit (RunChild cmd env) ;;
    match run_child inst cmd env with
    | inr returncode => boot_raise (SystemExit returncode)
    | inl e => boot_raise (Exception e)
    end.

(** The statement at module level that runs the wrapper. *)
Definition bootstrap : Boot unit :=
  running ← (boot_emit (BootGetEnv "PIPX_RUNNING") ;; mret (environ w !! "PIPX_RUNNING"));
  if negb (PyStr.truthy running) then main_wrapper ;; mret tt
  else mret tt.

Variable json_loads : string → loads_result.

(** The script from top to bottom: the bootstrapper, then, when it
    returns, the imports, then, when they succeed, [main]. *)
Definition script : list (boot_event + event) * outcome unit :=
  match bootstrap with
  | (t, Return _) =>
      match imports inst with
      | Some e => (inl <$> t, Raise (Exception e))
      | None =>
          let '(t', o) := main json_loads w in
          ((inl <$> t) ++ (inr <$> t'), o)
      end
  | (t, Raise r) => (inl <$> t, Raise r)
  end.

End Bootstrap.

Definition with_fs (files : gmap path node) (w : World) : World :=
  {| argv := argv w; environ := environ w; script_file := script_file w;
     fs := files; remote := remote w |}.

(** Where [ensure_pipx] keeps the zipapp. *)
Definition pipx_pyz (w : World) : path := Path.parent (script_file w) // "pipx.pyz".

Definition with_script_file (p : path) (w : World) : World :=
  {| argv := argv w; environ := environ w; script_file := p;
     fs := fs w; remote := remote w |}.

(** The command [main_wrapper] runs. *)
Definition child_cmd (inst : Installer) (w : World) : list string :=
  [executable inst; Path.to_str (pipx_pyz w); "run";
   Path.to_str (resolve_path inst (script_file w))]
    ++ drop 1 (argv w).

(** The variables of the environment the script reads. *)
Definition variables : list string :=
  ["PIPX_RUNNING"; "ENSUE_URL"; "ENSUE_API_KEY"; "ENSUE_TOKEN"].

(** [c] is a world the child may run in: pipx runs the script it is
    given, the resolved path, with the arguments of the parent after it,
    in an environment that agrees with the one [main_wrapper] passes on
    the variables the script reads, against the same remote service and
    on a file system in which the key files beside the script are what
    they were for the parent, whatever else was downloaded or
    installed. *)
Definition is_child_world (inst : Installer) (w c : World) : Prop :=
  script_file c = resolve_path inst (script_file w)
  ∧ drop 1 (argv c) = drop 1 (argv w)
  ∧ (∀ name, name ∈ variables → environ c !! name = child_env inst w !! name)
  ∧ fs c !! plugin_key_file c = fs w !! plugin_key_file c
  ∧ fs c !! skill_key_file c = fs w !! skill_key_file c
  ∧ remote c = remote w.

(** The world of the child when pipx passes on the environment as it
    is. *)
Definition child_world (inst : Installer) (w : World) : World :=
  let script_path := resolve_path inst (script_file w) in
  with_argv (Path.to_str script_path :: drop 1 (argv w))
    (with_environ (child_env inst w) (with_script_file script_path w)).

Definition is_run_child (e : boot_event) : bool :=
  match e with RunChild _ _ => true | _ => false end.

Definition is_urlretrieve (e : boot_event) : bool :=
  match e with Urlretrieve _ _ => true | _ => false end.

Definition is_curl (e : boot_event) : bool :=
  match e with Curl _ => true | _ => false end.

Definition is_boot_print (e : boot_event) : bool :=
  match e with BootPrintErr _ => true | _ => false end.

Fixpoint boot_count (P : boot_event → bool) (tr : list boot_event) : nat :=
  match tr with
  | [] => 0
  | e :: rest => (if P e then 1 else 0) + boot_count P rest
  end.

(** The events of the bootstrapper in the trace of the script. *)
Definition boot_events (tr : list (boot_event + event)) : list boot_event :=
  omap (λ e, match e with inl b => Some b | inr _ => None end) tr.

(** The events of [main] in the trace of the script. *)
Definition main_events (tr : list (boot_event + event)) : list event :=
  omap (λ e, match e with inl _ => None | inr m => Some m end) tr.

(** Every character of [s] is whitespace. *)
Fixpoint all_space (s : string) : bool :=
  match s with
  | EmptyString => true
  | String a s' => PyStr.isspace a && all_space s'
  end.

Definition is_print_out (e : event) : bool :=
  match e with PrintOut _ => true | _ => false end.

Definition is_print_err (e : event) : bool :=
  match e with PrintErr _ => true | _ => false end.

Definition is_probe (e : event) : bool :=
  match e with PathExists _ | ReadText _ => true | _ => false end.

(** ** Sample hosts *)

Module SampleHost.

(** A host on which every operation succeeds and the child returns
    [returncode]. *)
Definition installer (returncode : Z) : Installer :=
  {| executable := "/usr/bin/python3"; resolve_path := λ p, p;
     urlretrieve := λ _ _, None; chmod_downloaded := None;
     curl := λ _, None; chmod_curled := None;
     run_child := λ _ _, inr returncode; imports := None |}.

(** Where the script really is when [Sample.script] is a symbolic
    link. *)
Definition target : path := ["srv"; "ensue"; "scripts"; "ensue-cli.py"].

(** A host on which the script is reached through a symbolic link. *)
Definition linked (returncode : Z) : Installer :=
  {| executable := "/usr/bin/python3";
     resolve_path := λ p, if decide (p = Sample.script) then target else p;
     urlretrieve := λ _ _, None; chmod_downloaded := None;
     curl := λ _, None; chmod_curled := None;
     run_child := λ _ _, inr returncode; imports := None |}.

(** A host on which the mcp library is not installed. *)
Definition without_mcp : Installer :=
  {| executable := "/usr/bin/python3"; resolve_path := λ p, p;
     urlretrieve := λ _ _, None; chmod_downloaded := None;
     curl := λ _, None; chmod_curled := None;
     run_child := λ _ _, inr 0%Z;
     imports := Some (Exn "ModuleNotFoundError" "No module named 'mcp'") |}.

(** A host without network: both downloads fail. *)
Definition offline : Installer :=
  {| executable := "/usr/bin/python3"; resolve_path := λ p, p;
     urlretrieve := λ _ _, Some (Exn "URLError" "<urlopen error timed out>");
     chmod_downloaded := None;
     curl := λ _, Some (Exn "CalledProcessError"
                          "Command 'curl' returned non-zero exit status 6.");
     chmod_curled := None;
     run_child := λ _ _, inr 0%Z; imports := None |}.

(** A host on which only curl can download. *)
Definition curl_only : Installer :=
  {| executable := "/usr/bin/python3"; resolve_path := λ p, p;
     urlretrieve := λ _ _, Some (Exn "URLError" "<urlopen error timed out>");
     chmod_downloaded := None;
     curl := λ _, None; chmod_curled := None;
     run_child := λ _ _, inr 0%Z; imports := None |}.

Definition pipx : path := ["opt"; "ensue-skill"; "scripts"; "pipx.pyz"].

(** First invocation, pipx already downloaded. *)
Definition first_run : World :=
  Sample.world ["list_keys"; "{}"] {[ "ENSUE_TOKEN" := "other" ]}
    {[ pipx := RegularFile "" ]} (inr Sample.keys_reply).

(** First invocation, nothing downloaded yet. *)
Definition fresh : World :=
  Sample.world ["list_keys"; "{}"] {[ "ENSUE_TOKEN" := "other" ]}
    ∅ (inr Sample.keys_reply).

(** No token in the environment, a key file at the plugin path only. *)
Definition plugin_key_only : World :=
  Sample.world ["list_keys"] ∅
    {[ Sample.plugin_key := RegularFile "  secret
" ]} (inr Sample.keys_reply).

(** The plugin key path names a directory. *)
Definition plugin_key_directory : World :=
  Sample.world ["list_keys"] ∅
    {[ Sample.plugin_key := Unreadable (Exn "IsADirectoryError"
         "[Errno 21] Is a directory: '/opt/ensue-skill/.claude-plugin/.ensue-key'") ]}
    (inr Sample.keys_reply).

(** A service whose session cannot be closed cleanly. *)
Definition close_fails : Remote :=
  {| transport_aenter := λ _ _, None; transport_aexit := None;
     session_aenter := None;
     session_aexit := Some (Exn "RuntimeError" "Attempted to exit cancel scope in a different task");
     session_initialize := None;
     session_call_tool := λ _ _, inr Sample.keys_reply |}.

(** A reply whose [content] is [None]. *)
Definition bad_reply : World :=
  Sample.world ["list_keys"] {[ "ENSUE_TOKEN" := "other" ]} ∅
    (inr (Sample.model "CallToolResult" "content=None" [("content", PNone)])).

(** [ENSUE_URL] set to the empty string. *)
Definition empty_url : World :=
  Sample.world ["list_keys"] {[ "ENSUE_URL" := ""; "ENSUE_TOKEN" := "other" ]} ∅
    (inr Sample.keys_reply).

Definition tool (name description : string) : pyobj :=
  Sample.model "Tool" ("name='" +:+ name +:+ "'")
    [("name", PStr name); ("description", PStr description);
     ("inputSchema", PDict [("type", PStr "object")])].

Definition tools_reply : pyobj :=
  Sample.model "ListToolsResult" "tools=[...]"
    [("tools", PList [tool "list_keys" "List keys"; tool "get_memory" "Read a memory"])].

(** A tool without an input schema. *)
Definition bare_tool : pyobj :=
  Sample.model "Tool" "name='bare'" [("name", PStr "bare"); ("description", PNone)].

Definition bare_tools_reply : pyobj :=
  Sample.model "ListToolsResult" "tools=[...]"
    [("tools", PList [tool "list_keys" "List keys"; bare_tool])].

End SampleHost.

(** * Properties *)

(** ** Examples *)

Example strip_example : PyStr.strip (" 	tok en
") = "tok en".
Proof. reflexivity. Qed.

Example dumps_example :
  Json.dumps (JDict [("limit", JInt 5); ("tags", JList [JStr "a\b"; JNull])])
  = "{" +:+ PyStr.q +:+ "limit" +:+ PyStr.q +:+ ": 5, " +:+ PyStr.q +:+ "tags"
    +:+ PyStr.q +:+ ": [" +:+ PyStr.q +:+ "a\\b" +:+ PyStr.q +:+ ", null]}".
Proof. reflexivity. Qed.

Example escape_example :
  Json.dumps (JStr (String (ascii_of_N 31) (String (ascii_of_N 233)
                      (String (ascii_of_N 127) (String PyStr.dquote "\/")))))
  = PyStr.q +:+ "\u001f\u00e9\u007f\" +:+ PyStr.q +:+ "\\/" +:+ PyStr.q.
Proof. reflexivity. Qed.

Example parse_example :
  Rfc8259.parse (" {" +:+ PyStr.q +:+ "a\u00e9\n" +:+ PyStr.q
                   +:+ " : [1, -20, 1.5e+3, true, null, {}]} ")
  = Some (JDict [(String "a" (String (ascii_of_N 233) (String (ascii_of_N 10) "")),
                  JList [JInt 1; JInt (-20); JFloat "1.5e+3"; JBool true; JNull;
                         JDict []])])
  ∧ Rfc8259.parse "[1,]" = None
  ∧ Rfc8259.parse "01" = None
  ∧ Rfc8259.parse "{limit" = None
  ∧ Rfc8259.parse "NaN" = None.
Proof. by repeat split. Qed.

Example encoder_limits :
  Json.within_limits (PList [PInt 4300; PFloat "NaN"; Sample.tool_result []]) = true
  ∧ Json.nesting (PDict [("a", PList [PTuple []; PInt 1]); ("b", PNone)]) = 3
  ∧ Json.within_limits (Nat.iter 100 (λ o, PList [o]) PNone) = true
  ∧ Json.within_limits (Nat.iter 101 (λ o, PList [o]) PNone) = false.
Proof. by repeat split. Qed.

Example decoder_limits :
  Rfc8259.valid Sample.deep = false ∧ Rfc8259.valid Sample.long_integer = true.
Proof. split; vm_compute; reflexivity. Qed.

Example run_with_token :
  main_async Sample.json_loads Sample.with_token
  = (env_reads ++ conversation DEFAULT_URL "other" "list_keys" (JDict [])
       ++ [PrintOut (PStr "{}")],
     Return ()).
Proof. reflexivity. Qed.

Example run_tool_fails :
  main_async Sample.json_loads Sample.tool_fails
  = (env_reads
       ++ [Connect DEFAULT_URL (bearer "other"); TransportOpen; SessionOpen; Initialize;
           CallTool "list_keys" (JDict []); SessionClose; TransportClose;
           PrintErr (remote_error (Exn "McpError" "Unknown tool: list_keys")
                       "list_keys" (JDict []))],
     Raise (SystemExit 1)).
Proof. reflexivity. Qed.

(** ** Configuration Resolver *)

Section GetConfig.

Lemma scope_lookup (a b c d : path) (name : string) :
  ({[ "script_dir" := a; "repo_root" := b;
      "plugin_key_file" := c; "skill_key_file" := d ]} : gmap string path) !! name
  = if String.eqb name "script_dir" then Some a
    else if String.eqb name "repo_root" then Some b
    else if String.eqb name "plugin_key_file" then Some c
    else if String.eqb name "skill_key_file" then Some d
    else None.
Proof.
  repeat (rewrite lookup_insert; case_decide as H; [subst; reflexivity|
    apply String.eqb_neq in H; rewrite String.eqb_sym in H; rewrite H; clear H]).
  rewrite ?lookup_singleton, ?lookup_empty.
  repeat (case_decide as H; [subst; reflexivity|
    apply String.eqb_neq in H; rewrite String.eqb_sym in H; rewrite H; clear H]).
  reflexivity.
Qed.

Lemma truthy_Some s : PyStr.truthy (Some s) = true ↔ s ≠ "".
Proof. destruct s; simpl; split; congruence. Qed.

Variable w : World.

(** [ENSUE_API_KEY] holds a token: nothing else is consulted. *)
Lemma get_config_api_key key :
  environ w !! "ENSUE_API_KEY" = Some key → key ≠ "" →
  get_config w
  = ([GetEnv "ENSUE_URL"; GetEnv "ENSUE_API_KEY"], Return (service_url w, key)).
Proof.
  intros H Hk. unfold get_config, environ_get. rewrite H.
  destruct key as [|a k]; [done|]. reflexivity.
Qed.

(** [ENSUE_API_KEY] is falsy and [ENSUE_TOKEN] holds a token. *)
Lemma get_config_env_token token :
  PyStr.truthy (environ w !! "ENSUE_API_KEY") = false →
  environ w !! "ENSUE_TOKEN" = Some token → token ≠ "" →
  get_config w = (env_reads, Return (service_url w, token)).
Proof.
  intros Hk H Ht. unfold get_config, environ_get.
  unfold mbind, M_bind, mret, M_ret, emit. cbn [app].
  rewrite Hk, H. destruct token as [|a k]; [done|]. reflexivity.
Qed.

(** Neither variable holds a token: the run of [get_config] by the state
    of the two key files. *)
Lemma get_config_fallback :
  PyStr.truthy (environ w !! "ENSUE_API_KEY") = false →
  PyStr.truthy (environ w !! "ENSUE_TOKEN") = false →
  get_config w =
    match fs w !! plugin_key_file w, fs w !! skill_key_file w with
    | Some (Unreadable e), _ =>
        (env_reads ++ [PathExists (plugin_key_file w); ReadText (plugin_key_file w)],
         Raise (Exception e))
    | Some (RegularFile _), Some _ =>
        (env_reads ++ [PathExists (plugin_key_file w); ReadText (plugin_key_file w);
                       PathExists (skill_key_file w)],
         Raise (Exception name_error))
    | None, Some _ =>
        (env_reads ++ [PathExists (plugin_key_file w); PathExists (skill_key_file w)],
         Raise (Exception name_error))
    | Some (RegularFile text), None =>
        match PyStr.strip text with
        | String _ _ as token =>
            (env_reads ++ [PathExists (plugin_key_file w); ReadText (plugin_key_file w);
                           PathExists (skill_key_file w)],
             Return (service_url w, token))
        | EmptyString =>
            (env_reads ++ [PathExists (plugin_key_file w); ReadText (plugin_key_file w);
                           PathExists (skill_key_file w); PrintErr (no_token_error w)],
             Raise (SystemExit 1))
        end
    | None, None =>
        (env_reads ++ [PathExists (plugin_key_file w); PathExists (skill_key_file w);
                       PrintErr (no_token_error w)],
         Raise (SystemExit 1))
    end.
Proof.
  intros Hk Ht.
  unfold get_config, environ_get, exists_, read_text, load_name.
  rewrite !scope_lookup. cbn [String.eqb Ascii.eqb Bool.eqb].
  fold (plugin_key_file w) (skill_key_file w) (service_url w).
  unfold mbind, M_bind, mret, M_ret, emit, raise_exn, raise, print_err, sys_exit, emit.
  cbn [app]. rewrite Hk. cbn [app].
  destruct (environ w !! "ENSUE_TOKEN") as [[|??]|] eqn:Etok; try discriminate Ht;
    cbn [negb PyStr.truthy app];
    (destruct (fs w !! plugin_key_file w) as [[text|e]|] eqn:Ep;
     destruct (fs w !! skill_key_file w) as [n|] eqn:Es;
     try reflexivity);
    destruct (PyStr.strip text); reflexivity.
Qed.

(** The three ways the environment can present itself to [get_config]. *)
Lemma env_cases :
  (∃ key, environ w !! "ENSUE_API_KEY" = Some key ∧ key ≠ "")
  ∨ (PyStr.truthy (environ w !! "ENSUE_API_KEY") = false
     ∧ ∃ token, environ w !! "ENSUE_TOKEN" = Some token ∧ token ≠ "")
  ∨ (PyStr.truthy (environ w !! "ENSUE_API_KEY") = false
     ∧ PyStr.truthy (environ w !! "ENSUE_TOKEN") = false).
Proof.
  destruct (environ w !! "ENSUE_API_KEY") as [[|a k]|];
    destruct (environ w !! "ENSUE_TOKEN") as [[|b t]|]; simpl; eauto 8.
Qed.

(** Configuration resolution talks to the environment and the file
    system only, and prints at most its own error. *)
Lemma get_config_trace :
  none_of is_remote (trace (get_config w))
  ∧ none_of (λ e, match e with PrintOut _ => true | _ => false end) (trace (get_config w)).
Proof.
  destruct env_cases as [(key & H & Hk)|[(Hk & token & H & Ht)|(Hk & Ht)]].
  - rewrite (get_config_api_key _ H Hk). split; repeat constructor.
  - rewrite (get_config_env_token _ Hk H Ht). split; repeat constructor.
  - rewrite (get_config_fallback Hk Ht).
    destruct (fs w !! plugin_key_file w) as [[text|e]|];
      destruct (fs w !! skill_key_file w) as [n|];
      try destruct (PyStr.strip text); split; repeat constructor.
Qed.

(** A token that [get_config] returns is not empty. *)
Lemma get_config_token_nonempty url token :
  result (get_config w) = Return (url, token) → token ≠ "".
Proof.
  destruct env_cases as [(key & H & Hk)|[(Hk & tok & H & Ht)|(Hk & Ht)]].
  - rewrite (get_config_api_key _ H Hk). simpl. congruence.
  - rewrite (get_config_env_token _ Hk H Ht). simpl. congruence.
  - rewrite (get_config_fallback Hk Ht).
    destruct (fs w !! plugin_key_file w) as [[text|e]|];
      destruct (fs w !! skill_key_file w) as [n|];
      try destruct (PyStr.strip text); simpl; congruence.
Qed.

(** [get_config] leaves by [sys.exit] only with status 1, after writing
    the missing-token report. *)
Lemma get_config_exit code :
  result (get_config w) = Raise (SystemExit code) →
  code = 1%Z ∧ ∃ tr, trace (get_config w) = tr ++ [PrintErr (no_token_error w)]
                     ∧ none_of is_remote tr.
Proof.
  destruct env_cases as [(key & H & Hk)|[(Hk & tok & H & Ht)|(Hk & Ht)]].
  - rewrite (get_config_api_key _ H Hk). simpl. congruence.
  - rewrite (get_config_env_token _ Hk H Ht). simpl. congruence.
  - rewrite (get_config_fallback Hk Ht).
    destruct (fs w !! plugin_key_file w) as [[text|e]|];
      destruct (fs w !! skill_key_file w) as [n|];
      try destruct (PyStr.strip text); simpl; try congruence;
      intros [= <-]; (split; [reflexivity|]).
    + eexists (env_reads ++ [_; _; _]). split; [reflexivity|repeat constructor].
    + eexists (env_reads ++ [_; _]). split; [reflexivity|repeat constructor].
Qed.

End GetConfig.

(** ** Remote Session Client *)

Section Session.

Variables (r : Remote) (url token name : string) (arguments : json).

(** Case analysis on everything the remote service decides during one
    [call_tool]. *)
Ltac remote_cases :=
  unfold call_tool, create_session, async_with, streamablehttp_client,
    ClientSession, initialize, session_call, check;
  cbn [aenter aexit];
  destruct (transport_aenter r url _) as [?e|] eqn:?; cbn;
  destruct (session_aenter r) as [?e|] eqn:?; cbn;
  destruct (session_initialize r) as [?e|] eqn:?; cbn;
  destruct (session_call_tool r name arguments) as [?e|?res] eqn:?; cbn;
  destruct (session_aexit r) as [?e|] eqn:?; cbn;
  destruct (transport_aexit r) as [?e|] eqn:?; cbn.

Lemma call_tool_result :
  (∃ res, result (call_tool r url token name arguments) = Return res)
  ∨ (∃ e, result (call_tool r url token name arguments) = Raise (Exception e)).
Proof. remote_cases; eauto. Qed.

Lemma call_tool_counts :
  let tr := trace (call_tool r url token name arguments) in
  count is_transport_open tr = count is_transport_close tr
  ∧ count is_session_open tr = count is_session_close tr
  ∧ (count is_session_open tr ≤ count is_transport_open tr)%nat
  ∧ (count is_transport_open tr ≤ 1)%nat
  ∧ count is_connect tr = 1
  ∧ (count is_call_tool tr ≤ 1)%nat.
Proof. remote_cases; repeat split; lia. Qed.

Lemma call_tool_events e :
  e ∈ trace (call_tool r url token name arguments) →
  is_remote e = true
  ∧ (∀ u h, e = Connect u h → u = url ∧ h = bearer token)
  ∧ (∀ n a, e = CallTool n a → n = name ∧ a = arguments).
Proof.
  remote_cases; intros He;
    repeat (apply elem_of_cons in He as [->|He]);
    try (apply elem_of_nil in He; contradiction);
    (split; [reflexivity|split; intros ?? [=]; subst; done]).
Qed.

Lemma call_tool_return res :
  result (call_tool r url token name arguments) = Return res ↔
  transport_aenter r url (bearer token) = None ∧ session_aenter r = None
  ∧ session_initialize r = None
  ∧ session_call_tool r name arguments = inr res
  ∧ session_aexit r = None ∧ transport_aexit r = None.
Proof.
  unfold bearer.
  remote_cases; split; try (intros [= <-]; done); try discriminate;
    intros (?&?&?&?&?&?); try discriminate; congruence.
Qed.

Lemma call_tool_return_trace res :
  result (call_tool r url token name arguments) = Return res →
  trace (call_tool r url token name arguments)
  = conversation url token name arguments.
Proof. remote_cases; try discriminate; reflexivity. Qed.

(** Once the transport and the session are entered, both are closed
    exactly once, whatever the handshake, the tool call and the closing
    operations do. *)
Lemma call_tool_opened :
  transport_aenter r url (bearer token) = None →
  session_aenter r = None →
  let tr := trace (call_tool r url token name arguments) in
  count is_session_open tr = 1 ∧ count is_session_close tr = 1
  ∧ count is_transport_open tr = 1 ∧ count is_transport_close tr = 1.
Proof.
  unfold bearer. intros Ht Hs. revert Ht Hs.
  remote_cases; intros; try discriminate; repeat split; reflexivity.
Qed.

End Session.

(** ** Formatting *)

Lemma first_text_none items :
  Forall (λ i, Py.getattr i "text" = None) items → first_text items = None.
Proof.
  induction 1 as [|i items Hi _ IH]; [reflexivity|].
  simpl. unfold Py.hasattr. rewrite Hi. simpl. exact IH.
Qed.

Lemma first_text_first pre item post text :
  Forall (λ i, Py.getattr i "text" = None) pre →
  Py.getattr item "text" = Some text →
  first_text (pre ++ item :: post) = Some text.
Proof.
  intros Hpre Hitem. induction Hpre as [|i pre Hi _ IH]; simpl.
  - unfold Py.hasattr. rewrite Hitem. reflexivity.
  - unfold Py.hasattr. rewrite Hi. simpl. exact IH.
Qed.

(** [format_result] performs no event and never calls [sys.exit]. *)
Lemma format_result_pure res :
  (∃ out, format_result res = ([], Return out))
  ∨ (∃ e, format_result res = ([], Raise (Exception e))).
Proof.
  unfold format_result.
  destruct (Py.hasattr res "content"); [|left; eexists; reflexivity].
  destruct (Py.getattr res "content") as [content|]; [|left; eexists; reflexivity].
  destruct (Py.iter content) as [e|items]; [right; eexists; reflexivity|].
  destruct (first_text items); left; eexists; reflexivity.
Qed.

(** ** CLI Driver *)

Lemma count_app P tr1 tr2 : count P (tr1 ++ tr2) = count P tr1 + count P tr2.
Proof. induction tr1 as [|e tr1 IH]; simpl; [reflexivity|]. rewrite IH. lia. Qed.

Lemma count_none P Q tr :
  (∀ e, P e = true → Q e = true) → none_of Q tr → count P tr = 0.
Proof.
  intros HPQ. induction 1 as [|e tr He _ IH]; simpl; [reflexivity|].
  rewrite IH. destruct (P e) eqn:HP; [|reflexivity].
  apply HPQ in HP. congruence.
Qed.

Lemma none_of_app P tr1 tr2 :
  none_of P (tr1 ++ tr2) ↔ none_of P tr1 ∧ none_of P tr2.
Proof. apply Forall_app. Qed.

Section Driver.

Variable json_loads : string → loads_result.
Variable w : World.

Lemma main_async_usage :
  length (argv w) < 2 →
  main_async json_loads w = ([PrintErr usage_error], Raise (SystemExit 1)).
Proof.
  intros H. unfold main_async. rewrite bool_decide_eq_true_2 by exact H.
  reflexivity.
Qed.

Lemma main_async_parse_error msg :
  2 ≤ length (argv w) →
  json_loads (args_str_of w) = JSONDecodeError msg →
  main_async json_loads w
  = ([PrintErr (parse_error msg (args_str_of w))], Raise (SystemExit 1)).
Proof.
  intros H Hl. unfold main_async. rewrite bool_decide_eq_false_2 by lia.
  cbv zeta. rewrite Hl. reflexivity.
Qed.

Lemma main_async_other_error e :
  2 ≤ length (argv w) →
  json_loads (args_str_of w) = OtherError e →
  main_async json_loads w = ([], Raise (Exception e)).
Proof.
  intros H Hl. unfold main_async. rewrite bool_decide_eq_false_2 by lia.
  cbv zeta. rewrite Hl. reflexivity.
Qed.

Lemma main_async_decoded arguments :
  2 ≤ length (argv w) →
  json_loads (args_str_of w) = Decoded arguments →
  main_async json_loads w
  = ('(url, token) ← resolve w; invoke w url token (command_of w) arguments).
Proof.
  intros H Hl. unfold main_async. rewrite bool_decide_eq_false_2 by lia.
  cbv zeta. rewrite Hl.
  unfold mbind, M_bind, mret, M_ret.
  destruct (resolve w) as [t [[url token]|r]]; [|reflexivity].
  destruct (invoke w url token (command_of w) arguments). reflexivity.
Qed.

Lemma resolve_unfold :
  resolve w =
    match get_config w with
    | (t, Raise (Exception e)) =>
        (t ++ [PrintErr (configuration_error e)], Raise (SystemExit 1))
    | other => other
    end.
Proof.
  unfold resolve, try_except.
  destruct (get_config w) as [t [p|[c|e]]]; reflexivity.
Qed.

Lemma attempt_unfold url token command arguments :
  attempt w url token command arguments =
    match call_tool (remote w) url token command arguments with
    | (t, Return res) =>
        match format_result res with
        | (_, Return out) => (t ++ [PrintOut out], Return ())
        | (_, Raise r) => (t, Raise r)
        end
    | (t, Raise r) => (t, Raise r)
    end.
Proof.
  unfold attempt, mbind, M_bind, print_out, emit.
  destruct (call_tool _ _ _ _ _) as [t [res|r]]; [|reflexivity].
  destruct (format_result_pure res) as [[out ->]|[e ->]]; [reflexivity|].
  rewrite app_nil_r. reflexivity.
Qed.

Lemma invoke_unfold url token command arguments :
  invoke w url token command arguments =
    match attempt w url token command arguments with
    | (t, Raise (Exception e)) =>
        (t ++ [PrintErr (remote_error e command arguments)], Raise (SystemExit 1))
    | other => other
    end.
Proof.
  unfold invoke, try_except.
  destruct (attempt _ _ _ _ _) as [t [p|[c|e]]]; reflexivity.
Qed.

(** [attempt] ends by returning or by an [Exception], never by
    [sys.exit]. *)
Lemma attempt_result url token command arguments :
  result (attempt w url token command arguments) = Return ()
  ∨ ∃ e, result (attempt w url token command arguments) = Raise (Exception e).
Proof.
  rewrite attempt_unfold.
  pose proof (call_tool_result (remote w) url token command arguments) as Hct.
  destruct (call_tool _ _ _ _ _) as [t [res|r]]; simpl in Hct.
  - destruct (format_result_pure res) as [[out ->]|[e ->]]; simpl; eauto.
  - destruct Hct as [[res [=]]|[e [= ->]]]. simpl. eauto.
Qed.

(** The trace of [attempt]: the conversation of [call_tool], then at
    most the printed output. *)
Lemma attempt_trace url token command arguments :
  ∃ tail, trace (attempt w url token command arguments)
          = trace (call_tool (remote w) url token command arguments) ++ tail
          ∧ none_of is_remote tail
          ∧ none_of (λ e, match e with PrintErr _ => true | _ => false end) tail.
Proof.
  rewrite attempt_unfold.
  destruct (call_tool _ _ _ _ _) as [t [res|r]]; simpl.
  - destruct (format_result res) as [t' [out|r]]; simpl.
    + eexists. split; [reflexivity|]. split; repeat constructor.
    + exists []. rewrite app_nil_r. split; [reflexivity|]. split; constructor.
  - exists []. rewrite app_nil_r. split; [reflexivity|]. split; constructor.
Qed.

Lemma invoke_trace url token command arguments :
  ∃ tail, trace (invoke w url token command arguments)
          = trace (call_tool (remote w) url token command arguments) ++ tail
          ∧ none_of is_remote tail.
Proof.
  rewrite invoke_unfold.
  destruct (attempt_trace url token command arguments) as (tail & Ht & Hr & _).
  destruct (attempt _ _ _ _ _) as [t [[]|[c|e]]]; simpl in *; subst t.
  - eauto.
  - eauto.
  - exists (tail ++ [PrintErr (remote_error e command arguments)]).
    rewrite app_assoc. split; [reflexivity|].
    apply none_of_app. split; [assumption|repeat constructor].
Qed.

(** The shape of every run: events that do not involve the remote
    service, then at most one [call_tool] conversation, opened with a
    non-empty token and carrying the command and the decoded arguments,
    then again events that do not involve the remote service. *)
Lemma main_async_trace :
  ∃ pre post,
    trace (main_async json_loads w) = pre ++ post
    ∧ none_of is_remote pre
    ∧ (post = []
       ∨ ∃ url token arguments tail,
           post = trace (call_tool (remote w) url token (command_of w) arguments) ++ tail
           ∧ none_of is_remote tail
           ∧ token ≠ ""
           ∧ 2 ≤ length (argv w)
           ∧ json_loads (args_str_of w) = Decoded arguments).
Proof.
  destruct (decide (length (argv w) < 2)) as [Hlen|Hlen].
  { rewrite main_async_usage by exact Hlen.
    exists [PrintErr usage_error], []. simpl. repeat split; auto. repeat constructor. }
  destruct (json_loads (args_str_of w)) as [arguments|msg|e] eqn:Hl.
  3:{ rewrite (main_async_other_error e) by (lia || exact Hl).
      exists [], []. simpl. repeat split; auto. constructor. }
  2:{ rewrite (main_async_parse_error msg) by (lia || exact Hl).
      eexists [_], []. simpl. repeat split; auto. repeat constructor. }
  rewrite (main_async_decoded arguments) by (lia || exact Hl).
  rewrite resolve_unfold.
  destruct (get_config_trace w) as [Hcfg _].
  pose proof (get_config_token_nonempty w) as Htok.
  destruct (get_config w) as [t [[url token]|[c|e]]]; simpl in Hcfg, Htok.
  - destruct (invoke_trace url token (command_of w) arguments) as (tail & Ht & Hr).
    unfold mbind, M_bind.
    destruct (invoke _ _ _ _ _) as [t' o]. simpl in Ht. subst t'.
    exists t. eexists. split; [reflexivity|]. split; [assumption|].
    right. exists url, token, arguments, tail.
    split; [reflexivity|]. split; [assumption|].
    split; [eapply Htok; reflexivity|]. split; [lia|reflexivity].
  - exists t, []. simpl. rewrite app_nil_r. auto.
  - eexists _, []. simpl. rewrite app_nil_r. split; [reflexivity|].
    split; auto. apply none_of_app. split; [assumption|repeat constructor].
Qed.

End Driver.

(** ** Claims about the Configuration Resolver *)

(** C4. With [ENSUE_API_KEY] set to a non-empty value, [get_config]
    returns that value as the token after reading [ENSUE_URL] and
    [ENSUE_API_KEY] only, and it does so whatever [ENSUE_TOKEN] is set to,
    or whether it is set at all. *)
Theorem api_key_has_priority (w : World) (key : string) :
  environ w !! "ENSUE_API_KEY" = Some key → key ≠ "" →
  get_config w
  = ([GetEnv "ENSUE_URL"; GetEnv "ENSUE_API_KEY"], Return (service_url w, key))
  ∧ ∀ other : option string,
      get_config (setenv "ENSUE_TOKEN" other w) = get_config w.
Proof.
  intros H Hk. split; [exact (get_config_api_key w key H Hk)|].
  intros other.
  rewrite (get_config_api_key w key H Hk).
  rewrite (get_config_api_key (setenv "ENSUE_TOKEN" other w) key).
  - unfold service_url, setenv. cbn [environ with_environ].
    rewrite lookup_partial_alter_ne by discriminate. reflexivity.
  - unfold setenv. cbn [environ with_environ].
    rewrite lookup_partial_alter_ne by discriminate. exact H.
  - exact Hk.
Qed.

Lemma api_key_has_priority_witness :
  get_config Sample.with_api_key
  = ([GetEnv "ENSUE_URL"; GetEnv "ENSUE_API_KEY"], Return (DEFAULT_URL, "abc"))
  ∧ ∀ other : option string,
      get_config (setenv "ENSUE_TOKEN" other Sample.with_api_key)
      = get_config Sample.with_api_key.
Proof.
  apply (api_key_has_priority Sample.with_api_key "abc");
    [reflexivity | discriminate].
Defined.

(** [get_config] reads the process environment through three lookups. *)
Lemma get_config_environ (w : World) (env : gmap string string) :
  PyStr.truthy (env !! "ENSUE_API_KEY") = false →
  PyStr.truthy (environ w !! "ENSUE_API_KEY") = false →
  env !! "ENSUE_URL" = environ w !! "ENSUE_URL" →
  env !! "ENSUE_TOKEN" = environ w !! "ENSUE_TOKEN" →
  get_config (with_environ env w) = get_config w.
Proof.
  intros Hk' Hk Hurl Htok.
  destruct (PyStr.truthy (environ w !! "ENSUE_TOKEN")) eqn:Ht.
  - destruct (environ w !! "ENSUE_TOKEN") as [token|] eqn:Etok; [|discriminate].
    apply truthy_Some in Ht.
    rewrite (get_config_env_token w token Hk Etok Ht).
    rewrite (get_config_env_token (with_environ env w) token); try assumption.
    unfold service_url. cbn [environ with_environ]. rewrite Hurl. reflexivity.
  - rewrite (get_config_fallback w Hk Ht).
    rewrite (get_config_fallback (with_environ env w));
      [|assumption|cbn [environ with_environ]; rewrite Htok; exact Ht].
    unfold service_url, no_token_error, plugin_key_file, skill_key_file.
    cbn [environ fs script_file with_environ]. rewrite Hurl. reflexivity.
Qed.

(** A run depends on the environment through [get_config] only. *)
Lemma main_async_environ json_loads (w : World) (env : gmap string string) :
  get_config (with_environ env w) = get_config w →
  main_async json_loads (with_environ env w) = main_async json_loads w.
Proof.
  intros H. unfold main_async, resolve. rewrite H. reflexivity.
Qed.

(** C10. [ENSUE_API_KEY] set to the empty string is treated as absent:
    every run with the variable set to the empty string is, event for
    event, the run with the variable unset.  In particular the empty
    string is never the token, and a non-empty [ENSUE_TOKEN] is the token
    that [get_config] falls back to. *)
Theorem empty_api_key_is_absent (json_loads : string → loads_result) (w : World) :
  let empty := setenv "ENSUE_API_KEY" (Some "") w in
  let absent := setenv "ENSUE_API_KEY" None w in
  get_config empty = get_config absent
  ∧ main_async json_loads empty = main_async json_loads absent
  ∧ (∀ url token, result (get_config empty) = Return (url, token) → token ≠ "")
  ∧ (∀ token, environ w !! "ENSUE_TOKEN" = Some token → token ≠ "" →
       get_config empty = (env_reads, Return (service_url w, token))).
Proof.
  intros empty absent.
  assert (Hempty : environ empty !! "ENSUE_API_KEY" = Some "").
  { unfold empty, setenv. cbn [environ with_environ]. apply lookup_partial_alter_eq. }
  assert (Habsent : environ absent !! "ENSUE_API_KEY" = None).
  { unfold absent, setenv. cbn [environ with_environ]. apply lookup_partial_alter_eq. }
  assert (Hother : ∀ name, name ≠ "ENSUE_API_KEY" →
            environ empty !! name = environ w !! name
            ∧ environ absent !! name = environ w !! name).
  { intros name Hne. unfold empty, absent, setenv. cbn [environ with_environ].
    rewrite !lookup_partial_alter_ne by congruence. split; reflexivity. }
  assert (Heq : get_config empty = get_config absent).
  { change empty with (with_environ (environ empty) absent).
    apply get_config_environ.
    - rewrite Hempty. reflexivity.
    - rewrite Habsent. reflexivity.
    - destruct (Hother "ENSUE_URL") as [-> ->]; [discriminate|reflexivity].
    - destruct (Hother "ENSUE_TOKEN") as [-> ->]; [discriminate|reflexivity]. }
  split; [exact Heq|]. split; [|split].
  - change empty with (with_environ (environ empty) absent).
    apply main_async_environ. exact Heq.
  - intros url token. apply get_config_token_nonempty.
  - intros token Htok Hne.
    rewrite (get_config_env_token empty token).
    + unfold service_url. destruct (Hother "ENSUE_URL") as [-> _]; [discriminate|].
      reflexivity.
    + rewrite Hempty. reflexivity.
    + destruct (Hother "ENSUE_TOKEN") as [-> _]; [discriminate|]. exact Htok.
    + exact Hne.
Qed.

Lemma empty_api_key_is_absent_witness :
  (∀ url token,
     result (get_config (setenv "ENSUE_API_KEY" (Some "") Sample.no_token))
     = Return (url, token) → token ≠ "")
  ∧ get_config (setenv "ENSUE_API_KEY" (Some "") Sample.with_token)
    = (env_reads, Return (DEFAULT_URL, "other")).
Proof.
  split.
  - apply (empty_api_key_is_absent Sample.json_loads Sample.no_token).
  - apply (empty_api_key_is_absent Sample.json_loads Sample.with_token);
      [reflexivity | discriminate].
Defined.

(** C1 (what the code does).  With no token in the environment, no plugin
    key file and a skill key file, [get_config] never reads the skill key
    file: evaluating the misspelt name [skil_key_file] raises [NameError].
    [main_async] reports it as a configuration error and exits with
    status 1 without contacting the remote service. *)
Theorem skill_key_file_alone_raises
    (json_loads : string → loads_result) (w : World) (n : node) (arguments : json) :
  2 ≤ length (argv w) →
  json_loads (args_str_of w) = Decoded arguments →
  PyStr.truthy (environ w !! "ENSUE_API_KEY") = false →
  PyStr.truthy (environ w !! "ENSUE_TOKEN") = false →
  fs w !! plugin_key_file w = None →
  fs w !! skill_key_file w = Some n →
  get_config w
  = (env_reads ++ [PathExists (plugin_key_file w); PathExists (skill_key_file w)],
     Raise (Exception name_error))
  ∧ main_async json_loads w
    = (env_reads ++ [PathExists (plugin_key_file w); PathExists (skill_key_file w);
                     PrintErr (configuration_error name_error)],
       Raise (SystemExit 1)).
Proof.
  intros Hlen Hl Hk Ht Hp Hs.
  assert (Hcfg : get_config w
    = (env_reads ++ [PathExists (plugin_key_file w); PathExists (skill_key_file w)],
       Raise (Exception name_error))).
  { rewrite (get_config_fallback w Hk Ht), Hp, Hs. reflexivity. }
  split; [exact Hcfg|].
  rewrite (main_async_decoded json_loads w arguments Hlen Hl).
  rewrite resolve_unfold, Hcfg. reflexivity.
Qed.

Lemma skill_key_file_alone_raises_witness :
  get_config Sample.skill_key_only
  = (env_reads ++ [PathExists Sample.plugin_key; PathExists Sample.skill_key],
     Raise (Exception name_error))
  ∧ main_async Sample.json_loads Sample.skill_key_only
    = (env_reads ++ [PathExists Sample.plugin_key; PathExists Sample.skill_key;
                     PrintErr (configuration_error name_error)],
       Raise (SystemExit 1)).
Proof.
  apply (skill_key_file_alone_raises Sample.json_loads Sample.skill_key_only
           (RegularFile "secret
") (JDict []));
    [simpl; lia | reflexivity | reflexivity | reflexivity | reflexivity | reflexivity].
Defined.

(** C2 (what the code does).  With no token in the environment and a key
    file at both paths, [get_config] reads the plugin key file, finds that
    the skill key file exists, and raises [NameError] on the misspelt name
    [skil_key_file] before reading it; the token read from the plugin key
    file is lost.  [main_async] reports a configuration error and exits
    with status 1 without contacting the remote service. *)
Theorem both_key_files_raise
    (json_loads : string → loads_result) (w : World) (text : string) (n : node)
    (arguments : json) :
  2 ≤ length (argv w) →
  json_loads (args_str_of w) = Decoded arguments →
  PyStr.truthy (environ w !! "ENSUE_API_KEY") = false →
  PyStr.truthy (environ w !! "ENSUE_TOKEN") = false →
  fs w !! plugin_key_file w = Some (RegularFile text) →
  fs w !! skill_key_file w = Some n →
  get_config w
  = (env_reads ++ [PathExists (plugin_key_file w); ReadText (plugin_key_file w);
                   PathExists (skill_key_file w)],
     Raise (Exception name_error))
  ∧ main_async json_loads w
    = (env_reads ++ [PathExists (plugin_key_file w); ReadText (plugin_key_file w);
                     PathExists (skill_key_file w);
                     PrintErr (configuration_error name_error)],
       Raise (SystemExit 1)).
Proof.
  intros Hlen Hl Hk Ht Hp Hs.
  assert (Hcfg : get_config w
    = (env_reads ++ [PathExists (plugin_key_file w); ReadText (plugin_key_file w);
                     PathExists (skill_key_file w)],
       Raise (Exception name_error))).
  { rewrite (get_config_fallback w Hk Ht), Hp, Hs. reflexivity. }
  split; [exact Hcfg|].
  rewrite (main_async_decoded json_loads w arguments Hlen Hl).
  rewrite resolve_unfold, Hcfg. reflexivity.
Qed.

Lemma both_key_files_raise_witness :
  get_config Sample.both_keys
  = (env_reads ++ [PathExists Sample.plugin_key; ReadText Sample.plugin_key;
                   PathExists Sample.skill_key],
     Raise (Exception name_error))
  ∧ main_async Sample.json_loads Sample.both_keys
    = (env_reads ++ [PathExists Sample.plugin_key; ReadText Sample.plugin_key;
                     PathExists Sample.skill_key;
                     PrintErr (configuration_error name_error)],
       Raise (SystemExit 1)).
Proof.
  apply (both_key_files_raise Sample.json_loads Sample.both_keys "first
" (RegularFile "second
") (JDict []));
    [simpl; lia | reflexivity | reflexivity | reflexivity | reflexivity | reflexivity].
Defined.

(** ** Serialized reports *)

Lemma append_assoc (a b c : string) : (a +:+ b) +:+ c = a +:+ (b +:+ c).
Proof.
  induction a as [|x a IH]; [reflexivity|].
  change (String x ((a +:+ b) +:+ c) = String x (a +:+ (b +:+ c))).
  rewrite IH. reflexivity.
Qed.

Lemma append_empty_r (s : string) : s +:+ "" = s.
Proof.
  induction s as [|a s IH]; [reflexivity|].
  change (String a (s +:+ "") = String a s). rewrite IH. reflexivity.
Qed.

Lemma escape_app (a b : string) :
  Json.escape (a +:+ b) = Json.escape a +:+ Json.escape b.
Proof.
  induction a as [|x a IH]; [reflexivity|].
  change (Json.escape_char x +:+ Json.escape (a +:+ b)
          = (Json.escape_char x +:+ Json.escape a) +:+ Json.escape b).
  rewrite IH, append_assoc. reflexivity.
Qed.

Lemma startswith_app (prefix s : string) :
  PyStr.startswith (prefix +:+ s) prefix = true.
Proof.
  induction prefix as [|a prefix IH]; [by destruct s|].
  change (Ascii.eqb a a && PyStr.startswith (prefix +:+ s) prefix = true).
  rewrite Ascii.eqb_refl. exact IH.
Qed.

Lemma contains_unfold (needle hay : string) :
  PyStr.contains needle hay
  = PyStr.startswith hay needle
    || match hay with
       | EmptyString => false
       | String _ hay' => PyStr.contains needle hay'
       end.
Proof. destruct hay; reflexivity. Qed.

Lemma contains_app (pre needle post : string) :
  PyStr.contains needle (pre +:+ needle +:+ post) = true.
Proof.
  induction pre as [|a pre IH].
  - change ("" +:+ needle +:+ post) with (needle +:+ post).
    rewrite contains_unfold, startswith_app. reflexivity.
  - change (PyStr.startswith (String a (pre +:+ needle +:+ post)) needle
            || PyStr.contains needle (pre +:+ needle +:+ post) = true).
    rewrite IH. apply orb_true_r.
Qed.

(** The text of the missing-token report names [ENSUE_API_KEY]. *)
Lemma no_token_error_text (w : World) :
  PyStr.contains "ENSUE_API_KEY" (Json.dumps (no_token_error w)) = true.
Proof.
  assert (Json.dumps (no_token_error w)
          = ("{" +:+ PyStr.q +:+ "error" +:+ PyStr.q +:+ ": " +:+ PyStr.q)
            +:+ "ENSUE_API_KEY"
            +:+ (" or ENSUE_TOKEN env var not set, and "
                 +:+ Json.escape (Path.to_str (plugin_key_file w) +:+ " and "
                                  +:+ Path.to_str (skill_key_file w))
                 +:+ PyStr.q +:+ "}")) as ->.
  { unfold no_token_error, no_token_message, Json.dumps. cbn [to_py map].
    cbn [Json.dumps_default_str map PyStr.join]. unfold Json.quote.
    rewrite escape_app, !append_assoc. reflexivity. }
  apply contains_app.
Qed.

(** The text of the report of the [NameError] does not. *)
Lemma name_error_text :
  PyStr.contains "ENSUE_API_KEY" (Json.dumps (configuration_error name_error)) = false.
Proof. reflexivity. Qed.

(** The text of the parse-error report holds the received text, as a JSON
    string. *)
Lemma parse_error_text (msg received : string) :
  PyStr.contains (Json.quote received) (Json.dumps (parse_error msg received)) = true.
Proof.
  assert (Json.dumps (parse_error msg received)
          = ("{" +:+ PyStr.q +:+ "error" +:+ PyStr.q +:+ ": "
             +:+ Json.quote ("Invalid JSON arguments: " +:+ msg)
             +:+ ", " +:+ PyStr.q +:+ "received" +:+ PyStr.q +:+ ": ")
            +:+ Json.quote received +:+ "}") as ->.
  { unfold parse_error, Json.dumps. cbn [to_py map].
    cbn [Json.dumps_default_str map PyStr.join].
    rewrite !append_assoc. reflexivity. }
  apply contains_app.
Qed.

(** ** Everything a run writes to standard error *)

Lemma get_config_stderr (w : World) (j : json) :
  PrintErr j ∈ trace (get_config w) → j = no_token_error w.
Proof.
  destruct (env_cases w) as [(key & H & Hk)|[(Hk & tok & H & Ht)|(Hk & Ht)]].
  - rewrite (get_config_api_key w _ H Hk). simpl. intros Hin.
    repeat (apply elem_of_cons in Hin as [[=]|Hin]). apply elem_of_nil in Hin as [].
  - rewrite (get_config_env_token w _ Hk H Ht). simpl. intros Hin.
    repeat (apply elem_of_cons in Hin as [[=]|Hin]). apply elem_of_nil in Hin as [].
  - rewrite (get_config_fallback w Hk Ht).
    destruct (fs w !! plugin_key_file w) as [[text|e]|];
      destruct (fs w !! skill_key_file w) as [n|];
      try destruct (PyStr.strip text); simpl; intros Hin;
      repeat (apply elem_of_cons in Hin as [Heq|Hin];
              [first [discriminate Heq | injection Heq as ->; reflexivity]|]);
      apply elem_of_nil in Hin as [].
Qed.

Lemma main_async_stderr (json_loads : string → loads_result) (w : World) (j : json) :
  PrintErr j ∈ trace (main_async json_loads w) →
  (length (argv w) < 2 ∧ j = usage_error)
  ∨ (∃ msg, json_loads (args_str_of w) = JSONDecodeError msg
            ∧ j = parse_error msg (args_str_of w))
  ∨ (∃ arguments, json_loads (args_str_of w) = Decoded arguments
       ∧ (j = no_token_error w
          ∨ (∃ e, j = configuration_error e)
          ∨ (∃ e, j = remote_error e (command_of w) arguments))).
Proof.
  destruct (decide (length (argv w) < 2)) as [Hlen|Hlen].
  { rewrite main_async_usage by exact Hlen. simpl. intros Hin.
    apply list_elem_of_singleton in Hin as [= ->]. left. auto. }
  destruct (json_loads (args_str_of w)) as [arguments|msg|e] eqn:Hl.
  3:{ rewrite (main_async_other_error json_loads w e) by (lia || exact Hl).
      simpl. intros Hin. apply elem_of_nil in Hin as []. }
  2:{ rewrite (main_async_parse_error json_loads w msg) by (lia || exact Hl).
      simpl. intros Hin. apply list_elem_of_singleton in Hin as [= ->].
      right; left. eauto. }
  rewrite (main_async_decoded json_loads w arguments) by (lia || exact Hl).
  intros Hin. right; right. exists arguments. split; [reflexivity|].
  revert Hin. rewrite resolve_unfold.
  pose proof (get_config_stderr w j) as Hcfg.
  destruct (get_config w) as [t [[url token]|[c|e]]]; simpl in Hcfg.
  - unfold mbind, M_bind. rewrite invoke_unfold.
    destruct (attempt_trace w url token (command_of w) arguments) as (tail & Ht & _ & Herr).
    pose proof (call_tool_events (remote w) url token (command_of w) arguments (PrintErr j)) as Hct.
    destruct (attempt _ _ _ _ _) as [t' [[]|[c|e]]]; simpl in Ht; subst t'; simpl;
      rewrite ?elem_of_app; intros Hin;
      repeat match goal with H : _ ∨ _ |- _ => destruct H as [H|H] end;
      first [ apply Hcfg in Hin; auto
            | apply Hct in Hin as [[=] _]
            | eapply Forall_forall in Herr; [|exact Hin]; discriminate
            | apply list_elem_of_singleton in Hin as [= ->]; eauto ].
  - simpl. auto.
  - simpl. rewrite elem_of_app. intros [Hin|Hin]; auto.
    apply list_elem_of_singleton in Hin as [= ->]. eauto.
Qed.

(** C5 (what the code does).  Take a run in which neither environment
    variable holds a token and the plugin key file is absent or blank.
    When the skill key file is absent, [get_config] writes an error object
    to standard error whose text contains [ENSUE_API_KEY] and exits with
    status 1; a run that reaches configuration resolution ends there, with
    no event of the remote conversation.  When the skill key file exists
    and is blank, the run ends on the [NameError] of the misspelt name
    instead: it exits with status 1 without contacting the remote service,
    but the text of its report does not contain [ENSUE_API_KEY].  In every
    run, each connection to the remote service carries a bearer token that
    is not empty. *)
Theorem no_token_exits (json_loads : string → loads_result) (w : World) :
  (PyStr.truthy (environ w !! "ENSUE_API_KEY") = false →
   PyStr.truthy (environ w !! "ENSUE_TOKEN") = false →
   blank_or_absent (fs w !! plugin_key_file w) = true →
   (fs w !! skill_key_file w = None →
    (∃ tr, get_config w = (tr ++ [PrintErr (no_token_error w)], Raise (SystemExit 1))
           ∧ none_of is_remote tr
           ∧ (∀ arguments, 2 ≤ length (argv w) →
                json_loads (args_str_of w) = Decoded arguments →
                main_async json_loads w
                = (tr ++ [PrintErr (no_token_error w)], Raise (SystemExit 1))))
    ∧ keys (no_token_error w) = ["error"]
    ∧ PyStr.contains "ENSUE_API_KEY" (Json.dumps (no_token_error w)) = true)
   ∧ (∀ text, fs w !! skill_key_file w = Some (RegularFile text) →
        PyStr.strip text = "" →
        (∃ tr, get_config w = (tr, Raise (Exception name_error))
               ∧ none_of is_remote tr
               ∧ (∀ arguments, 2 ≤ length (argv w) →
                    json_loads (args_str_of w) = Decoded arguments →
                    main_async json_loads w
                    = (tr ++ [PrintErr (configuration_error name_error)],
                       Raise (SystemExit 1))))
        ∧ PyStr.contains "ENSUE_API_KEY" (Json.dumps (configuration_error name_error))
          = false))
  ∧ (∀ url headers,
       Connect url headers ∈ trace (main_async json_loads w) →
       ∃ token, token ≠ "" ∧ headers = bearer token).
Proof.
  split.
  - intros Hk Ht Hp.
    pose proof (get_config_fallback w Hk Ht) as Hcfg. split.
    + intros Hs. rewrite Hs in Hcfg.
      split; [|split; [reflexivity|apply no_token_error_text]].
      assert (∃ tr, get_config w = (tr ++ [PrintErr (no_token_error w)], Raise (SystemExit 1))
                    ∧ none_of is_remote tr) as (tr & Hrun & Htr).
      { destruct (fs w !! plugin_key_file w) as [[text|e]|]; simpl in Hp.
        - apply bool_decide_eq_true in Hp. rewrite Hp in Hcfg.
          eexists (env_reads ++ [_; _; _]). split; [exact Hcfg|repeat constructor].
        - discriminate.
        - eexists (env_reads ++ [_; _]). split; [exact Hcfg|repeat constructor]. }
      exists tr. split; [exact Hrun|]. split; [exact Htr|].
      intros arguments Hlen Hl.
      rewrite (main_async_decoded json_loads w arguments Hlen Hl).
      rewrite resolve_unfold, Hrun. reflexivity.
    + intros text Hs _. rewrite Hs in Hcfg.
      split; [|apply name_error_text].
      assert (∃ tr, get_config w = (tr, Raise (Exception name_error))
                    ∧ none_of is_remote tr) as (tr & Hrun & Htr).
      { destruct (fs w !! plugin_key_file w) as [[text'|e]|]; simpl in Hp.
        - eexists. split; [exact Hcfg|repeat constructor].
        - discriminate.
        - eexists. split; [exact Hcfg|repeat constructor]. }
      exists tr. split; [exact Hrun|]. split; [exact Htr|].
      intros arguments Hlen Hl.
      rewrite (main_async_decoded json_loads w arguments Hlen Hl).
      rewrite resolve_unfold, Hrun. reflexivity.
  - intros url headers Hin.
    destruct (main_async_trace json_loads w) as (pre & post & Htrace & Hpre & Hpost).
    rewrite Htrace in Hin. apply elem_of_app in Hin as [Hin|Hin].
    { eapply Forall_forall in Hpre; [|exact Hin]. discriminate. }
    destruct Hpost as [->|(u & token & arguments & tail & -> & Htail & Htok & _)].
    { apply elem_of_nil in Hin as []. }
    apply elem_of_app in Hin as [Hin|Hin].
    + apply call_tool_events in Hin as (_ & Hc & _).
      destruct (Hc url headers eq_refl) as [_ ->]. eauto.
    + eapply Forall_forall in Htail; [|exact Hin]. discriminate.
Qed.

Lemma no_token_exits_witness :
  main_async Sample.json_loads Sample.no_token
  = (env_reads ++ [PathExists Sample.plugin_key; PathExists Sample.skill_key;
                   PrintErr (no_token_error Sample.no_token)],
     Raise (SystemExit 1))
  ∧ main_async Sample.json_loads Sample.blank_skill_key
    = (env_reads ++ [PathExists Sample.plugin_key; PathExists Sample.skill_key;
                     PrintErr (configuration_error name_error)],
       Raise (SystemExit 1))
  ∧ (∃ token, token ≠ "" ∧ bearer "other" = bearer token).
Proof.
  split; [|split].
  - destruct (no_token_exits Sample.json_loads Sample.no_token) as [H _].
    destruct H as [H _]; [reflexivity | reflexivity | reflexivity |].
    destruct H as [(tr & Hcfg & _ & Hrun) _]; [reflexivity|].
    rewrite (Hrun (JDict [])); [|simpl; lia|reflexivity].
    apply (f_equal fst) in Hcfg. simpl in Hcfg. rewrite <- Hcfg. reflexivity.
  - destruct (no_token_exits Sample.json_loads Sample.blank_skill_key) as [H _].
    destruct H as [_ H]; [reflexivity | reflexivity | reflexivity |].
    destruct (H "
") as [(tr & Hcfg & _ & Hrun) _]; [reflexivity | reflexivity |].
    rewrite (Hrun (JDict [])); [|simpl; lia|reflexivity].
    apply (f_equal fst) in Hcfg. simpl in Hcfg. rewrite <- Hcfg. reflexivity.
  - apply (no_token_exits Sample.json_loads Sample.with_token) with (url := DEFAULT_URL).
    vm_compute. repeat constructor.
Defined.

(** ** Claims about the CLI Driver *)

(** C3 (as amended).  When [json.loads] decodes the argument text, the
    run is configuration resolution followed by the invocation with the
    decoded value, and nothing it writes to standard error is a
    parse-error report.  When [json.loads] raises [JSONDecodeError], the
    run consists of one write to standard error, of an object whose
    [received] entry is the argument text and whose serialization contains
    that text as a JSON string, followed by exit status 1: configuration
    is not resolved and the remote service is not contacted.  When
    [json.loads] raises another exception, the run ends on that exception
    before anything else happens: no error object is written,
    configuration is not resolved and the remote service is not
    contacted. *)
Theorem arguments_are_parsed (json_loads : string → loads_result) (w : World) :
  2 ≤ length (argv w) →
  (∀ arguments, json_loads (args_str_of w) = Decoded arguments →
     main_async json_loads w
     = ('(url, token) ← resolve w; invoke w url token (command_of w) arguments)
     ∧ ∀ msg received,
         PrintErr (parse_error msg received) ∉ trace (main_async json_loads w))
  ∧ (∀ msg, json_loads (args_str_of w) = JSONDecodeError msg →
       main_async json_loads w
       = ([PrintErr (parse_error msg (args_str_of w))], Raise (SystemExit 1))
       ∧ exit_status (main_async json_loads w) = 1%Z
       ∧ none_of is_config (trace (main_async json_loads w))
       ∧ none_of is_remote (trace (main_async json_loads w))
       ∧ PyStr.contains (Json.quote (args_str_of w))
           (Json.dumps (parse_error msg (args_str_of w))) = true)
  ∧ (∀ e, json_loads (args_str_of w) = OtherError e →
       main_async json_loads w = ([], Raise (Exception e))
       ∧ (∀ j, PrintErr j ∉ trace (main_async json_loads w))
       ∧ none_of is_config (trace (main_async json_loads w))
       ∧ none_of is_remote (trace (main_async json_loads w))).
Proof.
  intros Hlen. split; [|split].
  - intros arguments Hl. split; [exact (main_async_decoded json_loads w arguments Hlen Hl)|].
    intros msg received Hin.
    apply main_async_stderr in Hin
      as [[? _]|[(msg' & Hl' & _)|(args & _ & [Hj|[[e Hj]|[e Hj]]])]];
      [lia | congruence | discriminate Hj ..].
  - intros msg Hl.
    rewrite (main_async_parse_error json_loads w msg Hlen Hl).
    split; [reflexivity|]. split; [reflexivity|].
    split; [repeat constructor|]. split; [repeat constructor|].
    apply parse_error_text.
  - intros e Hl.
    rewrite (main_async_other_error json_loads w e Hlen Hl).
    split; [reflexivity|]. split; [|split; constructor].
    intros j Hin. apply elem_of_nil in Hin as [].
Qed.

Lemma arguments_are_parsed_witness :
  (main_async Sample.json_loads Sample.with_token
   = ('(url, token) ← resolve Sample.with_token;
      invoke Sample.with_token url token "list_keys" (JDict []))
   ∧ ∀ msg received,
       PrintErr (parse_error msg received)
       ∉ trace (main_async Sample.json_loads Sample.with_token))
  ∧ main_async Sample.json_loads Sample.bad_arguments
    = ([PrintErr (parse_error
          "Expecting property name enclosed in double quotes: line 1 column 2 (char 1)"
          "{limit")],
       Raise (SystemExit 1))
  ∧ main_async Sample.json_loads Sample.deep_arguments
    = ([], Raise (Exception Sample.recursion_error))
  ∧ main_async Sample.json_loads Sample.long_arguments
    = ([], Raise (Exception Sample.digits_error)).
Proof.
  split; [|split; [|split]].
  - apply (arguments_are_parsed Sample.json_loads Sample.with_token);
      [simpl; lia | reflexivity].
  - apply (arguments_are_parsed Sample.json_loads Sample.bad_arguments);
      [simpl; lia | reflexivity].
  - apply (arguments_are_parsed Sample.json_loads Sample.deep_arguments);
      [simpl; lia | vm_compute; reflexivity].
  - apply (arguments_are_parsed Sample.json_loads Sample.long_arguments);
      [simpl; lia | vm_compute; reflexivity].
Defined.

(** C3 fails as the claim states it.  The argument text [1100 * "["] is
    not a JSON text, yet the run on it writes no error object to standard
    error: [json.loads] raises [RecursionError], which the handler for
    [JSONDecodeError] does not catch, and the run ends on it. *)
Lemma deep_nesting_is_not_reported :
  Rfc8259.valid Sample.deep = false
  ∧ args_str_of Sample.deep_arguments = Sample.deep
  ∧ main_async Sample.json_loads Sample.deep_arguments
    = ([], Raise (Exception Sample.recursion_error))
  ∧ ¬ (∃ j, PrintErr j ∈ trace (main_async Sample.json_loads Sample.deep_arguments)).
Proof.
  assert (Hrun : main_async Sample.json_loads Sample.deep_arguments
                 = ([], Raise (Exception Sample.recursion_error)))
    by (vm_compute; reflexivity).
  split; [vm_compute; reflexivity|]. split; [reflexivity|]. split; [exact Hrun|].
  rewrite Hrun. intros [j Hin]. apply elem_of_nil in Hin as [].
Qed.

Lemma get_config_argv (w : World) (args : list string) :
  get_config (with_argv args w) = get_config w.
Proof. reflexivity. Qed.

(** Every tool call of a run carries the command and the decoded
    arguments. *)
Lemma main_async_call_tool (json_loads : string → loads_result) (w : World) name arguments :
  CallTool name arguments ∈ trace (main_async json_loads w) →
  name = command_of w ∧ json_loads (args_str_of w) = Decoded arguments.
Proof.
  intros Hin.
  destruct (main_async_trace json_loads w) as (pre & post & Htrace & Hpre & Hpost).
  rewrite Htrace in Hin. apply elem_of_app in Hin as [Hin|Hin].
  { eapply Forall_forall in Hpre; [|exact Hin]. discriminate. }
  destruct Hpost as [->|(u & token & args & tail & -> & Htail & _ & _ & Hl)].
  { apply elem_of_nil in Hin as []. }
  apply elem_of_app in Hin as [Hin|Hin].
  - apply call_tool_events in Hin as (_ & _ & Hc).
    destruct (Hc name arguments eq_refl) as [-> ->]. auto.
  - eapply Forall_forall in Htail; [|exact Hin]. discriminate.
Qed.

(** C6. With no command on the command line the run consists of one
    write to standard error, the usage error, followed by exit status 1:
    configuration is not resolved and the remote service is not contacted.
    With the command alone the argument text is ["{}"]: the run is the one
    with ["{}"] given as second argument, and when [json.loads] decodes
    ["{}"] to the empty object every tool call carries the empty
    object. *)
Theorem command_is_required (json_loads : string → loads_result) (w : World) :
  (length (argv w) < 2 →
     main_async json_loads w = ([PrintErr usage_error], Raise (SystemExit 1))
     ∧ exit_status (main_async json_loads w) = 1%Z
     ∧ none_of is_config (trace (main_async json_loads w))
     ∧ none_of is_remote (trace (main_async json_loads w))
     ∧ keys usage_error = ["error"; "example"])
  ∧ (length (argv w) = 2 →
       args_str_of w = "{}"
       ∧ main_async json_loads w
         = main_async json_loads (with_argv (argv w ++ ["{}"]) w)
       ∧ (json_loads "{}" = Decoded (JDict []) →
          ∀ name arguments,
            CallTool name arguments ∈ trace (main_async json_loads w) →
            name = command_of w ∧ arguments = JDict [])).
Proof.
  split.
  - intros Hlen. rewrite (main_async_usage json_loads w Hlen).
    repeat (split; [by repeat constructor|]). reflexivity.
  - intros Hlen.
    assert (Hargs : args_str_of w = "{}").
    { unfold args_str_of. rewrite bool_decide_eq_false_2 by lia. reflexivity. }
    split; [exact Hargs|]. split.
    + unfold main_async, resolve, invoke, attempt, command_of, args_str_of.
      cbn [argv remote with_argv]. rewrite get_config_argv.
      destruct (argv w) as [|prog [|command [|extra rest]]]; try discriminate Hlen.
      reflexivity.
    + intros Hempty name arguments Hin.
      apply main_async_call_tool in Hin as [-> Hl].
      rewrite Hargs, Hempty in Hl. injection Hl as <-. auto.
Qed.

Lemma command_is_required_witness :
  (main_async Sample.json_loads Sample.no_command
   = ([PrintErr usage_error], Raise (SystemExit 1))
   ∧ exit_status (main_async Sample.json_loads Sample.no_command) = 1%Z
   ∧ none_of is_config (trace (main_async Sample.json_loads Sample.no_command))
   ∧ none_of is_remote (trace (main_async Sample.json_loads Sample.no_command))
   ∧ keys usage_error = ["error"; "example"])
  ∧ (args_str_of Sample.with_token = "{}"
     ∧ main_async Sample.json_loads Sample.with_token
       = main_async Sample.json_loads
           (with_argv (argv Sample.with_token ++ ["{}"]) Sample.with_token)
     ∧ (Sample.json_loads "{}" = Decoded (JDict []) →
        ∀ name arguments,
          CallTool name arguments ∈ trace (main_async Sample.json_loads Sample.with_token) →
          name = command_of Sample.with_token ∧ arguments = JDict [])).
Proof.
  split.
  - apply (command_is_required Sample.json_loads Sample.no_command). simpl; lia.
  - apply (command_is_required Sample.json_loads Sample.with_token). reflexivity.
Defined.

(** ** Decoding what [json.dumps] writes *)

Lemma length_append (a b : string) :
  String.length (a +:+ b) = String.length a + String.length b.
Proof.
  induction a as [|x a IH]; [reflexivity|].
  change (S (String.length (a +:+ b)) = S (String.length a + String.length b)).
  rewrite IH. reflexivity.
Qed.

(** Induction on values, with the hypothesis for every element of a
    list, a tuple or a dictionary. *)
Lemma pyobj_nested_ind (P : pyobj → Prop) :
  P PNone → (∀ b, P (PBool b)) → (∀ z, P (PInt z)) → (∀ lit, P (PFloat lit)) →
  (∀ s, P (PStr s)) →
  (∀ l, Forall P l → P (PList l)) →
  (∀ l, Forall P l → P (PTuple l)) →
  (∀ kvs, Forall (λ kv, P (snd kv)) kvs → P (PDict kvs)) →
  (∀ cls str_ attrs items, P (PObject cls str_ attrs items)) →
  ∀ o, P o.
Proof.
  intros Hnone Hbool Hint Hfloat Hstr Hlist Htuple Hdict Hobj.
  fix IH 1.
  intros [| | | | |l|l|kvs|cls str_ attrs items];
    [exact Hnone | apply Hbool | apply Hint | apply Hfloat | apply Hstr | | |
    | apply Hobj].
  - apply Hlist. induction l as [|x l IHl]; constructor; [apply IH|exact IHl].
  - apply Htuple. induction l as [|x l IHl]; constructor; [apply IH|exact IHl].
  - apply Hdict. induction kvs as [|[k v] kvs IHl]; constructor; [apply IH|exact IHl].
Qed.

Section Decoding.
Import Rfc8259.

(** One escaped character decodes to the character. *)
Lemma chars_escape_char (a : ascii) (tl : string) :
  chars (Json.escape_char a +:+ tl)
  = match chars tl with
    | Some (t, r) => Some (String a t, r)
    | None => None
    end.
Proof.
  destruct a as [[] [] [] [] [] [] [] []]; reflexivity.
Qed.

(** A string literal decodes to the string. *)
Lemma chars_escape (s rest : string) :
  chars (Json.escape s +:+ (PyStr.q +:+ rest)) = Some (s, rest).
Proof.
  induction s as [|a s IH]; [reflexivity|].
  change (Json.escape (String a s)) with (Json.escape_char a +:+ Json.escape s).
  rewrite append_assoc, chars_escape_char, IH. reflexivity.
Qed.

Lemma span_every (P : ascii → bool) (tok rest : string) :
  every P tok = true →
  match rest with String a _ => P a = false | EmptyString => True end →
  span P (tok +:+ rest) = (tok, rest).
Proof.
  intros Htok Hrest. induction tok as [|a tok IH].
  - change ("" +:+ rest) with rest.
    destruct rest as [|b rest]; [reflexivity|]. simpl. rewrite Hrest. reflexivity.
  - simpl in Htok. apply andb_true_iff in Htok as [Ha Htok].
    change (String a tok +:+ rest) with (String a (tok +:+ rest)).
    simpl. rewrite Ha, (IH Htok). reflexivity.
Qed.

Lemma every_impl (P Q : ascii → bool) (s : string) :
  (∀ a, P a = true → Q a = true) → every P s = true → every Q s = true.
Proof.
  intros HPQ. induction s as [|a s IH]; [reflexivity|]. simpl.
  intros [Ha Hs]%andb_true_iff. rewrite (HPQ a Ha), (IH Hs). reflexivity.
Qed.

Lemma every_append (P : ascii → bool) (s t : string) :
  every P (s +:+ t) = every P s && every P t.
Proof.
  induction s as [|a s IH]; [reflexivity|].
  change (String a s +:+ t) with (String a (s +:+ t)). simpl.
  rewrite IH, andb_assoc. reflexivity.
Qed.

Lemma decimal_append (acc : N) (s t : string) :
  decimal acc (s +:+ t) = decimal (decimal acc s) t.
Proof.
  revert acc. induction s as [|a s IH]; intros acc; [reflexivity|].
  change (String a s +:+ t) with (String a (s +:+ t)). simpl. apply IH.
Qed.

Lemma digit_number_char (a : ascii) : is_digit a = true → is_number_char a = true.
Proof. unfold is_number_char. intros ->. reflexivity. Qed.

(** A number character starts neither whitespace nor a string, an array
    or an object. *)
Lemma number_char_start (a : ascii) (s : string) (fuel : nat) :
  is_number_char a = true →
  value (S fuel) (String a s)
  = let '(tok, rest) := span is_number_char (String a s) in
    match number tok with
    | Some v => Some (v, rest)
    | None => None
    end.
Proof.
  destruct a as [[] [] [] [] [] [] [] []]; try discriminate; reflexivity.
Qed.

(** A number token decodes to its value when a delimiter follows. *)
Lemma value_number (fuel : nat) (tok rest : string) (v : json) :
  tok ≠ "" → every is_number_char tok = true → delimited rest →
  number tok = Some v →
  value (S fuel) (tok +:+ rest) = Some (v, rest).
Proof.
  intros Hne Hall Hrest Hnum.
  destruct tok as [|a tok]; [done|].
  change (String a tok +:+ rest) with (String a (tok +:+ rest)).
  rewrite number_char_start by (simpl in Hall; by apply andb_true_iff in Hall as [? _]).
  change (String a (tok +:+ rest)) with (String a tok +:+ rest).
  rewrite (span_every is_number_char _ rest Hall Hrest), Hnum. reflexivity.
Qed.

Lemma pretty_digit (x : N) :
  (x < 10)%N →
  is_digit (pretty_N_char x) = true
  ∧ (N_of_ascii (pretty_N_char x) - 48 = x)%N.
Proof.
  intros Hx.
  assert (x = 0 ∨ x = 1 ∨ x = 2 ∨ x = 3 ∨ x = 4 ∨ x = 5 ∨ x = 6 ∨ x = 7
          ∨ x = 8 ∨ x = 9)%N as H by lia.
  repeat (destruct H as [->|H]; [by split|]). subst. by split.
Qed.

(** The digits [pretty] writes for a natural number. *)
Lemma pretty_N_go_digits (x : N) (s : string) :
  ∃ ds, pretty_N_go x s = ds +:+ s
        ∧ every is_digit ds = true
        ∧ decimal 0 ds = x
        ∧ (x = 0%N → ds = "")
        ∧ ((0 < x)%N → ∃ a tl, ds = String a tl ∧ (N_of_ascii a =? 48)%N = false).
Proof.
  revert s. induction (N.lt_wf_0 x) as [x _ IH]. intros s.
  destruct (decide (x = 0%N)) as [->|Hx].
  { exists "". rewrite pretty_N_go_0. repeat split; try done; lia. }
  rewrite pretty_N_go_step by lia.
  destruct (IH (x `div` 10)%N (N.div_lt x 10 ltac:(lia) eq_refl)
              (String (pretty_N_char (x `mod` 10)) s))
    as (ds & Hgo & Hall & Hdec & Hzero & Hpos).
  destruct (pretty_digit (x `mod` 10)%N) as [Hd Hv]; [apply N.mod_lt; lia|].
  exists (ds +:+ String (pretty_N_char (x `mod` 10)) "").
  split; [|split; [|split; [|split]]].
  - rewrite Hgo, append_assoc. reflexivity.
  - rewrite every_append, Hall. simpl. rewrite Hd. reflexivity.
  - rewrite decimal_append, Hdec. simpl. rewrite Hv.
    pose proof (N.div_mod x 10). lia.
  - done.
  - intros _. destruct (decide (x `div` 10 = 0)%N) as [Hq|Hq].
    + rewrite (Hzero Hq). eexists _, _. split; [reflexivity|].
      assert (x `mod` 10 = x)%N as Hm by (apply N.mod_small, N.div_small_iff; lia).
      rewrite Hm.
      assert (x = 1 ∨ x = 2 ∨ x = 3 ∨ x = 4 ∨ x = 5 ∨ x = 6 ∨ x = 7 ∨ x = 8 ∨ x = 9)%N
        as H by (pose proof (N.mod_lt x 10); lia).
      clear -H. repeat (destruct H as [->|H]; [reflexivity|]). subst. reflexivity.
    + destruct Hpos as (a & tl & -> & Ha); [lia|].
      exists a, (tl +:+ String (pretty_N_char (x `mod` 10)) ""). by split.
Qed.

Lemma number_digits (negative : bool) (ds : string) (a : ascii) (tl : string) :
  ds = String a tl → (N_of_ascii a =? 48)%N = false → every is_digit ds = true →
  number ds = Some (JInt (Z.of_N (decimal 0 ds)))
  ∧ number ("-" +:+ ds) = Some (JInt (- Z.of_N (decimal 0 ds))).
Proof.
  intros -> Ha Hall.
  assert (Hspan : span is_digit (String a tl) = (String a tl, "")).
  { rewrite <- (append_empty_r (String a tl)) at 1. by apply span_every. }
  assert (Hint : is_int (String a tl) = true).
  { unfold is_int. destruct tl; [reflexivity|]. rewrite Ha. reflexivity. }
  assert (Hminus : (N_of_ascii a =? 45)%N = false).
  { simpl in Hall. apply andb_true_iff in Hall as [Hd _].
    destruct a as [[] [] [] [] [] [] [] []]; try discriminate; reflexivity. }
  split.
  - unfold number. rewrite Hminus, Hspan, Hint. reflexivity.
  - change ("-" +:+ String a tl) with (String "-"%char (String a tl)).
    unfold number. change (N_of_ascii "-" =? 45)%N with true. cbv iota.
    rewrite Hspan, Hint. reflexivity.
Qed.

(** The decimal numeral of an integer is a number token and decodes to
    the integer. *)
Lemma number_pretty (z : Z) :
  pretty z ≠ "" ∧ every is_number_char (pretty z) = true
  ∧ number (pretty z) = Some (JInt z).
Proof.
  destruct z as [|p|p]; [by repeat split| |].
  - change (pretty (Z.pos p)) with (pretty_N_go (N.pos p) "").
    destruct (pretty_N_go_digits (N.pos p) "") as (ds & -> & Hall & Hdec & _ & Hpos).
    destruct Hpos as (a & tl & -> & Ha); [lia|].
    rewrite append_empty_r in *.
    split; [done|]. split; [by apply (every_impl is_digit), Hall; apply digit_number_char|].
    destruct (number_digits false _ a tl eq_refl Ha Hall) as [-> _].
    rewrite Hdec. reflexivity.
  - change (pretty (Z.neg p)) with ("-" +:+ pretty_N_go (N.pos p) "").
    destruct (pretty_N_go_digits (N.pos p) "") as (ds & -> & Hall & Hdec & _ & Hpos).
    destruct Hpos as (a & tl & -> & Ha); [lia|].
    rewrite append_empty_r in *.
    split; [done|]. split.
    { change ("-" +:+ String a tl) with (String "-"%char (String a tl)).
      change (every is_number_char (String "-" (String a tl)))
        with (every is_number_char (String a tl)).
      by apply (every_impl is_digit), Hall; apply digit_number_char. }
    destruct (number_digits true _ a tl eq_refl Ha Hall) as [_ ->].
    rewrite Hdec. reflexivity.
Qed.

(** The literal of a finite float is a number token and decodes to the
    literal. *)
Lemma number_float (lit : string) :
  float_literal lit = true →
  lit ≠ "" ∧ every is_number_char lit = true ∧ number lit = Some (JFloat lit).
Proof.
  unfold float_literal. intros [Hall Hnum]%andb_true_iff.
  split; [by intros ->|]. split; [exact Hall|].
  revert Hnum. unfold number.
  destruct (match lit with
            | String a body => if (N_of_ascii a =? 45)%N then (true, body) else (false, lit)
            | EmptyString => (false, lit)
            end) as [negative body].
  destruct (span is_digit body) as [int rest].
  destruct (is_int int); [|discriminate].
  destruct rest; [discriminate|].
  destruct (is_frac_exp _); [reflexivity|discriminate].
Qed.

Lemma number_char_opens (a : ascii) :
  is_number_char a = true →
  is_ws a = false ∧ (N_of_ascii a =? 93)%N = false ∧ (N_of_ascii a =? 125)%N = false.
Proof. destruct a as [[] [] [] [] [] [] [] []]; try discriminate; by repeat split. Qed.

(** What [json.dumps] writes starts with a character that is neither
    whitespace nor a closing bracket or brace. *)
Lemma dumps_start (o : pyobj) :
  finite_floats o = true →
  ∃ a tl, Json.dumps_default_str o = String a tl
          ∧ is_ws a = false
          ∧ (N_of_ascii a =? 93)%N = false ∧ (N_of_ascii a =? 125)%N = false.
Proof.
  intros Hf.
  assert (Hnum : ∀ tok, tok ≠ "" → every is_number_char tok = true →
            ∃ a tl, tok = String a tl ∧ is_ws a = false
                    ∧ (N_of_ascii a =? 93)%N = false ∧ (N_of_ascii a =? 125)%N = false).
  { intros [|a tl] Hne Hall; [done|]. exists a, tl. split; [reflexivity|].
    simpl in Hall. apply andb_true_iff in Hall as [Ha _]. by apply number_char_opens. }
  destruct o as [|[]|z|lit| | | | |]; simpl in Hf;
    try (eexists _, _; split; [reflexivity|by repeat split]).
  - destruct (number_pretty z) as (Hne & Hall & _). by apply Hnum.
  - destruct (number_float lit Hf) as (Hne & Hall & _). by apply Hnum.
Qed.

Lemma value_space (fuel : nat) (s : string) : value fuel (String " " s) = value fuel s.
Proof. destruct fuel; reflexivity. Qed.

Lemma elements_step (p : string → option (json * string)) (n : nat) (s s1 : string) (v : json) :
  p s = Some (v, s1) →
  elements p (S n) s
  = match skip_ws s1 with
    | String a s2 =>
        if (N_of_ascii a =? 44)%N then
          match elements p n s2 with
          | Some (vs, r) => Some (v :: vs, r)
          | None => None
          end
        else if (N_of_ascii a =? 93)%N then Some ([v], s2)
        else None
    | EmptyString => None
    end.
Proof. intros H. simpl. rewrite H. reflexivity. Qed.

Lemma elements_space (fuel n : nat) (s : string) :
  elements (value fuel) n (String " " s) = elements (value fuel) n s.
Proof. destruct n; [reflexivity|]. simpl. rewrite value_space. reflexivity. Qed.

(** The elements of an array, as [json.dumps] separates them. *)
Lemma elements_join (fuel : nat) (l : list pyobj) (rest : string) :
  Forall (λ x, ∀ rest, delimited rest →
            value fuel (Json.dumps_default_str x +:+ rest) = Some (coerced x, rest)) l →
  ∀ n, l ≠ [] → length l ≤ n →
  elements (value fuel) n
    (PyStr.join ", " (map Json.dumps_default_str l) +:+ ("]" +:+ rest))
  = Some (map coerced l, rest).
Proof.
  induction 1 as [|x l Hx Hl IH]; intros n Hne Hlen; [done|].
  destruct n as [|n]; [simpl in Hlen; lia|].
  destruct l as [|y l].
  - change (PyStr.join ", " (map Json.dumps_default_str [x])) with (Json.dumps_default_str x).
    rewrite (elements_step _ n _ _ _ (Hx ("]" +:+ rest) eq_refl)). reflexivity.
  - change (PyStr.join ", " (map Json.dumps_default_str (x :: y :: l)))
      with (Json.dumps_default_str x
            +:+ ", " +:+ PyStr.join ", " (map Json.dumps_default_str (y :: l))).
    rewrite !append_assoc.
    rewrite (elements_step _ n _ _ _
               (Hx (", " +:+ (PyStr.join ", " (map Json.dumps_default_str (y :: l))
                               +:+ ("]" +:+ rest))) eq_refl)).
    change (skip_ws (", " +:+ ?s)) with (String ","%char (String " "%char s)).
    cbv beta iota. change (N_of_ascii "," =? 44)%N with true. cbv iota.
    rewrite elements_space, IH by (done || simpl in *; lia). reflexivity.
Qed.

Lemma members_step (p : string → option (json * string)) (n : nat)
    (k s s1 : string) (v : json) :
  p (String " " s) = Some (v, s1) →
  members p (S n) (Json.quote k +:+ (": " +:+ s))
  = match skip_ws s1 with
    | String b s2 =>
        if (N_of_ascii b =? 44)%N then
          match members p n s2 with
          | Some (kvs, r) => Some ((k, v) :: kvs, r)
          | None => None
          end
        else if (N_of_ascii b =? 125)%N then Some ([(k, v)], s2)
        else None
    | EmptyString => None
    end.
Proof.
  intros H. unfold Json.quote. rewrite !append_assoc.
  change (PyStr.q +:+ ?s) with (String PyStr.dquote s).
  cbn [members]. change (skip_ws (String PyStr.dquote ?s)) with (String PyStr.dquote s).
  cbv beta iota. change (N_of_ascii PyStr.dquote =? 34)%N with true. cbv iota.
  change (String PyStr.dquote ?s) with (PyStr.q +:+ s).
  rewrite chars_escape.
  change (skip_ws (": " +:+ s)) with (String ":"%char (String " "%char s)).
  cbv beta iota. change (N_of_ascii ":" =? 58)%N with true. cbv iota.
  rewrite H. reflexivity.
Qed.

Lemma members_space (p : string → option (json * string)) (n : nat) (s : string) :
  members p n (String " " s) = members p n s.
Proof. destruct n; reflexivity. Qed.

(** The members of an object, as [json.dumps] separates them. *)
Lemma members_join (fuel : nat) (kvs : list (string * pyobj)) (rest : string) :
  Forall (λ kv, ∀ rest, delimited rest →
            value fuel (Json.dumps_default_str (snd kv) +:+ rest)
            = Some (coerced (snd kv), rest)) kvs →
  ∀ n, kvs ≠ [] → length kvs ≤ n →
  members (value fuel) n (PyStr.join ", " (map entry kvs) +:+ ("}" +:+ rest))
  = Some (map (λ kv, match kv with (k, v) => (k, coerced v) end) kvs, rest).
Proof.
  induction 1 as [|[k v] kvs Hx Hl IH]; intros n Hne Hlen; [done|].
  destruct n as [|n]; [simpl in Hlen; lia|]. simpl in Hx.
  destruct kvs as [|kv kvs].
  - change (PyStr.join ", " (map entry [(k, v)]))
      with (Json.quote k +:+ ": " +:+ Json.dumps_default_str v).
    rewrite !append_assoc.
    rewrite (members_step (value fuel) n k _ ("}" +:+ rest) (coerced v));
      [reflexivity|].
    rewrite value_space. by apply Hx.
  - change (PyStr.join ", " (map entry ((k, v) :: kv :: kvs)))
      with ((Json.quote k +:+ ": " +:+ Json.dumps_default_str v)
            +:+ ", " +:+ PyStr.join ", " (map entry (kv :: kvs))).
    rewrite !append_assoc.
    rewrite (members_step (value fuel) n k _
               (", " +:+ (PyStr.join ", " (map entry (kv :: kvs)) +:+ ("}" +:+ rest)))
               (coerced v)).
    2:{ rewrite value_space. by apply Hx. }
    change (skip_ws (", " +:+ ?s)) with (String ","%char (String " "%char s)).
    cbv beta iota. change (N_of_ascii "," =? 44)%N with true. cbv iota.
    rewrite members_space, IH by (done || simpl in *; lia). reflexivity.
Qed.

Lemma join_length_elem (sep x : string) (l : list string) :
  x ∈ l → String.length x ≤ String.length (PyStr.join sep l).
Proof.
  induction l as [|y l IH]; [by intros ?%elem_of_nil|].
  intros [->|Hin]%elem_of_cons.
  - destruct l; [done|].
    change (PyStr.join sep (y :: s :: l)) with (y +:+ sep +:+ PyStr.join sep (s :: l)).
    rewrite length_append. lia.
  - destruct l as [|z l]; [by apply elem_of_nil in Hin|].
    change (PyStr.join sep (y :: z :: l)) with (y +:+ sep +:+ PyStr.join sep (z :: l)).
    rewrite !length_append. specialize (IH Hin). lia.
Qed.

Lemma join_length_count (l : list string) :
  length l ≤ S (String.length (PyStr.join ", " l)).
Proof.
  induction l as [|y l IH]; [simpl; lia|].
  destruct l as [|z l]; [simpl; lia|].
  change (PyStr.join ", " (y :: z :: l)) with (y +:+ ", " +:+ PyStr.join ", " (z :: l)).
  rewrite !length_append. simpl in *. lia.
Qed.

Lemma value_array (fuel : nat) (a : ascii) (s : string) :
  is_ws a = false → (N_of_ascii a =? 93)%N = false →
  value (S fuel) (String "[" (String a s))
  = match elements (value fuel) fuel (String a s) with
    | Some (l, r) => Some (JList l, r)
    | None => None
    end.
Proof.
  intros Hws Hc. cbn [value].
  change (skip_ws (String "[" ?x)) with (String "["%char x).
  cbv beta iota zeta. change (N_of_ascii "[" =? 91)%N with true. cbv iota.
  cbn [skip_ws]. rewrite Hws, Hc. reflexivity.
Qed.

Lemma value_object (fuel : nat) (s : string) :
  value (S fuel) (String "{" (String PyStr.dquote s))
  = match members (value fuel) fuel (String PyStr.dquote s) with
    | Some (kvs, r) => Some (JDict kvs, r)
    | None => None
    end.
Proof. reflexivity. Qed.

Lemma join_start (sep : string) (x : string) (l : list string) (a : ascii) (tl : string) :
  x = String a tl → ∃ tl', PyStr.join sep (x :: l) = String a tl'.
Proof.
  intros ->. destruct l as [|y l]; [by eexists|].
  eexists. change (PyStr.join sep (String a tl :: y :: l))
    with (String a (tl +:+ sep +:+ PyStr.join sep (y :: l))). reflexivity.
Qed.

(** A list or a tuple decodes to the array of its elements. *)
Lemma value_sequence (l : list pyobj) :
  Forall (λ x, finite_floats x = true →
            ∀ fuel rest, String.length (Json.dumps_default_str x) ≤ fuel → delimited rest →
              value fuel (Json.dumps_default_str x +:+ rest) = Some (coerced x, rest)) l →
  forallb finite_floats l = true →
  ∀ fuel rest,
    String.length ("[" +:+ PyStr.join ", " (map Json.dumps_default_str l) +:+ "]") ≤ fuel →
    value fuel (("[" +:+ PyStr.join ", " (map Json.dumps_default_str l) +:+ "]") +:+ rest)
    = Some (JList (map coerced l), rest).
Proof.
  intros IH Hf fuel rest Hfuel.
  rewrite !length_append in Hfuel. change (String.length "[") with 1 in Hfuel.
  change (String.length "]") with 1 in Hfuel.
  destruct fuel as [|fuel]; [lia|].
  rewrite !append_assoc. change ("[" +:+ ?x) with (String "["%char x).
  destruct l as [|x l]; [reflexivity|].
  assert (Hx : finite_floats x = true) by (simpl in Hf; by apply andb_true_iff in Hf as [? _]).
  destruct (dumps_start x Hx) as (a & tl & Hd & Hws & Hc & _).
  destruct (join_start ", " _ (map Json.dumps_default_str l) a tl Hd) as [tl' Hj].
  change (map Json.dumps_default_str (x :: l))
    with (Json.dumps_default_str x :: map Json.dumps_default_str l).
  rewrite Hj. change (String a tl' +:+ ?y) with (String a (tl' +:+ y)).
  rewrite value_array by assumption.
  change (String a (tl' +:+ ?y)) with (String a tl' +:+ y). rewrite <- Hj.
  change (Json.dumps_default_str x :: map Json.dumps_default_str l)
    with (map Json.dumps_default_str (x :: l)) in *.
  rewrite (elements_join fuel (x :: l) rest); [reflexivity| |done|].
  - apply Forall_forall. intros y Hy rest' Hrest'.
    rewrite Forall_forall in IH. apply IH; [exact Hy| |  |exact Hrest'].
    + rewrite forallb_forall in Hf. by apply Hf, list_elem_of_In.
    + pose proof (join_length_elem ", " (Json.dumps_default_str y)
                    (map Json.dumps_default_str (x :: l))
                    ltac:(by apply list_elem_of_fmap_2)) as Hlen.
      lia.
  - pose proof (join_length_count (map Json.dumps_default_str (x :: l))) as Hlen.
    rewrite length_map in Hlen. lia.
Qed.

Lemma entry_length (k : string) (v : pyobj) :
  String.length (Json.dumps_default_str v) ≤ String.length (entry (k, v)).
Proof. unfold entry. rewrite !length_append. lia. Qed.

(** A dictionary decodes to the object of its entries. *)
Lemma value_mapping (kvs : list (string * pyobj)) :
  Forall (λ kv, finite_floats (snd kv) = true →
            ∀ fuel rest, String.length (Json.dumps_default_str (snd kv)) ≤ fuel →
              delimited rest →
              value fuel (Json.dumps_default_str (snd kv) +:+ rest)
              = Some (coerced (snd kv), rest)) kvs →
  forallb (λ kv, finite_floats (snd kv)) kvs = true →
  ∀ fuel rest,
    String.length ("{" +:+ PyStr.join ", " (map entry kvs) +:+ "}") ≤ fuel →
    value fuel (("{" +:+ PyStr.join ", " (map entry kvs) +:+ "}") +:+ rest)
    = Some (JDict (map (λ kv, match kv with (k, v) => (k, coerced v) end) kvs), rest).
Proof.
  intros IH Hf fuel rest Hfuel.
  rewrite !length_append in Hfuel. change (String.length "{") with 1 in Hfuel.
  change (String.length "}") with 1 in Hfuel.
  destruct fuel as [|fuel]; [lia|].
  rewrite !append_assoc. change ("{" +:+ ?x) with (String "{"%char x).
  destruct kvs as [|[k v] kvs]; [reflexivity|].
  destruct (join_start ", " (entry (k, v)) (map entry kvs) PyStr.dquote
              ((Json.escape k +:+ PyStr.q) +:+ ": " +:+ Json.dumps_default_str v) eq_refl)
    as [tl' Hj].
  change (map entry ((k, v) :: kvs)) with (entry (k, v) :: map entry kvs).
  rewrite Hj. change (String PyStr.dquote tl' +:+ ?y) with (String PyStr.dquote (tl' +:+ y)).
  rewrite value_object.
  change (String PyStr.dquote (tl' +:+ ?y)) with (String PyStr.dquote tl' +:+ y).
  rewrite <- Hj.
  change (entry (k, v) :: map entry kvs) with (map entry ((k, v) :: kvs)) in *.
  rewrite (members_join fuel ((k, v) :: kvs) rest); [reflexivity| |done|].
  - apply Forall_forall. intros [k' v'] Hy rest' Hrest'.
    rewrite Forall_forall in IH. apply (IH (k', v')); [exact Hy| | |exact Hrest'].
    + rewrite forallb_forall in Hf. by apply (Hf (k', v')), list_elem_of_In.
    + pose proof (join_length_elem ", " (entry (k', v')) (map entry ((k, v) :: kvs))
                    ltac:(by apply list_elem_of_fmap_2)) as Hlen.
      pose proof (entry_length k' v'). simpl snd. lia.
  - pose proof (join_length_count (map entry ((k, v) :: kvs))) as Hlen.
    rewrite length_map in Hlen. lia.
Qed.

Lemma value_quote (s rest : string) (fuel : nat) :
  value (S fuel) (Json.quote s +:+ rest) = Some (JStr s, rest).
Proof.
  unfold Json.quote. rewrite !append_assoc.
  change (PyStr.q +:+ ?x) with (String PyStr.dquote x) at 1.
  cbn [value]. change (skip_ws (String PyStr.dquote ?x)) with (String PyStr.dquote x).
  cbv beta iota zeta. change (N_of_ascii PyStr.dquote =? 91)%N with false.
  change (N_of_ascii PyStr.dquote =? 123)%N with false.
  change (N_of_ascii PyStr.dquote =? 34)%N with true. cbv iota.
  rewrite chars_escape. reflexivity.
Qed.

(** Decoding what [json.dumps] writes gives the coerced value back,
    whatever follows it. *)
Lemma value_dumps (o : pyobj) :
  finite_floats o = true →
  ∀ fuel rest, String.length (Json.dumps_default_str o) ≤ fuel → delimited rest →
  value fuel (Json.dumps_default_str o +:+ rest) = Some (coerced o, rest).
Proof.
  induction o as [|b|z|lit|s|l IH|l IH|kvs IH|cls str_ attrs items] using pyobj_nested_ind;
    intros Hf fuel rest Hfuel Hrest.
  - destruct fuel as [|fuel]; [simpl in Hfuel; lia|]. reflexivity.
  - destruct fuel as [|fuel]; [destruct b; simpl in Hfuel; lia|]. destruct b; reflexivity.
  - destruct (number_pretty z) as (Hne & Hall & Hnum).
    destruct fuel as [|fuel].
    { simpl in Hfuel. destruct (pretty z); [done|simpl in Hfuel; lia]. }
    by apply value_number.
  - destruct (number_float lit Hf) as (Hne & Hall & Hnum).
    destruct fuel as [|fuel].
    { simpl in Hfuel. destruct lit; [done|simpl in Hfuel; lia]. }
    by apply value_number.
  - destruct fuel as [|fuel]; [simpl in Hfuel; lia|]. apply value_quote.
  - by apply value_sequence.
  - by apply value_sequence.
  - by apply value_mapping.
  - destruct fuel as [|fuel]; [simpl in Hfuel; lia|]. apply value_quote.
Qed.

(** Decoding the text [json.dumps(o, default=str)] writes gives back
    [o] with its objects coerced to strings. *)
Lemma parse_dumps (o : pyobj) :
  finite_floats o = true →
  parse (Json.dumps_default_str o) = Some (coerced o).
Proof.
  intros Hf. unfold parse.
  pose proof (value_dumps o Hf (String.length (Json.dumps_default_str o)) ""
                ltac:(lia) I) as Hv.
  rewrite append_empty_r in Hv. rewrite Hv. reflexivity.
Qed.

End Decoding.

Lemma json_nested_ind (P : json → Prop) :
  P JNull → (∀ b, P (JBool b)) → (∀ z, P (JInt z)) → (∀ lit, P (JFloat lit)) →
  (∀ s, P (JStr s)) →
  (∀ l, Forall P l → P (JList l)) →
  (∀ kvs, Forall (λ kv, P (snd kv)) kvs → P (JDict kvs)) →
  ∀ j, P j.
Proof.
  intros Hnull Hbool Hint Hfloat Hstr Hlist Hdict.
  fix IH 1.
  intros [| | | | |l|kvs];
    [exact Hnull | apply Hbool | apply Hint | apply Hfloat | apply Hstr | |].
  - apply Hlist. induction l as [|x l IHl]; constructor; [apply IH|exact IHl].
  - apply Hdict. induction kvs as [|[k v] kvs IHl]; constructor; [apply IH|exact IHl].
Qed.

(** A value that came out of [json.loads] has nothing to coerce. *)
Lemma coerced_to_py (j : json) : coerced (to_py j) = j.
Proof.
  induction j as [|b|z|lit|s|l IH|kvs IH] using json_nested_ind; try reflexivity.
  - simpl. f_equal. induction IH as [|x l Hx _ IHl]; [reflexivity|].
    simpl. rewrite Hx, IHl. reflexivity.
  - simpl. f_equal. induction IH as [|[k v] kvs Hx _ IHl]; [reflexivity|].
    simpl in *. rewrite Hx, IHl. reflexivity.
Qed.

(** C7. When the result has a [content] attribute that iterates as a
    sequence of items and [item] is the first of them with a [text]
    attribute, [format_result] returns the value of that attribute
    unchanged.  Otherwise it returns [json.dumps(result, default=str)],
    the JSON serialization of the whole result with the values the
    encoder does not know coerced to their string form.  When none of the
    items of the [content] has a [text] attribute, the result is an
    object, which the encoder does not know: the text returned is the
    JSON string of its [str()], and decoding it by the grammar of RFC
    8259 gives that string back.  When the result has no [content]
    attribute and is within the limits of the encoder, the text returned
    is its serialization, and when its floats are finite decoding the
    text gives the result back, each value the encoder does not know
    replaced by the string [str()] gives for it.  A result of the mcp
    library is an object: it is within the limits of the encoder whatever
    it holds and has no float of its own. *)
Theorem format_result_spec (res : pyobj) :
  (∀ content before item after text,
     Py.getattr res "content" = Some content →
     Py.iter content = inr (before ++ item :: after) →
     Forall (λ i, Py.getattr i "text" = None) before →
     Py.getattr item "text" = Some text →
     format_result res = mret text)
  ∧ (∀ content items,
       Py.getattr res "content" = Some content →
       Py.iter content = inr items →
       Forall (λ i, Py.getattr i "text" = None) items →
       ∃ cls str_ attrs its,
         res = PObject cls str_ attrs its
         ∧ format_result res = mret (PStr (Json.quote str_))
         ∧ Rfc8259.parse (Json.quote str_) = Some (JStr str_))
  ∧ (Py.getattr res "content" = None →
     Json.within_limits res = true →
     format_result res = mret (PStr (Json.dumps_default_str res))
     ∧ (finite_floats res = true →
        Rfc8259.parse (Json.dumps_default_str res) = Some (coerced res)))
  ∧ (∀ cls str_ attrs its,
       res = PObject cls str_ attrs its →
       Json.within_limits res = true ∧ finite_floats res = true
       ∧ Json.dumps_default_str res = Json.quote str_
       ∧ coerced res = JStr str_).
Proof.
  unfold format_result, Py.hasattr. split; [|split; [|split]].
  - intros content before item after text Hc Hi Hb Ht.
    rewrite Hc, Hi, (first_text_first before item after text Hb Ht). reflexivity.
  - intros content items Hc Hi Hn.
    destruct res as [| | | | | | | |cls str_ attrs its]; try discriminate Hc.
    exists cls, str_, attrs, its. split; [reflexivity|]. split.
    + rewrite Hc, Hi, (first_text_none items Hn). reflexivity.
    + apply (parse_dumps (PObject cls str_ attrs its)). reflexivity.
  - intros Hc _. rewrite Hc. split; [reflexivity|]. apply parse_dumps.
  - intros cls str_ attrs its ->. by repeat split.
Qed.

Lemma format_result_spec_witness :
  format_result Sample.keys_reply = mret (PStr "{}")
  ∧ (∃ cls str_ attrs its,
       Sample.tool_result [Sample.image_content] = PObject cls str_ attrs its
       ∧ format_result (Sample.tool_result [Sample.image_content])
         = mret (PStr (Json.quote str_))
       ∧ Rfc8259.parse (Json.quote str_) = Some (JStr str_))
  ∧ (format_result (PDict [("content", PList [Sample.text_content "{}"])])
     = mret (PStr ("{" +:+ PyStr.q +:+ "content" +:+ PyStr.q +:+ ": ["
                     +:+ PyStr.q +:+ "type='text' text='{}'" +:+ PyStr.q +:+ "]}"))
     ∧ Rfc8259.parse ("{" +:+ PyStr.q +:+ "content" +:+ PyStr.q +:+ ": ["
                        +:+ PyStr.q +:+ "type='text' text='{}'" +:+ PyStr.q +:+ "]}")
       = Some (JDict [("content", JList [JStr "type='text' text='{}'"])])).
Proof.
  split; [|split].
  - apply (format_result_spec Sample.keys_reply)
      with (content := PList [Sample.image_content; Sample.text_content "{}"])
           (before := [Sample.image_content]) (item := Sample.text_content "{}")
           (after := []);
      [reflexivity | reflexivity | repeat constructor | reflexivity].
  - apply (format_result_spec (Sample.tool_result [Sample.image_content]))
      with (content := PList [Sample.image_content]) (items := [Sample.image_content]);
      [reflexivity | reflexivity | repeat constructor].
  - destruct (format_result_spec (PDict [("content", PList [Sample.text_content "{}"])]))
      as (_ & _ & H & _).
    destruct (H eq_refl eq_refl) as [Hreturn Hparse].
    split; [exact Hreturn|exact (Hparse eq_refl)].
Defined.

(** A failure of one of the four operations of the conversation makes
    [call_tool] raise: that failure, unless closing the session or the
    transport raises in turn. *)
Lemma call_tool_failure (r : Remote) (url token name : string) (arguments : json) (e : exn) :
  first_failure r url token name arguments = Some e →
  ∃ e', result (call_tool r url token name arguments) = Raise (Exception e')
        ∧ (session_aexit r = None → transport_aexit r = None → e' = e).
Proof.
  unfold first_failure, bearer, call_tool, create_session, async_with,
    streamablehttp_client, ClientSession, initialize, session_call, check.
  cbn [aenter aexit].
  destruct (transport_aenter r url _) as [?e|]; cbn;
    [intros [= ->]; eauto|].
  destruct (session_aenter r) as [?e|]; cbn.
  { intros [= ->]. destruct (transport_aexit r); cbn; eexists; split; eauto; congruence. }
  destruct (session_initialize r) as [?e|]; cbn.
  { intros [= ->].
    destruct (session_aexit r); destruct (transport_aexit r); cbn;
      eexists; split; eauto; congruence. }
  destruct (session_call_tool r name arguments) as [?e|res]; cbn; [|discriminate].
  intros [= ->].
  destruct (session_aexit r); destruct (transport_aexit r); cbn;
    eexists; split; eauto; congruence.
Qed.

Lemma count_main_async (json_loads : string → loads_result) (w : World) (P : event → bool) :
  (∀ e, P e = true → is_remote e = true) →
  count P (trace (main_async json_loads w)) = 0
  ∨ ∃ url token arguments,
      count P (trace (main_async json_loads w))
      = count P (trace (call_tool (remote w) url token (command_of w) arguments)).
Proof.
  intros HP.
  destruct (main_async_trace json_loads w) as (pre & post & -> & Hpre & Hpost).
  rewrite count_app, (count_none P is_remote pre HP Hpre).
  destruct Hpost as [->|(url & token & arguments & tail & -> & Htail & _)].
  - left. reflexivity.
  - right. exists url, token, arguments.
    rewrite count_app, (count_none P is_remote tail HP Htail). lia.
Qed.

(** C8. In a run that has decoded its arguments: an [Exception] raised
    by [get_config] is reported on standard error as an object with the
    single key [error], and [get_config]'s own exit, after its
    missing-token report, is passed on; an [Exception] raised while
    connecting, entering the session, shaking hands, calling the tool,
    closing, or formatting is reported as an object with the keys [error],
    [command] and [arguments]; in all these cases the exit status is 1.
    A failure of one of the remote operations does make the attempt
    raise.  When nothing raises, the formatted result is printed on
    standard output after the complete conversation and the run returns,
    exit status 0.  No run connects or calls the tool more than once. *)
Theorem failures_are_reported
    (json_loads : string → loads_result) (w : World) (arguments : json) :
  2 ≤ length (argv w) →
  json_loads (args_str_of w) = Decoded arguments →
  let command := command_of w in
  (∀ e, result (get_config w) = Raise (Exception e) →
     main_async json_loads w
     = (trace (get_config w) ++ [PrintErr (configuration_error e)], Raise (SystemExit 1))
     ∧ keys (configuration_error e) = ["error"])
  ∧ (∀ code, result (get_config w) = Raise (SystemExit code) →
       main_async json_loads w = (trace (get_config w), Raise (SystemExit 1))
       ∧ (∃ tr, trace (get_config w) = tr ++ [PrintErr (no_token_error w)])
       ∧ keys (no_token_error w) = ["error"])
  ∧ (∀ url token, result (get_config w) = Return (url, token) →
       (∀ e, result (attempt w url token command arguments) = Raise (Exception e) →
          main_async json_loads w
          = (trace (get_config w) ++ trace (attempt w url token command arguments)
               ++ [PrintErr (remote_error e command arguments)],
             Raise (SystemExit 1))
          ∧ keys (remote_error e command arguments) = ["error"; "command"; "arguments"])
       ∧ (∀ e, first_failure (remote w) url token command arguments = Some e →
            ∃ e', result (attempt w url token command arguments) = Raise (Exception e')
                  ∧ (session_aexit (remote w) = None →
                     transport_aexit (remote w) = None → e' = e))
       ∧ (result (attempt w url token command arguments) = Return () →
            ∃ res out,
              session_call_tool (remote w) command arguments = inr res
              ∧ format_result res = mret out
              ∧ main_async json_loads w
                = (trace (get_config w) ++ conversation url token command arguments
                     ++ [PrintOut out],
                   Return ())
              ∧ exit_status (main_async json_loads w) = 0%Z))
  ∧ count is_connect (trace (main_async json_loads w)) ≤ 1
  ∧ count is_call_tool (trace (main_async json_loads w)) ≤ 1
  ∧ (exit_status (main_async json_loads w) = 0%Z
     ∨ exit_status (main_async json_loads w) = 1%Z).
Proof.
  intros Hlen Hl command.
  pose proof (main_async_decoded json_loads w arguments Hlen Hl) as Hrun.
  rewrite resolve_unfold in Hrun. fold command in Hrun.
  split; [|split; [|split; [|split; [|split]]]].
  - intros e Hcfg. split; [|reflexivity]. rewrite Hrun.
    destruct (get_config w) as [t o]. simpl in Hcfg. subst o. reflexivity.
  - intros code Hcfg.
    destruct (get_config_exit w code Hcfg) as (-> & tr & Htr & _).
    split; [|split; [eauto|reflexivity]]. rewrite Hrun.
    destruct (get_config w) as [t o]. simpl in Hcfg. subst o. reflexivity.
  - intros url token Hcfg.
    assert (Hinv : main_async json_loads w
                   = let '(t', o) := invoke w url token command arguments in
                     (trace (get_config w) ++ t', o)).
    { rewrite Hrun. destruct (get_config w) as [t o]. simpl in Hcfg. subst o.
      reflexivity. }
    rewrite invoke_unfold in Hinv.
    split; [|split].
    + intros e Hatt. split; [|reflexivity]. rewrite Hinv.
      destruct (attempt w url token command arguments) as [t o].
      simpl in Hatt. subst o. reflexivity.
    + intros e Hfail.
      destruct (call_tool_failure _ _ _ _ _ _ Hfail) as (e' & Hct & He').
      exists e'. split; [|exact He'].
      rewrite attempt_unfold. unfold command in Hct.
      destruct (call_tool _ _ _ _ _) as [t o]. simpl in Hct. subst o. reflexivity.
    + intros Hatt.
      assert (Hatt' := Hatt). rewrite attempt_unfold in Hatt'.
      destruct (call_tool (remote w) url token command arguments) as [t [res|r]] eqn:Hct;
        [|discriminate Hatt'].
      pose proof (call_tool_return (remote w) url token command arguments res) as Hret.
      pose proof (call_tool_return_trace (remote w) url token command arguments res) as Htr.
      rewrite Hct in Hret, Htr. simpl in Hret, Htr.
      destruct (proj1 Hret eq_refl) as (_ & _ & _ & Hcall & _).
      rewrite (Htr eq_refl) in *.
      destruct (format_result_pure res) as [[out Hout]|[e Hout]];
        rewrite Hout in Hatt'; [|discriminate Hatt'].
      exists res, out. split; [exact Hcall|]. split; [exact Hout|].
      assert (Hfinal : main_async json_loads w
                = (trace (get_config w) ++ conversation url token command arguments
                     ++ [PrintOut out], Return ())).
      { rewrite Hinv, attempt_unfold, Hct, Hout. reflexivity. }
      split; [exact Hfinal|]. rewrite Hfinal. reflexivity.
  - destruct (count_main_async json_loads w is_connect) as [->|(u & t & a & ->)];
      [by intros [] | lia |].
    destruct (call_tool_counts (remote w) u t (command_of w) a) as (_ & _ & _ & _ & -> & _).
    lia.
  - destruct (count_main_async json_loads w is_call_tool) as [->|(u & t & a & ->)];
      [by intros [] | lia |].
    destruct (call_tool_counts (remote w) u t (command_of w) a) as (_ & _ & _ & _ & _ & H).
    exact H.
  - rewrite Hrun. unfold exit_status.
    pose proof (get_config_exit w) as Hexit.
    destruct (get_config w) as [t [[url token]|[c|e]]]; simpl in *.
    + unfold mbind, M_bind. rewrite invoke_unfold.
      pose proof (attempt_result w url token command arguments) as Hres.
      destruct (attempt _ _ _ _ _) as [t' [[]|[c|e]]]; simpl in *; auto.
      destruct Hres as [[=]|[e [=]]].
    + destruct (Hexit c eq_refl) as [-> _]. auto.
    + auto.
Qed.

Lemma failures_are_reported_witness :
  main_async Sample.json_loads Sample.skill_key_only
  = (trace (get_config Sample.skill_key_only) ++ [PrintErr (configuration_error name_error)],
     Raise (SystemExit 1))
  ∧ main_async Sample.json_loads Sample.no_token
    = (trace (get_config Sample.no_token), Raise (SystemExit 1))
  ∧ main_async Sample.json_loads Sample.tool_fails
    = (trace (get_config Sample.tool_fails)
         ++ trace (attempt Sample.tool_fails DEFAULT_URL "other" "list_keys" (JDict []))
         ++ [PrintErr (remote_error (Exn "McpError" "Unknown tool: list_keys")
                         "list_keys" (JDict []))],
       Raise (SystemExit 1))
  ∧ main_async Sample.json_loads Sample.with_token
    = (env_reads ++ conversation DEFAULT_URL "other" "list_keys" (JDict [])
         ++ [PrintOut (PStr "{}")],
       Return ()).
Proof.
  split; [|split; [|split]].
  - apply (failures_are_reported Sample.json_loads Sample.skill_key_only (JDict []));
      [simpl; lia | reflexivity | reflexivity].
  - apply (failures_are_reported Sample.json_loads Sample.no_token (JDict [])) with (code := 1%Z);
      [simpl; lia | reflexivity | reflexivity].
  - apply (failures_are_reported Sample.json_loads Sample.tool_fails (JDict []));
      [simpl; lia | reflexivity | reflexivity | reflexivity].
  - destruct (failures_are_reported Sample.json_loads Sample.with_token (JDict []))
      as (_ & _ & H & _); [simpl; lia | reflexivity |].
    destruct (H DEFAULT_URL "other") as (_ & _ & Hok); [reflexivity|].
    destruct Hok as (res & out & Hres & Hout & Hrun & _); [reflexivity|].
    injection Hres as <-. injection Hout as <-. exact Hrun.
Defined.

(** C9. In every run the transport is closed as many times as it is
    opened and the session is closed as many times as it is opened, at
    most once each; when the session is opened, each of the four counts
    is 1.  Once the transport and the session are entered, [call_tool]
    closes each of them exactly once whether the handshake, the tool call
    or a closing operation returns or raises. *)
Theorem session_is_closed_once (json_loads : string → loads_result) (w : World) :
  let tr := trace (main_async json_loads w) in
  count is_transport_close tr = count is_transport_open tr
  ∧ count is_session_close tr = count is_session_open tr
  ∧ count is_session_open tr ≤ count is_transport_open tr
  ∧ count is_transport_open tr ≤ 1
  ∧ (0 < count is_session_open tr →
     count is_session_open tr = 1 ∧ count is_session_close tr = 1
     ∧ count is_transport_open tr = 1 ∧ count is_transport_close tr = 1)
  ∧ (∀ url token name arguments,
       transport_aenter (remote w) url (bearer token) = None →
       session_aenter (remote w) = None →
       let c := trace (call_tool (remote w) url token name arguments) in
       count is_session_open c = 1 ∧ count is_session_close c = 1
       ∧ count is_transport_open c = 1 ∧ count is_transport_close c = 1).
Proof.
  intros tr.
  assert (Hcounts : count is_transport_close tr = count is_transport_open tr
                    ∧ count is_session_close tr = count is_session_open tr
                    ∧ count is_session_open tr ≤ count is_transport_open tr
                    ∧ count is_transport_open tr ≤ 1).
  { unfold tr in *.
    destruct (main_async_trace json_loads w) as (pre & post & -> & Hpre & Hpost).
    assert (Hzero : ∀ P, (∀ e, P e = true → is_remote e = true) → count P pre = 0)
      by (intros P HP; exact (count_none P is_remote pre HP Hpre)).
    rewrite !count_app.
    rewrite (Hzero is_transport_close), (Hzero is_transport_open),
      (Hzero is_session_close), (Hzero is_session_open) by (by intros []).
    destruct Hpost as [->|(url & token & arguments & tail & -> & Htail & _)];
      [simpl; lia|].
    assert (Hzero' : ∀ P, (∀ e, P e = true → is_remote e = true) → count P tail = 0)
      by (intros P HP; exact (count_none P is_remote tail HP Htail)).
    rewrite !count_app.
    rewrite (Hzero' is_transport_close), (Hzero' is_transport_open),
      (Hzero' is_session_close), (Hzero' is_session_open) by (by intros []).
    destruct (call_tool_counts (remote w) url token (command_of w) arguments)
      as (H1 & H2 & H3 & H4 & _).
    lia. }
  destruct Hcounts as (H1 & H2 & H3 & H4).
  repeat (split; [assumption|]).
  split; [lia|].
  intros url token name arguments. apply call_tool_opened.
Qed.

Lemma session_is_closed_once_witness :
  (let tr := trace (main_async Sample.json_loads Sample.tool_fails) in
   count is_session_open tr = 1 ∧ count is_session_close tr = 1
   ∧ count is_transport_open tr = 1 ∧ count is_transport_close tr = 1)
  ∧ (let c := trace (call_tool (remote Sample.tool_fails) DEFAULT_URL "other"
                       "list_keys" (JDict [])) in
     count is_session_open c = 1 ∧ count is_session_close c = 1
     ∧ count is_transport_open c = 1 ∧ count is_transport_close c = 1).
Proof.
  split.
  - apply (session_is_closed_once Sample.json_loads Sample.tool_fails).
    vm_compute. lia.
  - apply (session_is_closed_once Sample.json_loads Sample.tool_fails);
      reflexivity.
Defined.

(** * Further properties *)

(** ** Trimming *)

Lemma rev_app_append (s acc : string) :
  String.rev_app s acc = String.rev s +:+ acc.
Proof.
  unfold String.rev. revert acc.
  induction s as [|a s IH]; intros acc; [reflexivity|].
  simpl. rewrite IH, (IH (String a "")), append_assoc. reflexivity.
Qed.

Lemma rev_cons (a : ascii) (s : string) :
  String.rev (String a s) = String.rev s +:+ String a "".
Proof. unfold String.rev at 1. simpl. apply rev_app_append. Qed.

Lemma rev_append (s t : string) :
  String.rev (s +:+ t) = String.rev t +:+ String.rev s.
Proof.
  induction s as [|a s IH].
  - change ("" +:+ t) with t. rewrite append_empty_r. reflexivity.
  - change (String a s +:+ t) with (String a (s +:+ t)).
    rewrite !rev_cons, IH, append_assoc. reflexivity.
Qed.

Lemma rev_involutive (s : string) : String.rev (String.rev s) = s.
Proof.
  induction s as [|a s IH]; [reflexivity|].
  rewrite rev_cons, rev_append, IH. reflexivity.
Qed.

Lemma all_space_append (s t : string) :
  all_space (s +:+ t) = all_space s && all_space t.
Proof.
  induction s as [|a s IH]; [reflexivity|].
  change (PyStr.isspace a && all_space (s +:+ t)
          = PyStr.isspace a && all_space s && all_space t).
  rewrite IH, andb_assoc. reflexivity.
Qed.

Lemma all_space_rev (s : string) : all_space (String.rev s) = all_space s.
Proof.
  induction s as [|a s IH]; [reflexivity|].
  rewrite rev_cons, all_space_append, IH. simpl.
  rewrite andb_true_r. apply andb_comm.
Qed.

Lemma lstrip_space_prefix (pre s : string) :
  all_space pre = true → PyStr.lstrip (pre +:+ s) = PyStr.lstrip s.
Proof.
  induction pre as [|a pre IH]; [reflexivity|].
  simpl. intros [Ha Hpre]%andb_true_iff.
  change (PyStr.lstrip (String a (pre +:+ s)) = PyStr.lstrip s).
  simpl. rewrite Ha. exact (IH Hpre).
Qed.

Lemma lstrip_all_space (s : string) :
  all_space s = true → PyStr.lstrip s = "".
Proof.
  intros H. rewrite <- (append_empty_r s). rewrite lstrip_space_prefix by exact H.
  reflexivity.
Qed.

(** When something is left of [s], text after it is out of reach of
    [lstrip]. *)
Lemma lstrip_append (s t : string) :
  PyStr.lstrip s ≠ "" → PyStr.lstrip (s +:+ t) = PyStr.lstrip s +:+ t.
Proof.
  induction s as [|a s IH]; [done|].
  change (String a s +:+ t) with (String a (s +:+ t)). simpl.
  destruct (PyStr.isspace a); [exact IH|reflexivity].
Qed.

Lemma lstrip_empty_all_space (s : string) :
  PyStr.lstrip s = "" → all_space s = true.
Proof.
  induction s as [|a s IH]; [reflexivity|].
  simpl. destruct (PyStr.isspace a); [exact IH|discriminate].
Qed.

Lemma rstrip_space_suffix (s post : string) :
  all_space post = true → PyStr.rstrip (s +:+ post) = PyStr.rstrip s.
Proof.
  intros H. unfold PyStr.rstrip.
  rewrite rev_append, lstrip_space_prefix by (rewrite all_space_rev; exact H).
  reflexivity.
Qed.

(** Whitespace around a text does not change what [strip] makes of it. *)
Lemma strip_surrounded (pre s post : string) :
  all_space pre = true → all_space post = true →
  PyStr.strip (pre +:+ s +:+ post) = PyStr.strip s.
Proof.
  intros Hpre Hpost. unfold PyStr.strip.
  rewrite lstrip_space_prefix by exact Hpre.
  destruct (PyStr.lstrip s) as [|a s'] eqn:Hs.
  - rewrite lstrip_all_space; [reflexivity|].
    rewrite all_space_append, Hpost, (lstrip_empty_all_space s Hs). reflexivity.
  - rewrite lstrip_append by (rewrite Hs; discriminate).
    rewrite Hs. apply rstrip_space_suffix. exact Hpost.
Qed.

(** ** The conversation, case by case *)

(** Case analysis on everything the remote service [r] decides during one
    conversation that calls the tool [name]. *)
Ltac conversation_cases r url name arguments :=
  unfold call_tool, create_session, async_with, streamablehttp_client,
    ClientSession, initialize, session_call, check;
  cbn [aenter aexit];
  destruct (transport_aenter r url _) as [?e|] eqn:?; cbn;
  destruct (session_aenter r) as [?e|] eqn:?; cbn;
  destruct (session_initialize r) as [?e|] eqn:?; cbn;
  destruct (session_call_tool r name arguments) as [?e|?res] eqn:?; cbn;
  destruct (session_aexit r) as [?e|] eqn:?; cbn;
  destruct (transport_aexit r) as [?e|] eqn:?; cbn.

Lemma call_tool_connects (r : Remote) (url token name : string) (arguments : json) :
  Connect url (bearer token) ∈ trace (call_tool r url token name arguments).
Proof. conversation_cases r url name arguments; apply list_elem_of_here. Qed.

(** ** More on the Configuration Resolver *)

(** X1. Whenever [get_config] returns, the URL is the value of
    [ENSUE_URL] if the variable is set, the empty string included, and the
    default URL only if it is unset; every connection a run makes goes to
    that URL, with the token [get_config] returned as bearer. *)
Theorem connection_follows_configuration
    (json_loads : string → loads_result) (w : World) :
  (∀ url token, result (get_config w) = Return (url, token) →
     match environ w !! "ENSUE_URL" with
     | Some value => url = value
     | None => url = DEFAULT_URL
     end)
  ∧ (∀ url headers,
       Connect url headers ∈ trace (main_async json_loads w) →
       ∃ token, result (get_config w) = Return (url, token)
                ∧ headers = [("Authorization", "Bearer " +:+ token)]).
Proof.
  split.
  - intros url token.
    assert (service_url w = match environ w !! "ENSUE_URL" with
                            | Some value => value | None => DEFAULT_URL end) as Hurl
      by (unfold service_url; destruct (environ w !! "ENSUE_URL"); reflexivity).
    destruct (env_cases w) as [(key & H & Hk)|[(Hk & tok & H & Ht)|(Hk & Ht)]].
    + rewrite (get_config_api_key w _ H Hk). simpl. intros [= <- <-].
      rewrite Hurl. destruct (environ w !! "ENSUE_URL"); reflexivity.
    + rewrite (get_config_env_token w _ Hk H Ht). simpl. intros [= <- <-].
      rewrite Hurl. destruct (environ w !! "ENSUE_URL"); reflexivity.
    + rewrite (get_config_fallback w Hk Ht).
      destruct (fs w !! plugin_key_file w) as [[text|e]|];
        destruct (fs w !! skill_key_file w) as [n|];
        try destruct (PyStr.strip text); simpl; try discriminate.
      intros [= <- <-].
      rewrite Hurl. destruct (environ w !! "ENSUE_URL"); reflexivity.
  - intros url headers.
    destruct (decide (length (argv w) < 2)) as [Hlen|Hlen].
    { rewrite main_async_usage by exact Hlen. simpl. intros Hin.
      apply list_elem_of_singleton in Hin. discriminate. }
    destruct (json_loads (args_str_of w)) as [arguments|msg|e] eqn:Hl.
    3:{ rewrite (main_async_other_error json_loads w e) by (lia || exact Hl).
        simpl. intros Hin. apply elem_of_nil in Hin as []. }
    2:{ rewrite (main_async_parse_error json_loads w msg) by (lia || exact Hl).
        simpl. intros Hin. apply list_elem_of_singleton in Hin. discriminate. }
    rewrite (main_async_decoded json_loads w arguments) by (lia || exact Hl).
    rewrite resolve_unfold.
    destruct (get_config_trace w) as [Hcfg _].
    destruct (get_config w) as [t [[u token]|[c|e]]]; simpl in *.
    + destruct (invoke_trace w u token (command_of w) arguments) as (tail & Ht & Hr).
      unfold mbind, M_bind.
      destruct (invoke _ _ _ _ _) as [t' o]. simpl in Ht. subst t'. simpl.
      rewrite !elem_of_app. intros [Hin|[Hin|Hin]].
      * eapply Forall_forall in Hcfg; [|exact Hin]. discriminate.
      * apply call_tool_events in Hin as (_ & Hc & _).
        destruct (Hc url headers eq_refl) as [-> ->]. eauto.
      * eapply Forall_forall in Hr; [|exact Hin]. discriminate.
    + intros Hin. eapply Forall_forall in Hcfg; [|exact Hin]. discriminate.
    + rewrite elem_of_app. intros [Hin|Hin].
      * eapply Forall_forall in Hcfg; [|exact Hin]. discriminate.
      * apply list_elem_of_singleton in Hin. discriminate.
Qed.

Lemma connection_follows_configuration_witness :
  match environ SampleHost.empty_url !! "ENSUE_URL" with
  | Some value => "" = value
  | None => "" = DEFAULT_URL
  end
  ∧ ∃ token, result (get_config SampleHost.plugin_key_only)
             = Return (DEFAULT_URL, token)
             ∧ bearer "secret" = [("Authorization", "Bearer " +:+ token)].
Proof.
  split.
  - apply (connection_follows_configuration Sample.json_loads SampleHost.empty_url)
      with (token := "other").
    reflexivity.
  - apply (connection_follows_configuration Sample.json_loads SampleHost.plugin_key_only).
    vm_compute. repeat constructor.
Defined.

(** X2. With no token in the environment, a plugin key file that holds
    more than whitespace and no skill key file, [get_config] reads the
    plugin key file once and returns its contents, trimmed, as the token;
    the run then connects with that token. *)
Theorem plugin_key_file_is_read
    (json_loads : string → loads_result) (w : World) (text : string) :
  PyStr.truthy (environ w !! "ENSUE_API_KEY") = false →
  PyStr.truthy (environ w !! "ENSUE_TOKEN") = false →
  fs w !! plugin_key_file w = Some (RegularFile text) →
  PyStr.strip text ≠ "" →
  fs w !! skill_key_file w = None →
  get_config w
  = (env_reads ++ [PathExists (plugin_key_file w); ReadText (plugin_key_file w);
                   PathExists (skill_key_file w)],
     Return (service_url w, PyStr.strip text))
  ∧ (∀ arguments, 2 ≤ length (argv w) →
       json_loads (args_str_of w) = Decoded arguments →
       Connect (service_url w) (bearer (PyStr.strip text))
       ∈ trace (main_async json_loads w)).
Proof.
  intros Hk Ht Hp Hne Hs.
  assert (Hcfg : get_config w
    = (env_reads ++ [PathExists (plugin_key_file w); ReadText (plugin_key_file w);
                     PathExists (skill_key_file w)],
       Return (service_url w, PyStr.strip text))).
  { rewrite (get_config_fallback w Hk Ht), Hp, Hs.
    destruct (PyStr.strip text); [done|reflexivity]. }
  split; [exact Hcfg|].
  intros arguments Hlen Hl.
  rewrite (main_async_decoded json_loads w arguments Hlen Hl).
  rewrite resolve_unfold, Hcfg. unfold mbind, M_bind.
  destruct (invoke_trace w (service_url w) (PyStr.strip text) (command_of w) arguments)
    as (tail & Htr & _).
  destruct (invoke _ _ _ _ _) as [t' o]. simpl in Htr. subst t'.
  unfold trace. cbn [fst].
  rewrite !elem_of_app. right. left.
  apply call_tool_connects.
Qed.

Lemma plugin_key_file_is_read_witness :
  get_config SampleHost.plugin_key_only
  = (env_reads ++ [PathExists Sample.plugin_key; ReadText Sample.plugin_key;
                   PathExists Sample.skill_key],
     Return (DEFAULT_URL, "secret")).
Proof.
  apply (plugin_key_file_is_read Sample.json_loads SampleHost.plugin_key_only "  secret
"); [reflexivity | reflexivity | reflexivity | discriminate | reflexivity].
Defined.

(** X3. Whitespace around the token in the plugin key file is
    immaterial: when the file holds a trimmed, non-empty token surrounded
    by any whitespace, a trailing newline for one, [get_config] returns
    the token itself. *)
Theorem key_file_whitespace_is_ignored (w : World) (pre token post : string) :
  PyStr.truthy (environ w !! "ENSUE_API_KEY") = false →
  PyStr.truthy (environ w !! "ENSUE_TOKEN") = false →
  fs w !! skill_key_file w = None →
  fs w !! plugin_key_file w = Some (RegularFile (pre +:+ token +:+ post)) →
  all_space pre = true → all_space post = true →
  PyStr.strip token = token → token ≠ "" →
  result (get_config w) = Return (service_url w, token).
Proof.
  intros Hk Ht Hs Hp Hpre Hpost Htrim Hne.
  rewrite (get_config_fallback w Hk Ht), Hp, Hs.
  rewrite (strip_surrounded pre token post Hpre Hpost), Htrim.
  destruct token; [done|reflexivity].
Qed.

Lemma key_file_whitespace_is_ignored_witness :
  result (get_config SampleHost.plugin_key_only) = Return (DEFAULT_URL, "secret").
Proof.
  apply (key_file_whitespace_is_ignored SampleHost.plugin_key_only "  " "secret" "
"); [reflexivity | reflexivity | reflexivity | reflexivity | reflexivity
    | reflexivity | reflexivity | discriminate].
Defined.

Lemma count_zero_none (P : event → bool) (tr : list event) :
  count P tr = 0 ↔ none_of P tr.
Proof.
  induction tr as [|e tr IH]; simpl.
  - split; [constructor|reflexivity].
  - destruct (P e) eqn:HP; split.
    + discriminate.
    + intros H. inversion H; congruence.
    + intros H. constructor; [exact HP|]. apply IH. exact H.
    + intros H. inversion H; subst. apply IH. assumption.
Qed.

(** X4. [get_config] touches the file system exactly when the
    environment holds no token: with a non-empty [ENSUE_API_KEY], or an
    empty or unset [ENSUE_API_KEY] and a non-empty [ENSUE_TOKEN], no path
    is probed or read; otherwise the first access is the existence test of
    the plugin key file. *)
Theorem key_files_are_a_fallback (w : World) :
  (count is_probe (trace (get_config w)) = 0
   ↔ PyStr.truthy (environ w !! "ENSUE_API_KEY") = true
     ∨ PyStr.truthy (environ w !! "ENSUE_TOKEN") = true)
  ∧ (0 < count is_probe (trace (get_config w)) →
     ∃ rest, trace (get_config w)
             = env_reads ++ PathExists (plugin_key_file w) :: rest).
Proof.
  destruct (env_cases w) as [(key & H & Hk)|[(Hk & tok & H & Ht)|(Hk & Ht)]].
  - rewrite (get_config_api_key w _ H Hk). simpl. split; [|lia].
    split; [|reflexivity]. intros _. left. rewrite H. by apply truthy_Some.
  - rewrite (get_config_env_token w _ Hk H Ht). simpl. split; [|lia].
    split; [|reflexivity]. intros _. right. rewrite H. by apply truthy_Some.
  - rewrite (get_config_fallback w Hk Ht). rewrite Hk, Ht.
    destruct (fs w !! plugin_key_file w) as [[text|e]|];
      destruct (fs w !! skill_key_file w) as [n|];
      try destruct (PyStr.strip text); simpl;
      (split; [split; [discriminate|intros [?|?]; discriminate]|]);
      intros _; eexists; reflexivity.
Qed.

Lemma key_files_are_a_fallback_witness :
  ∃ rest, trace (get_config Sample.no_token)
          = env_reads ++ PathExists (plugin_key_file Sample.no_token) :: rest.
Proof.
  apply (key_files_are_a_fallback Sample.no_token). vm_compute. lia.
Defined.

(** X5. When the plugin key path exists but cannot be read, a directory
    for one, the exception of [read_text] ends configuration resolution
    before the skill key file is looked at; the run reports it as a
    configuration error and exits with status 1 without contacting the
    remote service. *)
Theorem unreadable_key_file_is_reported
    (json_loads : string → loads_result) (w : World) (e : exn) (arguments : json) :
  2 ≤ length (argv w) →
  json_loads (args_str_of w) = Decoded arguments →
  PyStr.truthy (environ w !! "ENSUE_API_KEY") = false →
  PyStr.truthy (environ w !! "ENSUE_TOKEN") = false →
  fs w !! plugin_key_file w = Some (Unreadable e) →
  main_async json_loads w
  = (env_reads ++ [PathExists (plugin_key_file w); ReadText (plugin_key_file w);
                   PrintErr (JDict [("error", JStr ("Configuration error: " +:+ exn_str e))])],
     Raise (SystemExit 1)).
Proof.
  intros Hlen Hl Hk Ht Hp.
  rewrite (main_async_decoded json_loads w arguments Hlen Hl).
  rewrite resolve_unfold, (get_config_fallback w Hk Ht), Hp. reflexivity.
Qed.

Lemma unreadable_key_file_is_reported_witness :
  exit_status (main_async Sample.json_loads SampleHost.plugin_key_directory) = 1%Z.
Proof.
  rewrite (unreadable_key_file_is_reported Sample.json_loads
             SampleHost.plugin_key_directory
             (Exn "IsADirectoryError"
                "[Errno 21] Is a directory: '/opt/ensue-skill/.claude-plugin/.ensue-key'")
             (JDict []));
    [reflexivity | simpl; lia | reflexivity | reflexivity | reflexivity | reflexivity].
Defined.

(** X6. With [ENSUE_API_KEY] unset or empty and a non-empty
    [ENSUE_TOKEN], [get_config] returns the value of [ENSUE_TOKEN]
    unchanged, surrounding whitespace included, whatever the key files
    hold. *)
Theorem token_variable_is_second (w : World) (token : string) :
  PyStr.truthy (environ w !! "ENSUE_API_KEY") = false →
  environ w !! "ENSUE_TOKEN" = Some token → token ≠ "" →
  get_config w = (env_reads, Return (service_url w, token))
  ∧ ∀ files, get_config (with_fs files w) = get_config w.
Proof.
  intros Hk H Ht. split; [exact (get_config_env_token w token Hk H Ht)|].
  intros files.
  rewrite (get_config_env_token w token Hk H Ht).
  exact (get_config_env_token (with_fs files w) token Hk H Ht).
Qed.

Lemma token_variable_is_second_witness :
  get_config Sample.with_token = (env_reads, Return (DEFAULT_URL, "other")).
Proof.
  apply (token_variable_is_second Sample.with_token "other");
    [reflexivity | reflexivity | discriminate].
Defined.

(** ** More on the Remote Session Client *)

(** X7. [call_tool] returns a result exactly when connecting, entering
    the session, the handshake, the tool call and both closing operations
    succeed, and it is then the server's reply, after the complete
    conversation. *)
Theorem call_tool_returns_the_reply
    (r : Remote) (url token name : string) (arguments : json) (res : pyobj) :
  result (call_tool r url token name arguments) = Return res
  ↔ (transport_aenter r url [("Authorization", "Bearer " +:+ token)] = None
     ∧ session_aenter r = None ∧ session_initialize r = None
     ∧ session_call_tool r name arguments = inr res
     ∧ session_aexit r = None ∧ transport_aexit r = None
     ∧ trace (call_tool r url token name arguments)
       = [Connect url [("Authorization", "Bearer " +:+ token)]; TransportOpen;
          SessionOpen; Initialize; CallTool name arguments;
          SessionClose; TransportClose]).
Proof.
  split.
  - intros H. pose proof (call_tool_return_trace r url token name arguments res H) as Htr.
    apply call_tool_return in H as (?&?&?&?&?&?). repeat split; assumption.
  - intros (?&?&?&?&?&?&_). apply call_tool_return. repeat split; assumption.
Qed.

Lemma call_tool_returns_the_reply_witness :
  result (call_tool (Sample.service (inr Sample.keys_reply)) DEFAULT_URL "other"
            "list_keys" (JDict []))
  = Return Sample.keys_reply.
Proof.
  apply (call_tool_returns_the_reply (Sample.service (inr Sample.keys_reply))
           DEFAULT_URL "other" "list_keys" (JDict []) Sample.keys_reply).
  repeat split; reflexivity.
Defined.

(** X8. The operations of a conversation are attempted in order and
    each only after the one before succeeded: no handshake unless the
    transport and the session were entered, no tool call unless the
    handshake succeeded, and the connection attempt always comes first. *)
Theorem conversation_is_ordered
    (r : Remote) (url token name : string) (arguments : json) :
  let tr := trace (call_tool r url token name arguments) in
  (∃ rest, tr = Connect url [("Authorization", "Bearer " +:+ token)] :: rest)
  ∧ (Initialize ∈ tr →
     transport_aenter r url [("Authorization", "Bearer " +:+ token)] = None
     ∧ session_aenter r = None)
  ∧ (∀ n a, CallTool n a ∈ tr →
       transport_aenter r url [("Authorization", "Bearer " +:+ token)] = None
       ∧ session_aenter r = None ∧ session_initialize r = None)
  ∧ (∀ n a, CallTool n a ∈ tr →
       ∃ before after, tr = before ++ Initialize :: CallTool n a :: after).
Proof.
  conversation_cases r url name arguments;
    (split; [eexists; reflexivity|]);
    (split; [intros Hin|split; intros n a Hin]);
    repeat (apply elem_of_cons in Hin as [[=]|Hin]);
    try (apply elem_of_nil in Hin as []);
    subst; try done;
    try (eexists [_; _; _], _; reflexivity).
Qed.

Lemma conversation_is_ordered_witness :
  (transport_aenter (remote Sample.tool_fails) DEFAULT_URL
     [("Authorization", "Bearer " +:+ "other")] = None
   ∧ session_aenter (remote Sample.tool_fails) = None
   ∧ session_initialize (remote Sample.tool_fails) = None)
  ∧ ∃ before after,
      trace (call_tool (remote Sample.tool_fails) DEFAULT_URL "other" "list_keys" (JDict []))
      = before ++ Initialize :: CallTool "list_keys" (JDict []) :: after.
Proof.
  split.
  - apply (conversation_is_ordered (remote Sample.tool_fails) DEFAULT_URL "other"
             "list_keys" (JDict [])) with (n := "list_keys") (a := JDict []).
    vm_compute. repeat constructor.
  - apply (conversation_is_ordered (remote Sample.tool_fails) DEFAULT_URL "other"
             "list_keys" (JDict [])).
    vm_compute. repeat constructor.
Defined.

(** X9. Release is in reverse order of acquisition: once the session is
    opened, the conversation ends with the session being closed and then
    the transport; when only the transport is opened, it ends with the
    transport being closed; when the connection fails, nothing is closed. *)
Theorem close_is_last_in_first_out
    (r : Remote) (url token name : string) (arguments : json) :
  let tr := trace (call_tool r url token name arguments) in
  (0 < count is_session_open tr →
     ∃ before, tr = before ++ [SessionClose; TransportClose]
               ∧ count is_session_close before = 0
               ∧ count is_transport_close before = 0)
  ∧ (0 < count is_transport_open tr → count is_session_open tr = 0 →
     ∃ before, tr = before ++ [TransportClose]
               ∧ count is_transport_close before = 0)
  ∧ (count is_transport_open tr = 0 →
     count is_transport_close tr = 0 ∧ count is_session_close tr = 0).
Proof.
  conversation_cases r url name arguments;
    (split; [intros H; try (simpl in H; lia)
            |split; [intros H H'; try (simpl in H, H'; lia)
                    |intros H; try (simpl in H; lia); split; reflexivity]]);
    first [ eexists [_; _; _; _; _]; repeat split; reflexivity
          | eexists [_; _; _; _]; repeat split; reflexivity
          | eexists [_; _]; repeat split; reflexivity ].
Qed.

Lemma close_is_last_in_first_out_witness :
  ∃ before,
    trace (call_tool (remote Sample.tool_fails) DEFAULT_URL "other" "list_keys" (JDict []))
    = before ++ [SessionClose; TransportClose]
    ∧ count is_session_close before = 0
    ∧ count is_transport_close before = 0.
Proof.
  apply (close_is_last_in_first_out (remote Sample.tool_fails) DEFAULT_URL "other"
           "list_keys" (JDict [])).
  vm_compute. lia.
Defined.

(** X10. A failure while closing wins: once the transport is opened, an
    exception of its closing operation is what [call_tool] raises,
    whatever came before, the server's reply included; and when the
    transport closes cleanly but closing the session raises, that
    exception is raised instead of the reply. *)
Theorem closing_failure_replaces_the_result
    (r : Remote) (url token name : string) (arguments : json) (e : exn) :
  transport_aenter r url [("Authorization", "Bearer " +:+ token)] = None →
  (transport_aexit r = Some e →
   result (call_tool r url token name arguments) = Raise (Exception e))
  ∧ (session_aenter r = None → transport_aexit r = None → session_aexit r = Some e →
     result (call_tool r url token name arguments) = Raise (Exception e)).
Proof.
  intros Ht. split; [intros Hx|intros Hs Hx Hsx]; revert Ht Hx; try revert Hs Hsx;
    conversation_cases r url name arguments; intros; simpl; congruence.
Qed.

Lemma closing_failure_replaces_the_result_witness :
  result (call_tool SampleHost.close_fails DEFAULT_URL "other" "list_keys" (JDict []))
  = Raise (Exception (Exn "RuntimeError" "Attempted to exit cancel scope in a different task")).
Proof.
  apply (closing_failure_replaces_the_result SampleHost.close_fails DEFAULT_URL "other"
           "list_keys" (JDict []));
    reflexivity.
Defined.

(** ** More on formatting *)

Lemma getattr_to_py (j : json) (name : string) : Py.getattr (to_py j) name = None.
Proof. destruct j; reflexivity. Qed.

(** X11. A result of a built-in JSON type is never unpacked: it has no
    attributes, so [format_result] serializes it whole when it is within
    the limits of the encoder, even a dictionary that has a [content] key
    holding text items; when its floats are finite, decoding the text it
    returns gives the result back. *)
Theorem json_results_are_serialized (j : json) :
  Json.within_limits (to_py j) = true →
  finite_floats (to_py j) = true →
  ∃ text, format_result (to_py j) = mret (PStr text)
          ∧ Rfc8259.parse text = Some j.
Proof.
  intros _ Hf. exists (Json.dumps j). split.
  - unfold format_result, Py.hasattr. rewrite getattr_to_py. reflexivity.
  - unfold Json.dumps. rewrite (parse_dumps (to_py j) Hf), coerced_to_py. reflexivity.
Qed.

Lemma json_results_are_serialized_witness :
  ∃ text,
    format_result (PDict [("content", PList [PDict [("text", PStr "a\b")]])])
    = mret (PStr text)
    ∧ Rfc8259.parse text = Some (JDict [("content", JList [JDict [("text", JStr "a\b")]])]).
Proof.
  apply (json_results_are_serialized
           (JDict [("content", JList [JDict [("text", JStr "a\b")]])]));
    reflexivity.
Defined.

(** X12. A [content] that cannot be iterated is an error, not a reason
    to fall back to serialization: when the [content] of the result is
    [None], a number, a boolean or an object of a class that is not
    iterable, [format_result] raises the [TypeError] of the iteration,
    which names the class. *)
Theorem format_result_raises_on_bad_content (res content : pyobj) :
  Py.getattr res "content" = Some content →
  Py.iterable content = false →
  format_result res
  = raise_exn "TypeError" ("'" +:+ Py.type_name content +:+ "' object is not iterable").
Proof.
  intros Hc Hi. unfold format_result, Py.hasattr. rewrite Hc.
  destruct content as [| | | | | | | |cls str_ attrs [items|]]; try discriminate Hi;
    reflexivity.
Qed.

Lemma format_result_raises_on_bad_content_witness :
  format_result (Sample.model "CallToolResult" "content=None" [("content", PNone)])
  = raise_exn "TypeError" "'NoneType' object is not iterable".
Proof.
  apply (format_result_raises_on_bad_content
           (Sample.model "CallToolResult" "content=None" [("content", PNone)]) PNone);
    reflexivity.
Defined.

(** ** More on the CLI Driver *)

Lemma none_of_remote_print (P : event → bool) (tr : list event) :
  (∀ e, P e = true → is_remote e = false) →
  (∀ e, e ∈ tr → is_remote e = true) → none_of P tr.
Proof.
  intros HP Htr. apply Forall_forall. intros e He.
  destruct (P e) eqn:HPe; [|reflexivity].
  specialize (Htr e He). rewrite (HP e HPe) in Htr. discriminate.
Qed.

Lemma call_tool_prints_nothing (r : Remote) (url token name : string) (arguments : json) :
  none_of is_print_out (trace (call_tool r url token name arguments))
  ∧ none_of is_print_err (trace (call_tool r url token name arguments)).
Proof.
  split; apply none_of_remote_print;
    try (intros e He; by apply call_tool_events in He as [? _]);
    intros []; simpl; congruence.
Qed.

Lemma get_config_prints (w : World) :
  none_of is_print_out (trace (get_config w))
  ∧ (∀ p, result (get_config w) = Return p → none_of is_print_err (trace (get_config w)))
  ∧ (∀ e, result (get_config w) = Raise (Exception e) →
       none_of is_print_err (trace (get_config w)))
  ∧ (∀ c, result (get_config w) = Raise (SystemExit c) →
       c = 1%Z ∧ ∃ tr, trace (get_config w) = tr ++ [PrintErr (no_token_error w)]
                       ∧ none_of is_print_err tr ∧ none_of is_print_out tr).
Proof.
  destruct (env_cases w) as [(key & H & Hk)|[(Hk & tok & H & Ht)|(Hk & Ht)]].
  - rewrite (get_config_api_key w _ H Hk). simpl.
    repeat split; try discriminate; repeat constructor.
  - rewrite (get_config_env_token w _ Hk H Ht). simpl.
    repeat split; try discriminate; repeat constructor.
  - rewrite (get_config_fallback w Hk Ht).
    destruct (fs w !! plugin_key_file w) as [[text|e]|];
      destruct (fs w !! skill_key_file w) as [n|];
      try destruct (PyStr.strip text); simpl;
      (split; [repeat constructor|]);
      (split; [intros; try discriminate; repeat constructor|]);
      (split; [intros; try discriminate; repeat constructor|]);
      intros c Hc; try discriminate; injection Hc as <-; (split; [reflexivity|]).
    + eexists (env_reads ++ [_; _; _]). repeat split; repeat constructor.
    + eexists (env_reads ++ [_; _]). repeat split; repeat constructor.
Qed.

(** X13. A run prints at most once, as its last action.  Unless
    [json.loads] raises something other than [JSONDecodeError], it prints
    exactly once: either the output on standard output, and then it
    returns (exit status 0), or an error object on standard error, and
    then it exits with status 1; it never prints on both streams.  A run
    in which [json.loads] raises another exception prints nothing and
    ends on that exception, uncaught; it is the only run that does. *)
Theorem one_report_per_run (json_loads : string → loads_result) (w : World) :
  (∀ e, 2 ≤ length (argv w) → json_loads (args_str_of w) = OtherError e →
     main_async json_loads w = ([], Raise (Exception e)))
  ∧ (∀ e, result (main_async json_loads w) = Raise (Exception e) →
       2 ≤ length (argv w) ∧ json_loads (args_str_of w) = OtherError e)
  ∧ ((∀ e, result (main_async json_loads w) ≠ Raise (Exception e)) →
     ∃ before report,
       trace (main_async json_loads w) = before ++ [report]
       ∧ none_of is_print_out before ∧ none_of is_print_err before
       ∧ ((is_print_out report = true ∧ result (main_async json_loads w) = Return ()
           ∧ exit_status (main_async json_loads w) = 0%Z)
          ∨ (is_print_err report = true
             ∧ result (main_async json_loads w) = Raise (SystemExit 1)
             ∧ exit_status (main_async json_loads w) = 1%Z))).
Proof.
  split; [intros e Hlen Hl; exact (main_async_other_error json_loads w e Hlen Hl)|].
  cut ((∃ e, 2 ≤ length (argv w) ∧ json_loads (args_str_of w) = OtherError e
             ∧ result (main_async json_loads w) = Raise (Exception e))
       ∨ (∃ before report,
              trace (main_async json_loads w) = before ++ [report]
              ∧ none_of is_print_out before ∧ none_of is_print_err before
              ∧ ((is_print_out report = true ∧ result (main_async json_loads w) = Return ()
                  ∧ exit_status (main_async json_loads w) = 0%Z)
                 ∨ (is_print_err report = true
                    ∧ result (main_async json_loads w) = Raise (SystemExit 1)
                    ∧ exit_status (main_async json_loads w) = 1%Z)))).
  { intros [(e & Hlen & Hl & Hres)|Hrep]; split.
    - intros e' He'. rewrite Hres in He'. injection He' as <-. auto.
    - intros Hno. destruct (Hno e Hres).
    - intros e He.
      destruct Hrep as (b & r & _ & _ & _ & [(_ & Hr & _)|(_ & Hr & _)]);
        rewrite Hr in He; discriminate.
    - intros _. exact Hrep. }
  destruct (decide (length (argv w) < 2)) as [Hlen|Hlen].
  { rewrite main_async_usage by exact Hlen. right.
    exists [], (PrintErr usage_error).
    split; [reflexivity|]. split; [constructor|]. split; [constructor|]. right. auto. }
  destruct (json_loads (args_str_of w)) as [arguments|msg|e] eqn:Hl.
  3:{ left. exists e. rewrite (main_async_other_error json_loads w e) by (lia || exact Hl).
      split; [lia|]. auto. }
  all: right.
  2:{ rewrite (main_async_parse_error json_loads w msg) by (lia || exact Hl).
      eexists [], _.
      split; [reflexivity|]. split; [constructor|]. split; [constructor|]. right. auto. }
  rewrite (main_async_decoded json_loads w arguments) by (lia || exact Hl).
  rewrite resolve_unfold.
  destruct (get_config_prints w) as (Hout & Hret & Hexn & Hexit).
  destruct (get_config w) as [t [[url token]|[c|e]]]; simpl in Hout, Hret, Hexn, Hexit.
  - specialize (Hret _ eq_refl). unfold mbind, M_bind.
    rewrite invoke_unfold, attempt_unfold.
    destruct (call_tool_prints_nothing (remote w) url token (command_of w) arguments)
      as [Hcout Hcerr].
    pose proof (call_tool_result (remote w) url token (command_of w) arguments) as Hres.
    destruct (call_tool _ _ _ _ _) as [t' [res|r]]; simpl in *.
    + destruct (format_result_pure res) as [[out ->]|[e ->]].
      * exists (t ++ t'), (PrintOut out). rewrite app_assoc.
        split; [reflexivity|]. rewrite !none_of_app.
        split; [auto|]. split; [auto|]. left. auto.
      * exists (t ++ t'), (PrintErr (remote_error e (command_of w) arguments)).
        rewrite app_assoc. split; [reflexivity|].
        rewrite !none_of_app. split; [auto|]. split; [auto|]. right. auto.
    + destruct Hres as [[res [=]]|[e [= ->]]].
      exists (t ++ t'), (PrintErr (remote_error e (command_of w) arguments)).
      rewrite app_assoc. split; [reflexivity|].
      rewrite !none_of_app. split; [auto|]. split; [auto|]. right. auto.
  - destruct (Hexit c eq_refl) as (-> & tr & -> & Herr & Hout').
    exists tr, (PrintErr (no_token_error w)).
    split; [reflexivity|]. split; [auto|]. split; [auto|]. right. auto.
  - specialize (Hexn _ eq_refl).
    exists t, (PrintErr (configuration_error e)).
    split; [reflexivity|]. split; [auto|]. split; [auto|]. right. auto.
Qed.

Lemma one_report_per_run_witness :
  main_async Sample.json_loads Sample.deep_arguments
  = ([], Raise (Exception Sample.recursion_error))
  ∧ ∃ before report,
      trace (main_async Sample.json_loads Sample.tool_fails) = before ++ [report]
      ∧ none_of is_print_out before ∧ none_of is_print_err before
      ∧ ((is_print_out report = true
          ∧ result (main_async Sample.json_loads Sample.tool_fails) = Return ()
          ∧ exit_status (main_async Sample.json_loads Sample.tool_fails) = 0%Z)
         ∨ (is_print_err report = true
            ∧ result (main_async Sample.json_loads Sample.tool_fails) = Raise (SystemExit 1)
            ∧ exit_status (main_async Sample.json_loads Sample.tool_fails) = 1%Z)).
Proof.
  split.
  - apply (one_report_per_run Sample.json_loads Sample.deep_arguments);
      [simpl; lia | vm_compute; reflexivity].
  - apply (one_report_per_run Sample.json_loads Sample.tool_fails).
    intros e. vm_compute. discriminate.
Defined.

(** X14. Arguments after the second are ignored: the run with further
    arguments on the command line is the run without them. *)
Theorem surplus_arguments_are_ignored
    (json_loads : string → loads_result) (w : World)
    (program command arguments : string) (surplus : list string) :
  argv w = program :: command :: arguments :: surplus →
  main_async json_loads w
  = main_async json_loads (with_argv [program; command; arguments] w).
Proof.
  intros Hargv.
  unfold main_async, resolve, invoke, attempt, command_of, args_str_of.
  cbn [argv remote with_argv]. rewrite get_config_argv, Hargv.
  rewrite !bool_decide_eq_false_2 by (simpl; lia).
  rewrite !bool_decide_eq_true_2 by (simpl; lia).
  reflexivity.
Qed.

Lemma surplus_arguments_are_ignored_witness :
  main_async Sample.json_loads
    (with_argv ["ensue-cli.py"; "list_keys"; "{}"; "--verbose"; "x"] Sample.with_token)
  = main_async Sample.json_loads
      (with_argv ["ensue-cli.py"; "list_keys"; "{}"]
         (with_argv ["ensue-cli.py"; "list_keys"; "{}"; "--verbose"; "x"] Sample.with_token)).
Proof.
  apply (surplus_arguments_are_ignored Sample.json_loads
           (with_argv ["ensue-cli.py"; "list_keys"; "{}"; "--verbose"; "x"] Sample.with_token)
           "ensue-cli.py" "list_keys" "{}" ["--verbose"; "x"]).
  reflexivity.
Defined.

(** X15. End to end: when the arguments decode, a token is configured,
    every remote operation succeeds and the reply has a text item, the
    run makes exactly one tool call, with the command and the decoded
    arguments, prints the text of the first text item unchanged on
    standard output, and returns. *)
Theorem successful_run
    (json_loads : string → loads_result) (w : World)
    (arguments : json) (url token : string) (res content text : pyobj)
    (before after : list pyobj) (item : pyobj) :
  2 ≤ length (argv w) →
  json_loads (args_str_of w) = Decoded arguments →
  result (get_config w) = Return (url, token) →
  result (call_tool (remote w) url token (command_of w) arguments) = Return res →
  Py.getattr res "content" = Some content →
  Py.iter content = inr (before ++ item :: after) →
  Forall (λ i, Py.getattr i "text" = None) before →
  Py.getattr item "text" = Some text →
  main_async json_loads w
  = (trace (get_config w)
       ++ [Connect url [("Authorization", "Bearer " +:+ token)]; TransportOpen;
           SessionOpen; Initialize; CallTool (command_of w) arguments;
           SessionClose; TransportClose; PrintOut text],
     Return ())
  ∧ count is_call_tool (trace (main_async json_loads w)) = 1.
Proof.
  intros Hlen Hl Hcfg Hcall Hc Hi Hb Ht.
  pose proof (call_tool_return_trace _ _ _ _ _ _ Hcall) as Htr.
  assert (Hfmt : format_result res = mret text).
  { unfold format_result, Py.hasattr.
    rewrite Hc, Hi, (first_text_first before item after text Hb Ht). reflexivity. }
  assert (Hrun : main_async json_loads w
    = (trace (get_config w)
         ++ [Connect url [("Authorization", "Bearer " +:+ token)]; TransportOpen;
             SessionOpen; Initialize; CallTool (command_of w) arguments;
             SessionClose; TransportClose; PrintOut text],
       Return ())).
  { rewrite (main_async_decoded json_loads w arguments Hlen Hl).
    rewrite resolve_unfold.
    destruct (get_config w) as [t o]. simpl in Hcfg. subst o.
    unfold mbind, M_bind. rewrite invoke_unfold, attempt_unfold.
    destruct (call_tool _ _ _ _ _) as [t' o]. simpl in Hcall, Htr. subst o t'.
    rewrite Hfmt. reflexivity. }
  split; [exact Hrun|].
  rewrite Hrun. unfold trace at 1. cbn [fst]. rewrite count_app.
  destruct (get_config_trace w) as [Hrem _].
  rewrite (count_none is_call_tool is_remote _ (λ e, ltac:(by destruct e)) Hrem).
  reflexivity.
Qed.

Lemma successful_run_witness :
  main_async Sample.json_loads Sample.with_token
  = (trace (get_config Sample.with_token)
       ++ [Connect DEFAULT_URL [("Authorization", "Bearer " +:+ "other")]; TransportOpen;
           SessionOpen; Initialize; CallTool "list_keys" (JDict []);
           SessionClose; TransportClose; PrintOut (PStr "{}")],
     Return ())
  ∧ count is_call_tool (trace (main_async Sample.json_loads Sample.with_token)) = 1.
Proof.
  apply (successful_run Sample.json_loads Sample.with_token (JDict []) DEFAULT_URL "other"
           Sample.keys_reply
           (PList [Sample.image_content; Sample.text_content "{}"]) (PStr "{}")
           [Sample.image_content] [] (Sample.text_content "{}"));
    [simpl; lia | reflexivity | reflexivity | reflexivity | reflexivity | reflexivity
    | repeat constructor | reflexivity].
Defined.

(** X16. A reply that cannot be formatted is an error of the run: when
    the conversation succeeds but the [content] of the reply cannot be
    iterated, nothing is printed on standard output; the [TypeError] is
    reported on standard error with the command and the arguments, after
    the session and the transport are closed, and the exit status is 1. *)
Theorem unformattable_reply_is_reported
    (json_loads : string → loads_result) (w : World)
    (arguments : json) (url token : string) (res content : pyobj) (e : exn) :
  2 ≤ length (argv w) →
  json_loads (args_str_of w) = Decoded arguments →
  result (get_config w) = Return (url, token) →
  result (call_tool (remote w) url token (command_of w) arguments) = Return res →
  Py.getattr res "content" = Some content →
  Py.iter content = inl e →
  main_async json_loads w
  = (trace (get_config w)
       ++ [Connect url [("Authorization", "Bearer " +:+ token)]; TransportOpen;
           SessionOpen; Initialize; CallTool (command_of w) arguments;
           SessionClose; TransportClose;
           PrintErr (JDict [("error", JStr (exn_str e));
                            ("command", JStr (command_of w));
                            ("arguments", arguments)])],
     Raise (SystemExit 1)).
Proof.
  intros Hlen Hl Hcfg Hcall Hc Hi.
  pose proof (call_tool_return_trace _ _ _ _ _ _ Hcall) as Htr.
  assert (Hfmt : format_result res = ([], Raise (Exception e))).
  { unfold format_result, Py.hasattr. rewrite Hc, Hi. reflexivity. }
  rewrite (main_async_decoded json_loads w arguments Hlen Hl).
  rewrite resolve_unfold.
  destruct (get_config w) as [t o]. simpl in Hcfg. subst o.
  unfold mbind, M_bind. rewrite invoke_unfold, attempt_unfold.
  destruct (call_tool _ _ _ _ _) as [t' o]. simpl in Hcall, Htr. subst o t'.
  rewrite Hfmt. reflexivity.
Qed.

Lemma unformattable_reply_is_reported_witness :
  exit_status (main_async Sample.json_loads SampleHost.bad_reply) = 1%Z.
Proof.
  rewrite (unformattable_reply_is_reported Sample.json_loads SampleHost.bad_reply
             (JDict []) DEFAULT_URL "other"
             (Sample.model "CallToolResult" "content=None" [("content", PNone)]) PNone
             (Exn "TypeError" "'NoneType' object is not iterable"));
    [reflexivity | simpl; lia | reflexivity | reflexivity | reflexivity | reflexivity
    | reflexivity].
Defined.

(** ** Tool listing *)

Lemma attribute_unfold (o : pyobj) (name : string) :
  attribute o name
  = match Py.getattr o name with
    | Some v => ([], Return v)
    | None => ([], Raise (Exception (Exn "AttributeError"
                ("'" +:+ Py.type_name o +:+ "' object has no attribute '" +:+ name +:+ "'"))))
    end.
Proof. unfold attribute. destruct (Py.getattr o name); reflexivity. Qed.

Lemma first_missing_none (tool : pyobj) :
  first_missing tool = None → ∃ entry, describes tool entry ∧ tool_entry tool = ([], Return entry).
Proof.
  unfold first_missing, Py.hasattr, tool_entry, describes. rewrite !attribute_unfold.
  destruct (Py.getattr tool "name") as [n|]; [|discriminate].
  destruct (Py.getattr tool "description") as [d|]; [|discriminate].
  destruct (Py.getattr tool "inputSchema") as [s|]; [|discriminate].
  intros _. eexists. split; [|reflexivity]. eauto 10.
Qed.

Lemma first_missing_some (tool : pyobj) (name : string) :
  first_missing tool = Some name →
  tool_entry tool
  = ([], Raise (Exception (Exn "AttributeError"
           ("'" +:+ Py.type_name tool +:+ "' object has no attribute '" +:+ name +:+ "'")))).
Proof.
  unfold first_missing, Py.hasattr, tool_entry. rewrite !attribute_unfold.
  destruct (Py.getattr tool "name") as [n|]; [|intros [= <-]; reflexivity].
  destruct (Py.getattr tool "description") as [d|]; [|intros [= <-]; reflexivity].
  destruct (Py.getattr tool "inputSchema") as [s|]; [discriminate|].
  intros [= <-]. reflexivity.
Qed.

Lemma comprehension_complete (items : list pyobj) :
  Forall (λ tool, first_missing tool = None) items →
  ∃ entries, comprehension tool_entry items = ([], Return entries)
             ∧ Forall2 describes items entries.
Proof.
  induction 1 as [|tool items Htool _ (entries & IH & Hall)].
  - exists []. split; [reflexivity|constructor].
  - destruct (first_missing_none tool Htool) as (entry & Hd & He).
    exists (entry :: entries). split; [|by constructor].
    simpl. rewrite He, IH. reflexivity.
Qed.

Lemma comprehension_incomplete (before after : list pyobj) (tool : pyobj) (name : string) :
  Forall (λ tool, first_missing tool = None) before →
  first_missing tool = Some name →
  comprehension tool_entry (before ++ tool :: after)
  = ([], Raise (Exception (Exn "AttributeError"
           ("'" +:+ Py.type_name tool +:+ "' object has no attribute '" +:+ name +:+ "'")))).
Proof.
  intros Hb Ht. induction Hb as [|t before Hfirst _ IH]; simpl.
  - rewrite (first_missing_some tool name Ht). reflexivity.
  - destruct (first_missing_none t Hfirst) as (entry & _ & ->). rewrite IH. reflexivity.
Qed.

Section ListTools.

Variable session_list_tools : Remote → exn + pyobj.

(** The body of [list_tools] performs no event and never calls
    [sys.exit]. *)
Lemma tool_entries_pure (session : Remote) :
  (∃ v, tool_entries session_list_tools session = ([], Return v))
  ∨ (∃ e, tool_entries session_list_tools session = ([], Raise (Exception e))).
Proof.
  unfold tool_entries.
  destruct (session_list_tools session) as [e|res]; [right; eexists; reflexivity|].
  unfold mbind, M_bind, mret, M_ret. cbv beta iota. rewrite attribute_unfold.
  destruct (Py.getattr res "tools") as [tools|]; [|right; eexists; reflexivity].
  cbv beta iota.
  destruct (Py.iter tools) as [e|items]; [right; eexists; reflexivity|].
  cbv beta iota.
  assert ((∃ entries, comprehension tool_entry items = ([], Return entries))
          ∨ (∃ e, comprehension tool_entry items = ([], Raise (Exception e)))) as Hc.
  { induction items as [|tool items IH]; [left; eexists; reflexivity|].
    simpl. destruct (first_missing tool) as [name|] eqn:Hm.
    - rewrite (first_missing_some tool name Hm). right. eexists. reflexivity.
    - destruct (first_missing_none tool Hm) as (entry & _ & ->).
      destruct IH as [[entries ->]|[e ->]]; [left|right]; eexists; reflexivity. }
  destruct Hc as [[entries Hc]|[e Hc]]; [left|right]; eexists;
    rewrite Hc; reflexivity.
Qed.

(** Case analysis on everything the remote service decides during one
    [list_tools]. *)
Ltac listing_cases r url :=
  unfold list_tools, create_session, async_with, streamablehttp_client,
    ClientSession, initialize, check;
  cbn [aenter aexit];
  destruct (transport_aenter r url _) as [?e|] eqn:?; cbn -[tool_entries];
  destruct (session_aenter r) as [?e|] eqn:?; cbn -[tool_entries];
  destruct (session_initialize r) as [?e|] eqn:?; cbn -[tool_entries];
  destruct (tool_entries_pure r) as [[?v Hbody]|[?e Hbody]]; rewrite ?Hbody; cbn;
  destruct (session_aexit r) as [?e|] eqn:?; cbn;
  destruct (transport_aexit r) as [?e|] eqn:?; cbn.

(** X17. [list_tools] releases what it acquires on every path: the
    transport and the session are each closed as many times as they are
    opened, at most once, whether the handshake, the listing, the
    construction of the entries or a closing operation returns or raises;
    and nothing is requested from a session whose handshake failed. *)
Theorem list_tools_closes_the_session (r : Remote) (url token : string) :
  let tr := trace (list_tools session_list_tools r url token) in
  count is_transport_close tr = count is_transport_open tr
  ∧ count is_session_close tr = count is_session_open tr
  ∧ count is_session_open tr ≤ count is_transport_open tr
  ∧ count is_transport_open tr ≤ 1
  ∧ count is_call_tool tr = 0
  ∧ (∀ v, result (list_tools session_list_tools r url token) = Return v →
       session_initialize r = None
       ∧ tr = [Connect url [("Authorization", "Bearer " +:+ token)]; TransportOpen;
               SessionOpen; Initialize; SessionClose; TransportClose]).
Proof.
  listing_cases r url; repeat split; try lia; try discriminate.
Qed.

(** X18. When every operation succeeds and each tool of the reply has a
    name, a description and an input schema, [list_tools] returns one
    dictionary per tool, in the order of the reply, holding exactly these
    three attributes of the tool. *)
Theorem list_tools_describes_the_tools
    (r : Remote) (url token : string) (res tools : pyobj) (items : list pyobj) :
  transport_aenter r url [("Authorization", "Bearer " +:+ token)] = None →
  session_aenter r = None → session_initialize r = None →
  session_aexit r = None → transport_aexit r = None →
  session_list_tools r = inr res →
  Py.getattr res "tools" = Some tools →
  Py.iter tools = inr items →
  Forall (λ tool, first_missing tool = None) items →
  ∃ entries,
    result (list_tools session_list_tools r url token) = Return (PList entries)
    ∧ Forall2 describes items entries.
Proof.
  intros Hta Hsa Hsi Hsx Htx Hl Ht Hi Hall.
  destruct (comprehension_complete items Hall) as (entries & Hc & Hd).
  exists entries. split; [|exact Hd].
  unfold list_tools, create_session, async_with, streamablehttp_client,
    ClientSession, initialize, check, tool_entries.
  cbn [aenter aexit]. unfold mbind, M_bind, mret, M_ret, emit. cbv beta iota.
  rewrite Hta, Hsa, Hsi, Hl. cbv beta iota. rewrite attribute_unfold, Ht.
  cbv beta iota. rewrite Hi. cbv beta iota.
  fold (@mbind M _) in Hc. unfold mbind, M_bind, mret, M_ret in Hc.
  rewrite Hc. cbv beta iota. rewrite Hsx, Htx. reflexivity.
Qed.

(** X19. One tool without one of the three attributes fails the whole
    listing: [list_tools] raises the [AttributeError] of the first
    missing attribute of the first such tool, after closing the session,
    and returns no partial list. *)
Theorem list_tools_needs_complete_tools
    (r : Remote) (url token : string) (res tools : pyobj)
    (before after : list pyobj) (tool : pyobj) (name : string) :
  transport_aenter r url [("Authorization", "Bearer " +:+ token)] = None →
  session_aenter r = None → session_initialize r = None →
  session_aexit r = None → transport_aexit r = None →
  session_list_tools r = inr res →
  Py.getattr res "tools" = Some tools →
  Py.iter tools = inr (before ++ tool :: after) →
  Forall (λ tool, first_missing tool = None) before →
  first_missing tool = Some name →
  list_tools session_list_tools r url token
  = ([Connect url [("Authorization", "Bearer " +:+ token)]; TransportOpen;
      SessionOpen; Initialize; SessionClose; TransportClose],
     Raise (Exception (Exn "AttributeError"
              ("'" +:+ Py.type_name tool +:+ "' object has no attribute '"
                 +:+ name +:+ "'")))).
Proof.
  intros Hta Hsa Hsi Hsx Htx Hl Ht Hi Hb Hm.
  pose proof (comprehension_incomplete before after tool name Hb Hm) as Hc.
  unfold list_tools, create_session, async_with, streamablehttp_client,
    ClientSession, initialize, check, tool_entries.
  cbn [aenter aexit]. unfold mbind, M_bind, mret, M_ret, emit. cbv beta iota.
  rewrite Hta, Hsa, Hsi, Hl. cbv beta iota. rewrite attribute_unfold, Ht.
  cbv beta iota. rewrite Hi. cbv beta iota.
  fold (@mbind M _) in Hc. unfold mbind, M_bind, mret, M_ret in Hc.
  rewrite Hc. cbv beta iota. rewrite Hsx, Htx. reflexivity.
Qed.

End ListTools.

Lemma list_tools_closes_the_session_witness :
  trace (list_tools (λ _, inr SampleHost.tools_reply)
           (Sample.service (inr PNone)) DEFAULT_URL "other")
  = [Connect DEFAULT_URL [("Authorization", "Bearer " +:+ "other")]; TransportOpen;
     SessionOpen; Initialize; SessionClose; TransportClose].
Proof.
  eapply (list_tools_closes_the_session (λ _, inr SampleHost.tools_reply)
            (Sample.service (inr PNone)) DEFAULT_URL "other").
  reflexivity.
Defined.

Lemma list_tools_describes_the_tools_witness :
  ∃ entries,
    result (list_tools (λ _, inr SampleHost.tools_reply)
              (Sample.service (inr PNone)) DEFAULT_URL "other")
    = Return (PList entries)
    ∧ Forall2 describes
        [SampleHost.tool "list_keys" "List keys";
         SampleHost.tool "get_memory" "Read a memory"] entries.
Proof.
  apply (list_tools_describes_the_tools (λ _, inr SampleHost.tools_reply)
           (Sample.service (inr PNone)) DEFAULT_URL "other" SampleHost.tools_reply
           (PList [SampleHost.tool "list_keys" "List keys";
                   SampleHost.tool "get_memory" "Read a memory"]));
    try reflexivity.
  repeat constructor.
Defined.

Lemma list_tools_needs_complete_tools_witness :
  result (list_tools (λ _, inr SampleHost.bare_tools_reply)
            (Sample.service (inr PNone)) DEFAULT_URL "other")
  = Raise (Exception (Exn "AttributeError" "'Tool' object has no attribute 'inputSchema'")).
Proof.
  rewrite (list_tools_needs_complete_tools (λ _, inr SampleHost.bare_tools_reply)
             (Sample.service (inr PNone)) DEFAULT_URL "other" SampleHost.bare_tools_reply
             (PList [SampleHost.tool "list_keys" "List keys"; SampleHost.bare_tool])
             [SampleHost.tool "list_keys" "List keys"] [] SampleHost.bare_tool "inputSchema");
    try reflexivity.
  repeat constructor.
Defined.

(** ** Dependency bootstrapper *)

Lemma boot_events_boot (t : list boot_event) :
  boot_events (inl <$> t) = t ∧ main_events (inl <$> t) = [].
Proof.
  split.
  - induction t as [|b t IH]; [reflexivity|].
    change (b :: boot_events (inl <$> t) = b :: t). f_equal. exact IH.
  - induction t as [|b t IH]; [reflexivity|]. exact IH.
Qed.

Lemma boot_events_main (b : boot_event) (t : list event) :
  boot_events (inl b :: (inr <$> t)) = [b] ∧ main_events (inl b :: (inr <$> t)) = t.
Proof.
  split.
  - change (b :: boot_events (inr <$> t) = [b]). f_equal.
    induction t as [|m t IH]; [reflexivity|]. exact IH.
  - change (main_events (inr <$> t) = t).
    induction t as [|m t IH]; [reflexivity|].
    change (m :: main_events (inr <$> t) = m :: t). f_equal. exact IH.
Qed.

Section Bootstrap.

Variable inst : Installer.
Variable w : World.

(** [ensure_pipx], route by route. *)
Lemma ensure_pipx_unfold :
  ensure_pipx inst w =
    let p := pipx_pyz w in
    let curl_args := ["curl"; "-LsSf"; PIPX_URL; "-o"; Path.to_str p] in
    let by_curl (tr : list boot_event) (e : exn) : Boot string :=
      let tr' := tr ++ [BootPrintErr ("Failed to download pipx: " +:+ exn_str e);
                        BootPrintErr "Trying with curl..."; Curl curl_args] in
      match curl inst curl_args, chmod_curled inst with
      | Some e2, _ =>
          (tr' ++ [BootPrintErr ("Failed to download pipx with curl: " +:+ exn_str e2)],
           Raise (SystemExit 1))
      | None, Some e2 =>
          (tr' ++ [Chmod p mode_755;
                   BootPrintErr ("Failed to download pipx with curl: " +:+ exn_str e2)],
           Raise (SystemExit 1))
      | None, None => (tr' ++ [Chmod p mode_755], Return (Path.to_str p))
      end in
    match fs w !! p with
    | Some _ => ([BootExists p], Return (Path.to_str p))
    | None =>
        let start := [BootExists p; BootPrintErr "Downloading pipx standalone zipapp...";
                      Urlretrieve PIPX_URL p] in
        match urlretrieve inst PIPX_URL p, chmod_downloaded inst with
        | Some e, _ => by_curl start e
        | None, Some e => by_curl (start ++ [Chmod p mode_755]) e
        | None, None => (start ++ [Chmod p mode_755], Return (Path.to_str p))
        end
    end.
Proof.
  unfold ensure_pipx. fold (pipx_pyz w). cbv zeta.
  destruct (fs w !! pipx_pyz w) as [n|]; [reflexivity|].
  rewrite bool_decide_eq_false_2 by (intros [? [=]]).
  destruct (urlretrieve inst PIPX_URL (pipx_pyz w)) as [e|];
    [|destruct (chmod_downloaded inst) as [e|]];
    try reflexivity;
    (destruct (curl inst _) as [e2|]; [|destruct (chmod_curled inst) as [e2|]]);
    reflexivity.
Qed.

(** [ensure_pipx] returns the path of the zipapp or exits with status 1. *)
Lemma ensure_pipx_result :
  ended (ensure_pipx inst w) = Return (Path.to_str (pipx_pyz w))
  ∨ ended (ensure_pipx inst w) = Raise (SystemExit 1).
Proof.
  rewrite ensure_pipx_unfold. cbv zeta.
  destruct (fs w !! pipx_pyz w); [by left|].
  destruct (urlretrieve inst _ _); [|destruct (chmod_downloaded inst)];
    try (by left);
    (destruct (curl inst _); [|destruct (chmod_curled inst)]); auto.
Qed.

Lemma main_wrapper_unfold :
  main_wrapper inst w =
    if PyStr.truthy (environ w !! "PIPX_RUNNING") then
      ([BootGetEnv "PIPX_RUNNING"], Return false)
    else
      match ensure_pipx inst w with
      | (t, Return _) =>
          (BootGetEnv "PIPX_RUNNING" :: t ++ [RunChild (child_cmd inst w) (child_env inst w)],
           match run_child inst (child_cmd inst w) (child_env inst w) with
           | inr returncode => Raise (SystemExit returncode)
           | inl e => Raise (Exception e)
           end)
      | (t, Raise r) => (BootGetEnv "PIPX_RUNNING" :: t, Raise r)
      end.
Proof.
  unfold main_wrapper. cbn [mbind Boot_bind boot_emit mret Boot_ret app].
  destruct (PyStr.truthy (environ w !! "PIPX_RUNNING")); [reflexivity|].
  pose proof ensure_pipx_result as Hres.
  destruct (ensure_pipx inst w) as [t [s|r]]; simpl in Hres.
  - destruct Hres as [[= ->]|[=]]. unfold child_cmd.
    cbn [app mbind Boot_bind boot_emit].
    destruct (run_child inst _ (child_env inst w)); reflexivity.
  - reflexivity.
Qed.

End Bootstrap.

Section Script.

Variable inst : Installer.
Variable w : World.
Variable json_loads : string → loads_result.

Lemma script_unfold :
  script inst w json_loads =
    if PyStr.truthy (environ w !! "PIPX_RUNNING") then
      match imports inst with
      | Some e => ([inl (BootGetEnv "PIPX_RUNNING")], Raise (Exception e))
      | None =>
          (inl (BootGetEnv "PIPX_RUNNING") :: (inr <$> trace (main_async json_loads w)),
           result (main_async json_loads w))
      end
    else
      (inl <$> (BootGetEnv "PIPX_RUNNING" :: events (main_wrapper inst w)),
       match ended (main_wrapper inst w) with
       | Return _ => Raise (SystemExit 1)
       | Raise r => Raise r
       end).
Proof.
  unfold script, bootstrap. cbn [mbind Boot_bind boot_emit mret Boot_ret app].
  destruct (PyStr.truthy (environ w !! "PIPX_RUNNING")) eqn:Hrun; cbn [negb].
  - destruct (imports inst); [reflexivity|].
    unfold main. destruct (main_async json_loads w). reflexivity.
  - destruct (main_wrapper inst w) as [t [b|r]] eqn:Hmw; [|reflexivity].
    exfalso. rewrite main_wrapper_unfold, Hrun in Hmw.
    destruct (ensure_pipx inst w) as [t' [s|r]]; [|discriminate].
    destruct (run_child inst _ _); discriminate.
Qed.

Lemma script_under_pipx :
  PyStr.truthy (environ w !! "PIPX_RUNNING") = true →
  imports inst = None →
  events (script inst w json_loads)
  = inl (BootGetEnv "PIPX_RUNNING") :: (inr <$> trace (main_async json_loads w))
  ∧ ended (script inst w json_loads) = result (main_async json_loads w).
Proof. intros Hrun Himp. rewrite script_unfold, Hrun, Himp. by split. Qed.

Lemma script_without_imports (e : exn) :
  PyStr.truthy (environ w !! "PIPX_RUNNING") = true →
  imports inst = Some e →
  script inst w json_loads = ([inl (BootGetEnv "PIPX_RUNNING")], Raise (Exception e)).
Proof. intros Hrun Himp. rewrite script_unfold, Hrun, Himp. reflexivity. Qed.

Lemma script_without_pipx :
  PyStr.truthy (environ w !! "PIPX_RUNNING") = false →
  boot_events (events (script inst w json_loads))
  = BootGetEnv "PIPX_RUNNING" :: events (main_wrapper inst w)
  ∧ main_events (events (script inst w json_loads)) = []
  ∧ ended (script inst w json_loads)
    = match ended (main_wrapper inst w) with
      | Return _ => Raise (SystemExit 1)
      | Raise r => Raise r
      end.
Proof.
  intros Hrun. rewrite script_unfold, Hrun.
  change (events (?t, ?o)) with t. change (ended (?t, ?o)) with o.
  destruct (boot_events_boot (BootGetEnv "PIPX_RUNNING" :: events (main_wrapper inst w)))
    as [-> ->].
  by repeat split.
Qed.

(** X20. Under pipx the wrapper is idle: with [PIPX_RUNNING] set to a
    non-empty value, [main_wrapper] returns [False] after reading the
    variable and nothing is probed, downloaded or executed.  The script
    then goes on to its imports: when they succeed, the rest of the script
    is the run of [main]; when one of them raises, the script ends on
    that exception and [main] does not run. *)
Theorem wrapper_is_idle_under_pipx :
  PyStr.truthy (environ w !! "PIPX_RUNNING") = true →
  main_wrapper inst w = ([BootGetEnv "PIPX_RUNNING"], Return false)
  ∧ boot_events (events (script inst w json_loads)) = [BootGetEnv "PIPX_RUNNING"]
  ∧ (imports inst = None →
     main_events (events (script inst w json_loads)) = trace (main_async json_loads w)
     ∧ ended (script inst w json_loads) = result (main_async json_loads w))
  ∧ (∀ e, imports inst = Some e →
       main_events (events (script inst w json_loads)) = []
       ∧ ended (script inst w json_loads) = Raise (Exception e)).
Proof.
  intros Hrun. rewrite main_wrapper_unfold, Hrun. split; [reflexivity|].
  destruct (imports inst) as [e|] eqn:Himp.
  - rewrite (script_without_imports e Hrun Himp).
    split; [reflexivity|]. split; [discriminate|].
    intros e' [= <-]. by split.
  - destruct (script_under_pipx Hrun Himp) as [-> ->].
    destruct (boot_events_main (BootGetEnv "PIPX_RUNNING") (trace (main_async json_loads w)))
      as [-> ->].
    split; [reflexivity|]. split; [by split|discriminate].
Qed.

(** X21. Without [PIPX_RUNNING] the process never reaches [main]: no
    configuration is resolved and no remote service contacted by it; it
    ends inside the wrapper, by an exit or an exception, after running at
    most one child. *)
Theorem parent_never_runs_main :
  PyStr.truthy (environ w !! "PIPX_RUNNING") = false →
  main_events (events (script inst w json_loads)) = []
  ∧ (∃ r, ended (script inst w json_loads) = Raise r)
  ∧ boot_count is_run_child (boot_events (events (script inst w json_loads))) ≤ 1.
Proof.
  intros Hrun. destruct (script_without_pipx Hrun) as (-> & -> & ->).
  split; [reflexivity|]. split.
  - destruct (ended (main_wrapper inst w)); eauto.
  - rewrite main_wrapper_unfold, Hrun, ensure_pipx_unfold. cbv zeta.
    destruct (fs w !! pipx_pyz w); [simpl; lia|].
    destruct (urlretrieve inst _ _); [|destruct (chmod_downloaded inst)];
      try (simpl; lia);
      (destruct (curl inst _); [|destruct (chmod_curled inst)]); simpl; lia.
Qed.

(** X22. With the zipapp in place nothing is downloaded and nothing is
    written to standard error: the wrapper runs the interpreter on the
    zipapp, which it names by the path of the script as it was invoked,
    with [run], the resolved path of the script and the arguments of the
    command line, and the process calls [sys.exit] with the return code of
    the child. *)
Theorem present_pipx_is_used (n : node) (returncode : Z) :
  PyStr.truthy (environ w !! "PIPX_RUNNING") = false →
  fs w !! pipx_pyz w = Some n →
  run_child inst (child_cmd inst w) (child_env inst w) = inr returncode →
  script inst w json_loads
  = (inl <$> [BootGetEnv "PIPX_RUNNING"; BootGetEnv "PIPX_RUNNING";
              BootExists (Path.parent (script_file w) // "pipx.pyz");
              RunChild ([executable inst;
                         Path.to_str (Path.parent (script_file w) // "pipx.pyz"); "run";
                         Path.to_str (resolve_path inst (script_file w))]
                          ++ drop 1 (argv w))
                (child_env inst w)],
     Raise (SystemExit returncode)).
Proof.
  intros Hrun Hp Hc.
  rewrite script_unfold, Hrun, main_wrapper_unfold, Hrun, ensure_pipx_unfold.
  cbv zeta. rewrite Hp. unfold events, ended. cbn [fst snd app]. rewrite Hc.
  reflexivity.
Qed.

(** X23. curl is the fallback and only that: with the zipapp missing,
    [urlretrieve] is attempted exactly once, and curl is run, once, exactly
    when [urlretrieve] or the [chmod] after it raises; with the zipapp in
    place neither is attempted. *)
Theorem curl_is_the_fallback :
  (is_Some (fs w !! pipx_pyz w) →
   boot_count is_urlretrieve (events (ensure_pipx inst w)) = 0
   ∧ boot_count is_curl (events (ensure_pipx inst w)) = 0
   ∧ boot_count is_boot_print (events (ensure_pipx inst w)) = 0)
  ∧ (fs w !! pipx_pyz w = None →
     boot_count is_urlretrieve (events (ensure_pipx inst w)) = 1
     ∧ boot_count is_curl (events (ensure_pipx inst w))
       = match urlretrieve inst PIPX_URL (pipx_pyz w), chmod_downloaded inst with
         | None, None => 0
         | _, _ => 1
         end).
Proof.
  rewrite ensure_pipx_unfold. cbv zeta. split.
  - intros [n ->]. repeat split; reflexivity.
  - intros ->.
    destruct (urlretrieve inst _ _); [|destruct (chmod_downloaded inst)];
      try (split; reflexivity);
      (destruct (curl inst _); [|destruct (chmod_curled inst)]); split; reflexivity.
Qed.

(** X24. When both ways of downloading fail, the process exits with
    status 1 without running a child; its last line on standard error
    carries the message of the second failure. *)
Theorem failed_download_exits (e1 e2 : exn) :
  PyStr.truthy (environ w !! "PIPX_RUNNING") = false →
  fs w !! pipx_pyz w = None →
  urlretrieve inst PIPX_URL (pipx_pyz w) = Some e1
  ∨ (urlretrieve inst PIPX_URL (pipx_pyz w) = None ∧ chmod_downloaded inst = Some e1) →
  curl inst ["curl"; "-LsSf"; PIPX_URL; "-o"; Path.to_str (pipx_pyz w)] = Some e2
  ∨ (curl inst ["curl"; "-LsSf"; PIPX_URL; "-o"; Path.to_str (pipx_pyz w)] = None
     ∧ chmod_curled inst = Some e2) →
  ended (script inst w json_loads) = Raise (SystemExit 1)
  ∧ boot_count is_run_child (boot_events (events (script inst w json_loads))) = 0
  ∧ ∃ before,
      boot_events (events (script inst w json_loads))
      = before ++ [BootPrintErr ("Failed to download pipx with curl: " +:+ exn_str e2)]
      ∧ BootPrintErr ("Failed to download pipx: " +:+ exn_str e1) ∈ before.
Proof.
  intros Hrun Hp H1 H2.
  destruct (script_without_pipx Hrun) as (-> & _ & ->).
  rewrite main_wrapper_unfold, Hrun, ensure_pipx_unfold. cbv zeta. rewrite Hp.
  destruct H1 as [->|[-> ->]]; destruct H2 as [->|[-> ->]];
    (split; [reflexivity|split; [reflexivity|]]).
  - eexists [_; _; _; _; _; _; _; _]. split; [reflexivity|]. repeat constructor.
  - eexists [_; _; _; _; _; _; _; _; _]. split; [reflexivity|]. repeat constructor.
  - eexists [_; _; _; _; _; _; _; _; _]. split; [reflexivity|]. repeat constructor.
  - eexists [_; _; _; _; _; _; _; _; _; _]. split; [reflexivity|]. repeat constructor.
Qed.

(** X25. Whatever the route to the zipapp, a child that is run is run
    with the same command, on the resolved path of the script, in a copy
    of the environment in which [PIPX_RUNNING] is ["1"], [PIPX_HOME] the
    [.pipx] directory beside the resolved script and every other variable
    unchanged; the outcome of the process is the return code of the child,
    or the exception of running it. *)
Theorem child_is_run_under_pipx (cmd : list string) (env : gmap string string) :
  RunChild cmd env ∈ boot_events (events (script inst w json_loads)) →
  cmd = [executable inst; Path.to_str (Path.parent (script_file w) // "pipx.pyz"); "run";
         Path.to_str (resolve_path inst (script_file w))]
          ++ drop 1 (argv w)
  ∧ env !! "PIPX_RUNNING" = Some "1"
  ∧ env !! "PIPX_HOME"
    = Some (Path.to_str (Path.parent (resolve_path inst (script_file w)) // ".pipx"))
  ∧ (∀ name, name ≠ "PIPX_RUNNING" → name ≠ "PIPX_HOME" →
       env !! name = environ w !! name)
  ∧ ended (script inst w json_loads)
    = match run_child inst cmd env with
      | inr returncode => Raise (SystemExit returncode)
      | inl e => Raise (Exception e)
      end.
Proof.
  destruct (PyStr.truthy (environ w !! "PIPX_RUNNING")) eqn:Hrun.
  { destruct (imports inst) as [e|] eqn:Himp.
    - rewrite (script_without_imports e Hrun Himp).
      intros Hin. apply list_elem_of_singleton in Hin. discriminate.
    - destruct (script_under_pipx Hrun Himp) as [-> _].
      destruct (boot_events_main (BootGetEnv "PIPX_RUNNING")
                  (trace (main_async json_loads w))) as [-> _].
      intros Hin. apply list_elem_of_singleton in Hin. discriminate. }
  destruct (script_without_pipx Hrun) as (-> & _ & ->).
  rewrite main_wrapper_unfold, Hrun.
  assert (Henv : child_env inst w !! "PIPX_RUNNING" = Some "1"
            ∧ child_env inst w !! "PIPX_HOME"
              = Some (Path.to_str (Path.parent (resolve_path inst (script_file w)) // ".pipx"))
            ∧ ∀ name, name ≠ "PIPX_RUNNING" → name ≠ "PIPX_HOME" →
                child_env inst w !! name = environ w !! name).
  { unfold child_env. cbv zeta. split; [|split].
    - rewrite lookup_insert_ne by discriminate. apply lookup_insert_eq.
    - apply lookup_insert_eq.
    - intros name H1 H2. rewrite !lookup_insert_ne by congruence. reflexivity. }
  assert (Hpipx : ∀ ev, ev ∈ events (ensure_pipx inst w) → is_run_child ev = false).
  { rewrite ensure_pipx_unfold. cbv zeta.
    destruct (fs w !! pipx_pyz w); [|destruct (urlretrieve inst _ _);
      [|destruct (chmod_downloaded inst)]];
      try (destruct (curl inst _); [|destruct (chmod_curled inst)]);
      unfold events; cbn [fst app]; intros ev Hev;
      repeat (apply elem_of_cons in Hev as [->|Hev]; [reflexivity|]);
      apply elem_of_nil in Hev as []. }
  destruct (ensure_pipx inst w) as [t [s|r]]; unfold events, ended in *; cbn [fst snd] in *.
  - intros Hin. apply elem_of_cons in Hin as [[=]|Hin].
    apply elem_of_cons in Hin as [[=]|Hin].
    apply elem_of_app in Hin as [Hin|Hin].
    + apply Hpipx in Hin. discriminate.
    + apply list_elem_of_singleton in Hin as [= -> ->].
      split; [reflexivity|]. destruct Henv as (? & ? & ?).
      split; [assumption|]. split; [assumption|]. split; [assumption|].
      destruct (run_child inst (child_cmd inst w) (child_env inst w)); reflexivity.
  - intros Hin. apply elem_of_cons in Hin as [[=]|Hin].
    apply elem_of_cons in Hin as [[=]|Hin].
    apply Hpipx in Hin. discriminate.
Qed.

End Script.

(** [get_config] depends on the environment through three lookups. *)
Lemma get_config_same_variables (w : World) (env : gmap string string) :
  env !! "ENSUE_URL" = environ w !! "ENSUE_URL" →
  env !! "ENSUE_API_KEY" = environ w !! "ENSUE_API_KEY" →
  env !! "ENSUE_TOKEN" = environ w !! "ENSUE_TOKEN" →
  get_config (with_environ env w) = get_config w.
Proof.
  intros Hurl Hkey Htok.
  destruct (env_cases w) as [(key & H & Hk)|[(Hk & tok & H & Ht)|(Hk & Ht)]].
  - rewrite (get_config_api_key w key H Hk).
    rewrite (get_config_api_key (with_environ env w) key);
      [|cbn [environ with_environ]; congruence|exact Hk].
    unfold service_url. cbn [environ with_environ]. rewrite Hurl. reflexivity.
  - apply get_config_environ; congruence.
  - apply get_config_environ; congruence.
Qed.

(** The first element of [sys.argv] is never read. *)
Lemma main_async_same_arguments
    (json_loads : string → loads_result) (w : World) (args : list string) :
  drop 1 args = drop 1 (argv w) →
  main_async json_loads (with_argv args w) = main_async json_loads w.
Proof.
  intros Hargs.
  unfold main_async, resolve, invoke, attempt, command_of, args_str_of.
  cbn [argv remote with_argv]. rewrite get_config_argv.
  destruct args as [|a0 args]; destruct (argv w) as [|b0 rest];
    simpl in Hargs; rewrite ?drop_0 in Hargs; subst; reflexivity.
Qed.

Lemma with_script_file_same (w : World) : with_script_file (script_file w) w = w.
Proof. by destruct w. Qed.

(** [get_config] depends on the file system through the two key files. *)
Lemma get_config_same_files (w : World) (files : gmap path node) :
  files !! plugin_key_file w = fs w !! plugin_key_file w →
  files !! skill_key_file w = fs w !! skill_key_file w →
  get_config (with_fs files w) = get_config w.
Proof.
  intros Hp Hs.
  destruct (env_cases w) as [(key & H & Hk)|[(Hk & tok & H & Ht)|(Hk & Ht)]].
  - rewrite (get_config_api_key w key H Hk).
    apply (get_config_api_key (with_fs files w) key H Hk).
  - rewrite (get_config_env_token w tok Hk H Ht).
    apply (get_config_env_token (with_fs files w) tok Hk H Ht).
  - rewrite (get_config_fallback w Hk Ht).
    rewrite (get_config_fallback (with_fs files w) Hk Ht).
    unfold service_url, no_token_error, plugin_key_file, skill_key_file in *.
    cbn [environ fs script_file with_fs]. rewrite Hp, Hs. reflexivity.
Qed.

(** A run depends on the file system through [get_config] only. *)
Lemma main_async_files
    (json_loads : string → loads_result) (w : World) (files : gmap path node) :
  get_config (with_fs files w) = get_config w →
  main_async json_loads (with_fs files w) = main_async json_loads w.
Proof.
  intros H. unfold main_async, resolve. rewrite H. reflexivity.
Qed.

(** X26. Re-execution happens once and moves the script only: in a world
    the child may run in, [PIPX_RUNNING] is set, so the wrapper is idle
    and the child starts no child of its own; the run of [main] in the
    child is, event for event, the run [main] has in the world of the
    parent with the resolved path of the script for [__file__], so the
    key files of the child are those beside the resolved script; when the
    path of the script resolves to itself, it is the run [main] has in
    the world of the parent. *)
Theorem reexecution_is_transparent
    (inst : Installer) (w c : World) (json_loads : string → loads_result) :
  is_child_world inst w c →
  let script_path := resolve_path inst (script_file w) in
  PyStr.truthy (environ c !! "PIPX_RUNNING") = true
  ∧ main_wrapper inst c = ([BootGetEnv "PIPX_RUNNING"], Return false)
  ∧ main_async json_loads c = main_async json_loads (with_script_file script_path w)
  ∧ plugin_key_file c
    = Path.parent (Path.parent script_path) // ".claude-plugin" // ".ensue-key"
  ∧ (script_path = script_file w → main_async json_loads c = main_async json_loads w).
Proof.
  intros (Hfile & Hargs & Henv & Hplugin & Hskill & Hremote) script_path.
  assert (Hother : ∀ name, name ∈ variables → name ≠ "PIPX_RUNNING" →
            environ c !! name = environ w !! name).
  { intros name Hin Hne. rewrite (Henv name Hin). unfold child_env. cbv zeta.
    rewrite !lookup_insert_ne; [reflexivity|congruence|].
    intros <-. revert Hin. unfold variables. rewrite !elem_of_cons, elem_of_nil.
    intros [[=]|[[=]|[[=]|[[=]|[]]]]]. }
  assert (Hrun : PyStr.truthy (environ c !! "PIPX_RUNNING") = true).
  { rewrite (Henv "PIPX_RUNNING") by (unfold variables; apply list_elem_of_here).
    unfold child_env. cbv zeta.
    rewrite lookup_insert_ne by discriminate. rewrite lookup_insert_eq. reflexivity. }
  assert (Hmain : main_async json_loads c
                  = main_async json_loads (with_script_file script_path w)).
  { assert (c = with_argv (argv c)
                  (with_environ (environ c)
                     (with_fs (fs c) (with_script_file script_path w)))) as Hc.
    { destruct c. unfold with_argv, with_environ, with_fs, with_script_file.
      simpl in *. subst. reflexivity. }
    unfold plugin_key_file, skill_key_file in Hplugin, Hskill.
    rewrite Hfile in Hplugin, Hskill. fold script_path in Hplugin, Hskill.
    rewrite Hc.
    rewrite main_async_same_arguments
      by (cbn [argv with_argv with_environ with_fs with_script_file]; exact Hargs).
    rewrite main_async_environ.
    2:{ apply get_config_same_variables;
          cbn [environ with_argv with_environ with_fs with_script_file]; apply Hother;
          unfold variables; rewrite ?elem_of_cons; auto 6; discriminate. }
    apply main_async_files, get_config_same_files; assumption. }
  split; [exact Hrun|]. split; [by rewrite main_wrapper_unfold, Hrun|].
  split; [exact Hmain|]. split.
  - unfold plugin_key_file. rewrite Hfile. reflexivity.
  - intros Hsame. rewrite Hmain. unfold script_path in *. rewrite Hsame.
    rewrite with_script_file_same. reflexivity.
Qed.

Lemma reexecution_is_transparent_witness :
  main_wrapper (SampleHost.linked 0)
    (child_world (SampleHost.linked 0) SampleHost.plugin_key_only)
  = ([BootGetEnv "PIPX_RUNNING"], Return false)
  ∧ plugin_key_file (child_world (SampleHost.linked 0) SampleHost.plugin_key_only)
    = ["srv"; "ensue"; ".claude-plugin"; ".ensue-key"]
  ∧ main_async Sample.json_loads
      (child_world (SampleHost.installer 0) SampleHost.plugin_key_only)
    = main_async Sample.json_loads SampleHost.plugin_key_only.
Proof.
  assert (Hchild : ∀ inst,
            is_child_world inst SampleHost.plugin_key_only
              (child_world inst SampleHost.plugin_key_only))
    by (intros inst; by repeat split).
  split; [|split].
  - apply (reexecution_is_transparent (SampleHost.linked 0) SampleHost.plugin_key_only
             _ Sample.json_loads (Hchild _)).
  - apply (reexecution_is_transparent (SampleHost.linked 0) SampleHost.plugin_key_only
             _ Sample.json_loads (Hchild _)).
  - apply (reexecution_is_transparent (SampleHost.installer 0) SampleHost.plugin_key_only
             _ Sample.json_loads (Hchild _)).
    reflexivity.
Defined.

Lemma wrapper_is_idle_under_pipx_witness :
  main_wrapper (SampleHost.installer 0)
    (child_world (SampleHost.installer 0) SampleHost.first_run)
  = ([BootGetEnv "PIPX_RUNNING"], Return false)
  ∧ (main_events
       (events (script SampleHost.without_mcp
                  (child_world SampleHost.without_mcp SampleHost.first_run)
                  Sample.json_loads)) = []
     ∧ ended (script SampleHost.without_mcp
                (child_world SampleHost.without_mcp SampleHost.first_run)
                Sample.json_loads)
       = Raise (Exception (Exn "ModuleNotFoundError" "No module named 'mcp'"))).
Proof.
  split.
  - apply (wrapper_is_idle_under_pipx (SampleHost.installer 0)
             (child_world (SampleHost.installer 0) SampleHost.first_run) Sample.json_loads).
    reflexivity.
  - apply (wrapper_is_idle_under_pipx SampleHost.without_mcp
             (child_world SampleHost.without_mcp SampleHost.first_run)
             Sample.json_loads eq_refl).
    reflexivity.
Defined.

Lemma parent_never_runs_main_witness :
  main_events (events (script SampleHost.offline SampleHost.fresh Sample.json_loads)) = [].
Proof.
  apply (parent_never_runs_main SampleHost.offline SampleHost.fresh Sample.json_loads).
  reflexivity.
Defined.

Lemma present_pipx_is_used_witness :
  script (SampleHost.linked 3) SampleHost.first_run Sample.json_loads
  = (inl <$> [BootGetEnv "PIPX_RUNNING"; BootGetEnv "PIPX_RUNNING";
              BootExists ["opt"; "ensue-skill"; "scripts"; "pipx.pyz"];
              RunChild ["/usr/bin/python3"; "/opt/ensue-skill/scripts/pipx.pyz"; "run";
                        "/srv/ensue/scripts/ensue-cli.py"; "list_keys"; "{}"]
                (child_env (SampleHost.linked 3) SampleHost.first_run)],
     Raise (SystemExit 3)).
Proof.
  apply (present_pipx_is_used (SampleHost.linked 3) SampleHost.first_run
           Sample.json_loads (RegularFile "") 3%Z);
    reflexivity.
Defined.

Lemma curl_is_the_fallback_witness :
  (boot_count is_urlretrieve
     (events (ensure_pipx SampleHost.curl_only SampleHost.first_run)) = 0
   ∧ boot_count is_curl (events (ensure_pipx SampleHost.curl_only SampleHost.first_run)) = 0
   ∧ boot_count is_boot_print
       (events (ensure_pipx SampleHost.curl_only SampleHost.first_run)) = 0)
  ∧ (boot_count is_urlretrieve (events (ensure_pipx SampleHost.curl_only SampleHost.fresh)) = 1
     ∧ boot_count is_curl (events (ensure_pipx SampleHost.curl_only SampleHost.fresh)) = 1).
Proof.
  split.
  - apply (curl_is_the_fallback SampleHost.curl_only SampleHost.first_run).
    exists (RegularFile ""). reflexivity.
  - apply (curl_is_the_fallback SampleHost.curl_only SampleHost.fresh). reflexivity.
Defined.

Lemma failed_download_exits_witness :
  ended (script SampleHost.offline SampleHost.fresh Sample.json_loads)
  = Raise (SystemExit 1).
Proof.
  apply (failed_download_exits SampleHost.offline SampleHost.fresh Sample.json_loads
           (Exn "URLError" "<urlopen error timed out>")
           (Exn "CalledProcessError" "Command 'curl' returned non-zero exit status 6."));
    [reflexivity | reflexivity | left; reflexivity | left; reflexivity].
Defined.

Lemma child_is_run_under_pipx_witness :
  child_env (SampleHost.linked 0) SampleHost.fresh !! "PIPX_RUNNING" = Some "1"
  ∧ child_env (SampleHost.linked 0) SampleHost.fresh !! "PIPX_HOME"
    = Some "/srv/ensue/scripts/.pipx"
  ∧ child_env (SampleHost.linked 0) SampleHost.fresh !! "ENSUE_TOKEN" = Some "other".
Proof.
  destruct (child_is_run_under_pipx (SampleHost.linked 0) SampleHost.fresh Sample.json_loads
              (child_cmd (SampleHost.linked 0) SampleHost.fresh)
              (child_env (SampleHost.linked 0) SampleHost.fresh))
    as (_ & Hrun & Hhome & Hother & _).
  - vm_compute. repeat constructor.
  - split; [exact Hrun|]. split; [exact Hhome|]. rewrite Hother by discriminate.
    reflexivity.
Defined.
